(** * GA4 flattener: schema reconciliation, query builders and the writer

    A shallow embedding of [cf/main.py] (class [GaExportedNestedDataStorage])
    and the properties of its schema reconciliation, query text builders,
    field-name sanitization, dataframe transform and rolling write path. *)

From Stdlib Require Import String Ascii List Bool Arith NArith Lia.
Import ListNotations.
Open Scope string_scope.

(** ** Python values shared by the whole development *)

(** Exceptions that the modelled code can raise.  [ApiError c] is a
    [google.api_core] call error, which carries an HTTP status in its
    [code] attribute; every other exception has no such attribute. *)
Inductive exn : Type :=
| IndexError
| KeyError
| TypeError
| AttributeError
| ValueError
| ApiError (code : nat)
| OtherError (what : string).

(** Result of a Python expression that may raise. *)
Inductive result (A : Type) : Type :=
| Ok (a : A)
| Raise (e : exn).
Arguments Ok {A} a.
Arguments Raise {A} e.

Definition rbind {A B} (r : result A) (k : A -> result B) : result B :=
  match r with
  | Ok a => k a
  | Raise e => Raise e
  end.

(** ** Python [str]

    A [str] is modelled as a Rocq [string] whose characters are the code
    points U+0000..U+00FF; the character classes below are Python's on that
    range.  Code points above U+00FF are outside the model: what is
    proved of a text is proved of the texts of this range. *)
Module PyStr.

Definition code (c : ascii) : N := N_of_ascii c.

Definition between (lo hi : N) (c : ascii) : bool :=
  (lo <=? code c)%N && (code c <=? hi)%N.

Definition is_code (n : N) (c : ascii) : bool := (code c =? n)%N.

(** [c.isdigit()]: the decimal digits and the superscripts 1, 2, 3. *)
Definition isdigit (c : ascii) : bool :=
  between 48 57 c || is_code 178 c || is_code 179 c || is_code 185 c.

(** [c.isalpha()]: letters of the range (categories Lu, Ll, Lo). *)
Definition isalpha (c : ascii) : bool :=
  between 65 90 c || between 97 122 c
  || is_code 170 c || is_code 181 c || is_code 186 c
  || between 192 214 c || between 216 246 c || between 248 255 c.

(** [c.isnumeric()] adds the vulgar fractions to the digits. *)
Definition isnumeric (c : ascii) : bool :=
  isdigit c || between 188 190 c.

(** [c.isalnum()] is [isalpha or isdecimal or isdigit or isnumeric]. *)
Definition isalnum (c : ascii) : bool :=
  isalpha c || isdigit c || isnumeric c.

Definition lower_char (c : ascii) : ascii :=
  if between 65 90 c || between 192 214 c || between 216 222 c
  then ascii_of_N (code c + 32)
  else c.

(** [s.lower()] *)
Fixpoint lower (s : string) : string :=
  match s with
  | EmptyString => EmptyString
  | String c rest => String (lower_char c) (lower rest)
  end.

(** [s.replace(old, new)] for one-character [old] and [new]. *)
Fixpoint replace_char (old new : ascii) (s : string) : string :=
  match s with
  | EmptyString => EmptyString
  | String c rest =>
      String (if Ascii.eqb c old then new else c) (replace_char old new rest)
  end.

(** [s[:n]] for a non-negative [n]. *)
Definition slice_to (n : nat) (s : string) : string := substring 0 n s.

(** [s.endswith(suffix)] *)
Definition endswith (s suffix : string) : bool :=
  Nat.leb (String.length suffix) (String.length s)
  && String.eqb
       (substring (String.length s - String.length suffix) (String.length suffix) s)
       suffix.

(** [s[0]] *)
Definition first_char (s : string) : result ascii :=
  match s with
  | EmptyString => Raise IndexError
  | String c _ => Ok c
  end.

(** The double-quote character, and a line break. *)
Definition dq : string := String (ascii_of_nat 34) EmptyString.
Definition nl : string := String (ascii_of_nat 10) EmptyString.

(** A string of [n] spaces. *)
Fixpoint spaces (n : nat) : string :=
  match n with
  | O => EmptyString
  | S n' => String " "%char (spaces n')
  end.

End PyStr.

(** ** Field-name sanitization *)

(** The loop of [_create_valid_bigquery_field_name]: [r] accumulates one
    character per character of the lower-cased input. *)
Fixpoint sanitize_loop (r : string) (chars : string) : string :=
  match chars with
  | EmptyString => r
  | String char rest =>
      if PyStr.isalnum char
      then sanitize_loop (r ++ String char EmptyString) rest
      else sanitize_loop (r ++ "_") rest
  end.

Definition _create_valid_bigquery_field_name (p_field : string) : result string :=
  let r := sanitize_loop "" (PyStr.lower p_field) in
  rbind (PyStr.first_char r) (fun c0 =>
  let r := if PyStr.isdigit c0 then "_" ++ r else r in
  Ok (PyStr.slice_to 300 r)).


(** ** Insertion-ordered dictionaries

    A Python [dict] (and the column map of a dataframe) iterates in
    insertion order; assigning to a key that is present replaces its value
    in place, assigning to a new key appends it. *)
Section Dict.
Context {V : Type}.

Definition dict : Type := list (string * V).

Fixpoint dict_get (d : dict) (k : string) : option V :=
  match d with
  | [] => None
  | (k', v) :: rest => if String.eqb k' k then Some v else dict_get rest k
  end.

(** [k in d] *)
Definition dict_contains (d : dict) (k : string) : bool :=
  match dict_get d k with
  | Some _ => true
  | None => false
  end.

(** [d[k] = v] *)
Fixpoint dict_set (d : dict) (k : string) (v : V) : dict :=
  match d with
  | [] => [(k, v)]
  | (k', v') :: rest =>
      if String.eqb k' k then (k', v) :: rest else (k', v') :: dict_set rest k v
  end.

(** Removal of a key, as [dataframe.drop(labels=[k], axis=1)] does. *)
Fixpoint dict_drop (d : dict) (k : string) : dict :=
  match d with
  | [] => []
  | (k', v) :: rest =>
      if String.eqb k' k then dict_drop rest k else (k', v) :: dict_drop rest k
  end.

(** [d[k]] *)
Definition dict_item (d : dict) (k : string) : result V :=
  match dict_get d k with
  | Some v => Ok v
  | None => Raise KeyError
  end.

End Dict.
Arguments dict V : clear implicits.

(** [l[i]] *)
Definition list_item (l : list string) (i : nat) : result string :=
  match nth_error l i with
  | Some x => Ok x
  | None => Raise IndexError
  end.

(** ** Data model *)

Module SqlTypeNames.
Definition STRING : string := "STRING".
Definition INTEGER : string := "INTEGER".
Definition FLOAT : string := "FLOAT".
Definition DATE : string := "DATE".
End SqlTypeNames.

(** [bigquery.SchemaField(name, field_type)] *)
Record SchemaField : Type := mkSchemaField {
  name : string;
  field_type : string
}.

(** A row of the distinct-keys query: a raw key and its type fingerprint. *)
Record Row : Type := mkRow {
  event_params_key : string;
  event_params_type : string
}.

(** The value of [datetime.strptime(date_shard, '%Y%m%d')]: a calendar day
    at midnight. *)
Record datetime : Type := mkDatetime {
  year : nat;
  month : nat;
  day : nat
}.

(** The attributes of a [GaExportedNestedDataStorage] object. *)
Record GaExportedNestedDataStorage : Type := mkStorage {
  gcp_project : string;
  dataset : string;
  date_shard : string;
  date : datetime;
  table_name : string;
  type : string;
  event_params_flat_fields : dict string;
  unique_event_id_fields : list string;
  event_params_fields : list string;
  user_properties_fields : list string;
  items_fields : list string;
  events_fields : list string;
  partitioned_table_schemas : dict (list SchemaField);
  partitioning_column : string
}.

(** suffix used to denote field names in flat_events which were created
    from event parameter keys *)
Definition EP_SUFFIX : string := "_ep".

Definition init_unique_event_id_fields : list string :=
  [ "stream_id";
    "user_pseudo_id";
    "event_name";
    "event_timestamp" ].
Definition init_event_params_fields : list string :=
  [ "event_params.key";
    "event_params.value.string_value";
    "event_params.value.int_value";
    "event_params.value.float_value";
    "event_params.value.double_value" ].
Definition init_user_properties_fields : list string :=
  [ "user_properties.key";
    "user_properties.value.string_value";
    "user_properties.value.int_value";
    "user_properties.value.float_value";
    "user_properties.value.double_value";
    "user_properties.value.set_timestamp_micros" ].
Definition init_items_fields : list string :=
  [ "items.item_id";
    "items.item_name";
    "items.item_brand";
    "items.item_variant";
    "items.item_category";
    "items.item_category2";
    "items.item_category3";
    "items.item_category4";
    "items.item_category5";
    "items.price_in_usd";
    "items.price";
    "items.quantity";
    "items.item_revenue_in_usd";
    "items.item_revenue";
    "items.item_refund_in_usd";
    "items.item_refund";
    "items.coupon";
    "items.affiliation";
    "items.location_id";
    "items.item_list_id";
    "items.item_list_name";
    "items.item_list_index";
    "items.promotion_id";
    "items.promotion_name";
    "items.creative_name";
    "items.creative_slot" ].
Definition init_events_fields : list string :=
  [ "event_date";
    "event_timestamp";
    "event_name";
    "event_previous_timestamp";
    "event_value_in_usd";
    "event_bundle_sequence_id";
    "event_server_timestamp_offset";
    "user_id";
    "user_pseudo_id";
    "privacy_info.analytics_storage";
    "privacy_info.ads_storage";
    "privacy_info.uses_transient_token";
    "user_first_touch_timestamp";
    "user_ltv.revenue";
    "user_ltv.currency";
    "device.category";
    "device.mobile_brand_name";
    "device.mobile_model_name";
    "device.mobile_marketing_name";
    "device.mobile_os_hardware_model";
    "device.operating_system";
    "device.operating_system_version";
    "device.vendor_id";
    "device.advertising_id";
    "device.language";
    "device.is_limited_ad_tracking";
    "device.time_zone_offset_seconds";
    "device.browser";
    "device.browser_version";
    "device.web_info.browser";
    "device.web_info.browser_version";
    "device.web_info.hostname";
    "geo.continent";
    "geo.country";
    "geo.region";
    "geo.city";
    "geo.sub_continent";
    "geo.metro";
    "app_info.id";
    "app_info.version";
    "app_info.install_store";
    "app_info.firebase_app_id";
    "app_info.install_source";
    "traffic_source.name";
    "traffic_source.medium";
    "traffic_source.source";
    "stream_id";
    "platform";
    "event_dimensions.hostname";
    "ecommerce.total_item_quantity";
    "ecommerce.purchase_revenue_in_usd";
    "ecommerce.purchase_revenue";
    "ecommerce.refund_value_in_usd";
    "ecommerce.refund_value";
    "ecommerce.shipping_value_in_usd";
    "ecommerce.shipping_value";
    "ecommerce.tax_value_in_usd";
    "ecommerce.tax_value";
    "ecommerce.unique_items";
    "ecommerce.transaction_id" ].
Definition init_flat_event_params_schema : list SchemaField :=
  [ mkSchemaField "event_date" SqlTypeNames.DATE;
    mkSchemaField "event_id" SqlTypeNames.STRING;
    mkSchemaField "event_params_key" SqlTypeNames.STRING;
    mkSchemaField "event_params_value" SqlTypeNames.STRING ].
Definition init_flat_events_schema : list SchemaField :=
  [ mkSchemaField "event_date" SqlTypeNames.DATE;
    mkSchemaField "event_id" SqlTypeNames.STRING;
    mkSchemaField "event_timestamp" SqlTypeNames.INTEGER;
    mkSchemaField "event_name" SqlTypeNames.STRING;
    mkSchemaField "event_previous_timestamp" SqlTypeNames.INTEGER;
    mkSchemaField "event_value_in_usd" SqlTypeNames.FLOAT;
    mkSchemaField "event_bundle_sequence_id" SqlTypeNames.INTEGER;
    mkSchemaField "event_server_timestamp_offset" SqlTypeNames.INTEGER;
    mkSchemaField "user_id" SqlTypeNames.STRING;
    mkSchemaField "user_pseudo_id" SqlTypeNames.STRING;
    mkSchemaField "privacy_info_analytics_storage" SqlTypeNames.STRING;
    mkSchemaField "privacy_info_ads_storage" SqlTypeNames.STRING;
    mkSchemaField "privacy_info_uses_transient_token" SqlTypeNames.STRING;
    mkSchemaField "user_first_touch_timestamp" SqlTypeNames.INTEGER;
    mkSchemaField "user_ltv_revenue" SqlTypeNames.FLOAT;
    mkSchemaField "user_ltv_currency" SqlTypeNames.STRING;
    mkSchemaField "device_category" SqlTypeNames.STRING;
    mkSchemaField "device_mobile_brand_name" SqlTypeNames.STRING;
    mkSchemaField "device_mobile_model_name" SqlTypeNames.STRING;
    mkSchemaField "device_mobile_marketing_name" SqlTypeNames.STRING;
    mkSchemaField "device_mobile_os_hardware_model" SqlTypeNames.STRING;
    mkSchemaField "device_operating_system" SqlTypeNames.STRING;
    mkSchemaField "device_operating_system_version" SqlTypeNames.STRING;
    mkSchemaField "device_vendor_id" SqlTypeNames.STRING;
    mkSchemaField "device_advertising_id" SqlTypeNames.STRING;
    mkSchemaField "device_language" SqlTypeNames.STRING;
    mkSchemaField "device_is_limited_ad_tracking" SqlTypeNames.STRING;
    mkSchemaField "device_time_zone_offset_seconds" SqlTypeNames.INTEGER;
    mkSchemaField "device_browser" SqlTypeNames.STRING;
    mkSchemaField "device_browser_version" SqlTypeNames.STRING;
    mkSchemaField "device_web_info_browser" SqlTypeNames.STRING;
    mkSchemaField "device_web_info_browser_version" SqlTypeNames.STRING;
    mkSchemaField "device_web_info_hostname" SqlTypeNames.STRING;
    mkSchemaField "geo_continent" SqlTypeNames.STRING;
    mkSchemaField "geo_country" SqlTypeNames.STRING;
    mkSchemaField "geo_region" SqlTypeNames.STRING;
    mkSchemaField "geo_city" SqlTypeNames.STRING;
    mkSchemaField "geo_sub_continent" SqlTypeNames.STRING;
    mkSchemaField "geo_metro" SqlTypeNames.STRING;
    mkSchemaField "app_info_id" SqlTypeNames.STRING;
    mkSchemaField "app_info_version" SqlTypeNames.STRING;
    mkSchemaField "app_info_install_store" SqlTypeNames.STRING;
    mkSchemaField "app_info_firebase_app_id" SqlTypeNames.STRING;
    mkSchemaField "app_info_install_source" SqlTypeNames.STRING;
    mkSchemaField "traffic_source_name" SqlTypeNames.STRING;
    mkSchemaField "traffic_source_medium" SqlTypeNames.STRING;
    mkSchemaField "traffic_source_source" SqlTypeNames.STRING;
    mkSchemaField "stream_id" SqlTypeNames.STRING;
    mkSchemaField "platform" SqlTypeNames.STRING;
    mkSchemaField "event_dimensions_hostname" SqlTypeNames.STRING;
    mkSchemaField "ecommerce_total_item_quantity" SqlTypeNames.INTEGER;
    mkSchemaField "ecommerce_purchase_revenue_in_usd" SqlTypeNames.FLOAT;
    mkSchemaField "ecommerce_purchase_revenue" SqlTypeNames.FLOAT;
    mkSchemaField "ecommerce_refund_value_in_usd" SqlTypeNames.FLOAT;
    mkSchemaField "ecommerce_refund_value" SqlTypeNames.FLOAT;
    mkSchemaField "ecommerce_shipping_value_in_usd" SqlTypeNames.FLOAT;
    mkSchemaField "ecommerce_shipping_value" SqlTypeNames.FLOAT;
    mkSchemaField "ecommerce_tax_value_in_usd" SqlTypeNames.FLOAT;
    mkSchemaField "ecommerce_tax_value" SqlTypeNames.FLOAT;
    mkSchemaField "ecommerce_unique_items" SqlTypeNames.INTEGER;
    mkSchemaField "ecommerce_transaction_id" SqlTypeNames.STRING ].
Definition init_flat_items_schema : list SchemaField :=
  [ mkSchemaField "event_date" SqlTypeNames.DATE;
    mkSchemaField "event_id" SqlTypeNames.STRING;
    mkSchemaField "items_item_id" SqlTypeNames.STRING;
    mkSchemaField "items_item_name" SqlTypeNames.STRING;
    mkSchemaField "items_item_brand" SqlTypeNames.STRING;
    mkSchemaField "items_item_variant" SqlTypeNames.STRING;
    mkSchemaField "items_item_category" SqlTypeNames.STRING;
    mkSchemaField "items_item_category2" SqlTypeNames.STRING;
    mkSchemaField "items_item_category3" SqlTypeNames.STRING;
    mkSchemaField "items_item_category4" SqlTypeNames.STRING;
    mkSchemaField "items_item_category5" SqlTypeNames.STRING;
    mkSchemaField "items_price_in_usd" SqlTypeNames.FLOAT;
    mkSchemaField "items_price" SqlTypeNames.FLOAT;
    mkSchemaField "items_quantity" SqlTypeNames.INTEGER;
    mkSchemaField "items_item_revenue_in_usd" SqlTypeNames.FLOAT;
    mkSchemaField "items_item_revenue" SqlTypeNames.FLOAT;
    mkSchemaField "items_item_refund_in_usd" SqlTypeNames.FLOAT;
    mkSchemaField "items_item_refund" SqlTypeNames.FLOAT;
    mkSchemaField "items_coupon" SqlTypeNames.STRING;
    mkSchemaField "items_affiliation" SqlTypeNames.STRING;
    mkSchemaField "items_location_id" SqlTypeNames.STRING;
    mkSchemaField "items_item_list_id" SqlTypeNames.STRING;
    mkSchemaField "items_item_list_name" SqlTypeNames.STRING;
    mkSchemaField "items_item_list_index" SqlTypeNames.STRING;
    mkSchemaField "items_promotion_id" SqlTypeNames.STRING;
    mkSchemaField "items_promotion_name" SqlTypeNames.STRING;
    mkSchemaField "items_creative_name" SqlTypeNames.STRING;
    mkSchemaField "items_creative_slot" SqlTypeNames.STRING ].
Definition init_flat_user_properties_schema : list SchemaField :=
  [ mkSchemaField "event_date" SqlTypeNames.DATE;
    mkSchemaField "event_id" SqlTypeNames.STRING;
    mkSchemaField "user_properties_key" SqlTypeNames.STRING;
    mkSchemaField "user_properties_value" SqlTypeNames.STRING;
    mkSchemaField "user_properties_value_set_timestamp_micros" SqlTypeNames.INTEGER ].

(** [__init__]; [date] is the value that [datetime.strptime] returns for
    [date_shard]. *)
Definition __init__ (gcp_project dataset table_name date_shard : string)
    (date : datetime) : GaExportedNestedDataStorage :=
  {| gcp_project := gcp_project;
     dataset := dataset;
     date_shard := date_shard;
     date := date;
     table_name := table_name;
     type := "DAILY";
     event_params_flat_fields := [];
     unique_event_id_fields := init_unique_event_id_fields;
     event_params_fields := init_event_params_fields;
     user_properties_fields := init_user_properties_fields;
     items_fields := init_items_fields;
     events_fields := init_events_fields;
     partitioned_table_schemas :=
       [ ("flat_event_params", init_flat_event_params_schema);
         ("flat_events", init_flat_events_schema);
         ("flat_items", init_flat_items_schema);
         ("flat_user_properties", init_flat_user_properties_schema) ];
     partitioning_column := "event_date" |}.

Definition set_event_params_flat_fields (self : GaExportedNestedDataStorage)
    (v : dict string) : GaExportedNestedDataStorage :=
  {| gcp_project := gcp_project self;
     dataset := dataset self;
     date_shard := date_shard self;
     date := date self;
     table_name := table_name self;
     type := type self;
     event_params_flat_fields := v;
     unique_event_id_fields := unique_event_id_fields self;
     event_params_fields := event_params_fields self;
     user_properties_fields := user_properties_fields self;
     items_fields := items_fields self;
     events_fields := events_fields self;
     partitioned_table_schemas := partitioned_table_schemas self;
     partitioning_column := partitioning_column self |}.

Definition set_partitioned_table_schemas (self : GaExportedNestedDataStorage)
    (v : dict (list SchemaField)) : GaExportedNestedDataStorage :=
  {| gcp_project := gcp_project self;
     dataset := dataset self;
     date_shard := date_shard self;
     date := date self;
     table_name := table_name self;
     type := type self;
     event_params_flat_fields := event_params_flat_fields self;
     unique_event_id_fields := unique_event_id_fields self;
     event_params_fields := event_params_fields self;
     user_properties_fields := user_properties_fields self;
     items_fields := items_fields self;
     events_fields := events_fields self;
     partitioned_table_schemas := v;
     partitioning_column := partitioning_column self |}.

(** ** The pandas operations the writer uses

    The cell-level behaviour of pandas is not part of this repository; the
    operations are taken as an interface.  Each cast may raise. *)
Class Pandas : Type := {
  Series : Type;
  (** [series.astype(str)] *)
  astype_str : Series -> result Series;
  (** [series.astype(float)] *)
  astype_float : Series -> result Series;
  (** [pd.Series(list(series), dtype=pd.Int64Dtype())] *)
  series_Int64 : Series -> result Series;
  (** [series.dt.date] *)
  dt_date : Series -> result Series;
  (** the column that [dataframe[label] = scalar] stores in [dataframe] *)
  broadcast : datetime -> dict Series -> Series
}.

(** A dataframe: its columns by label, in column order. *)
Definition DataFrame `{Pandas} : Type := dict Series.

(** ** The engine and the trace of what was done to it *)

Record QueryJobConfig : Type := mkQueryJobConfig {
  qj_destination : option string;
  qj_dry_run : option bool;
  qj_use_query_cache : option bool;
  qj_labels : dict string;
  qj_write_disposition : option string
}.

Record LoadJobConfig : Type := mkLoadJobConfig {
  lj_schema : option (list SchemaField);
  lj_autodetect : bool;
  lj_time_partitioning_field : string;
  lj_write_disposition : string;
  lj_labels : dict string
}.

Inductive LogLevel : Type := INFO | WARNING | CRITICAL.

(** What one run leaves behind: log records and the jobs sent to the
    engine, oldest first. *)
Inductive Event `{Pandas} : Type :=
| Log (level : LogLevel) (msg : string) (e : option exn)
| QuerySubmitted (query : string) (config : QueryJobConfig)
| LoadSubmitted (dataframe : DataFrame) (destination : string)
    (config : LoadJobConfig).

(** The [RowIterator] that [job.result()] returns.  The rows arrive page by
    page while the caller iterates: the iteration yields [yielded], row by
    row, and then ends, or raises [failure] when a further page cannot be
    fetched. *)
Record RowIterator : Type := mkRowIterator {
  yielded : list Row;
  failure : option exn
}.

(** The answers of the engine to the calls of [bigquery.Client]. *)
Record Client `{Pandas} : Type := mkClient {
  (** [client.query(q, cfg)]: submitting a job *)
  query : string -> QueryJobConfig -> result unit;
  (** [job.result()] of the distinct-keys query: an iterator over rows *)
  result_rows : string -> result RowIterator;
  (** [job.result().to_dataframe()] of a flattening query *)
  result_dataframe : string -> result DataFrame;
  (** [job.result()] of a job whose rows are not read *)
  result_wait : string -> result unit;
  (** [client.get_table(name).schema] *)
  get_table : string -> result (list SchemaField);
  (** [client.load_table_from_dataframe(...)] followed by [.result()] *)
  load_table_from_dataframe :
    DataFrame -> string -> LoadJobConfig -> result unit
}.

(** ** Methods as state transformers

    A method reads and writes the attributes of [self], may leave events
    behind and may raise; what it did before raising stays done. *)
Record World `{Pandas} : Type := mkWorld {
  self_ : GaExportedNestedDataStorage;
  trace : list Event
}.

Definition M `{Pandas} (A : Type) : Type := World -> result A * World.

Section Monad.
Context `{Pandas}.

Definition ret {A} (a : A) : M A := fun w => (Ok a, w).

Definition bind {A B} (c : M A) (k : A -> M B) : M B :=
  fun w =>
    match c w with
    | (Ok a, w') => k a w'
    | (Raise e, w') => (Raise e, w')
    end.

Definition raise {A} (e : exn) : M A := fun w => (Raise e, w).

Definition lift {A} (r : result A) : M A := fun w => (r, w).

Definition get_self : M GaExportedNestedDataStorage :=
  fun w => (Ok (self_ w), w).

Definition put_self (s : GaExportedNestedDataStorage) : M unit :=
  fun w => (Ok tt, {| self_ := s; trace := trace w |}).

Definition emit (ev : Event) : M unit :=
  fun w => (Ok tt, {| self_ := self_ w; trace := trace w ++ [ev] |}).

(** [try: c except Exception as e: h e] *)
Definition try_except {A} (c : M A) (h : exn -> M A) : M A :=
  fun w =>
    match c w with
    | (Ok a, w') => (Ok a, w')
    | (Raise e, w') => h e w'
    end.

End Monad.

Declare Scope py_scope.
Delimit Scope py_scope with py.
Notation "x <- c1 ;; c2" := (bind c1 (fun x => c2))
  (at level 61, c1 at next level, right associativity) : py_scope.
Notation "c1 ;; c2" := (bind c1 (fun _ => c2))
  (at level 61, right associativity) : py_scope.
Open Scope py_scope.

(** ** Query builders *)

Section Queries.
Context `{Pandas}.

(** build unique event id *)
Definition get_unique_event_id (unique_event_id_fields : list string)
    : result string :=
  rbind (list_item unique_event_id_fields 0) (fun f0 =>
  rbind (list_item unique_event_id_fields 1) (fun f1 =>
  rbind (list_item unique_event_id_fields 2) (fun f2 =>
  rbind (list_item unique_event_id_fields 3) (fun f3 =>
  Ok ("CONCAT(" ++ f0 ++ ", " ++ PyStr.dq ++ "_" ++ PyStr.dq
        ++ ", " ++ f1 ++ ", " ++ PyStr.dq ++ "_" ++ PyStr.dq
        ++ ", " ++ f2 ++ ", " ++ PyStr.dq ++ "_" ++ PyStr.dq
        ++ ", " ++ f3 ++ ") as event_id"))))).

(** [" FROM `{p}.{ds}.{t}_{d}`"] filled from the shard's coordinates. *)
Definition from_shard (self : GaExportedNestedDataStorage) : string :=
  " FROM `" ++ gcp_project self ++ "." ++ dataset self ++ "."
    ++ table_name self ++ "_" ++ date_shard self ++ "`".

(** [",%s as %s" % (f, f.replace(".", "_"))] *)
Definition aliased (f : string) : string :=
  "," ++ f ++ " as " ++ PyStr.replace_char "."%char "_"%char f.

(** The single text value of a key/value element: every slot defaults to
    the empty text and the four are concatenated. *)
Definition coalesced_value (f1 f2 f3 f4 alias : string) : string :=
  ",CONCAT(IFNULL(" ++ f1 ++ ", ''), IFNULL(CAST(" ++ f2
    ++ " AS STRING), ''), IFNULL(CAST(" ++ f3
    ++ " AS STRING), ''), IFNULL(CAST(" ++ f4
    ++ " AS STRING), '')) AS " ++ alias.

Definition get_event_params_keys_and_types_query : M string :=
  self <- get_self ;;
  let qry :=
    PyStr.nl
    ++ PyStr.spaces 16 ++ "WITH T as (" ++ PyStr.nl
    ++ PyStr.spaces 18 ++ "SELECT event_params.key as event_params_key, " ++ PyStr.nl
    ++ PyStr.spaces 18
    ++ "CONCAT(IF(event_params.value.string_value IS NULL, '','STRING')," ++ PyStr.nl
    ++ PyStr.spaces 25
    ++ "IF(event_params.value.int_value IS NULL, '', 'INTEGER'), " ++ PyStr.nl
    ++ PyStr.spaces 25
    ++ "IF(event_params.value.double_value IS NULL, '', 'DOUBLE'), " ++ PyStr.nl
    ++ PyStr.spaces 25
    ++ "IF(event_params.value.float_value IS NULL, '', 'FLOAT')" ++ PyStr.nl
    ++ PyStr.spaces 24 ++ ")  AS event_params_type" ++ PyStr.nl
    ++ PyStr.spaces 16 in
  let qry := qry ++ from_shard self in
  let qry := qry
    ++ ", UNNEST (event_params) AS event_params) SELECT DISTINCT(event_params_key), event_params_type FROM T" in
  ret qry.

Definition get_event_params_query : M string :=
  self <- get_self ;;
  let qry := "SELECT " in
  uid <- lift (get_unique_event_id (unique_event_id_fields self)) ;;
  let qry := qry ++ uid in
  f0 <- lift (list_item (event_params_fields self) 0) ;;
  let qry := qry ++ aliased f0 in
  f1 <- lift (list_item (event_params_fields self) 1) ;;
  f2 <- lift (list_item (event_params_fields self) 2) ;;
  f3 <- lift (list_item (event_params_fields self) 3) ;;
  f4 <- lift (list_item (event_params_fields self) 4) ;;
  let qry := qry ++ coalesced_value f1 f2 f3 f4 "event_params_value" in
  let qry := qry ++ from_shard self in
  let qry := qry ++ ",UNNEST (event_params) AS event_params" in
  ret qry.

Definition get_user_properties_query : M string :=
  self <- get_self ;;
  let qry := "SELECT " in
  uid <- lift (get_unique_event_id (unique_event_id_fields self)) ;;
  let qry := qry ++ uid in
  f0 <- lift (list_item (user_properties_fields self) 0) ;;
  let qry := qry ++ aliased f0 in
  f1 <- lift (list_item (user_properties_fields self) 1) ;;
  f2 <- lift (list_item (user_properties_fields self) 2) ;;
  f3 <- lift (list_item (user_properties_fields self) 3) ;;
  f4 <- lift (list_item (user_properties_fields self) 4) ;;
  let qry := qry ++ coalesced_value f1 f2 f3 f4 "user_properties_value" in
  f5 <- lift (list_item (user_properties_fields self) 5) ;;
  let qry := qry ++ aliased f5 in
  let qry := qry ++ from_shard self in
  let qry := qry ++ ",UNNEST (user_properties) AS user_properties" in
  ret qry.

Definition get_items_query : M string :=
  self <- get_self ;;
  let qry := "SELECT " in
  uid <- lift (get_unique_event_id (unique_event_id_fields self)) ;;
  let qry := qry ++ uid in
  let qry := fold_left (fun qry f => qry ++ aliased f) (items_fields self) qry in
  let qry := qry ++ from_shard self in
  let qry := qry ++ ",UNNEST (items) AS items" in
  ret qry.

(** The value slot that a dynamic column reads: the recorded type in lower
    case, with [INTEGER] replaced by [int] first. *)
Definition value_slot (f_type : string) : string :=
  let f_type := if String.eqb f_type "INTEGER" then "int" else f_type in
  PyStr.lower f_type ++ "_value".

(** One dynamic column of the events query. *)
Definition dynamic_column (key f_type : string) : string :=
  ",(SELECT value." ++ value_slot f_type
    ++ " FROM UNNEST(events.event_params) WHERE key = '" ++ key
    ++ "') AS " ++ key ++ EP_SUFFIX.

Definition get_events_query : M string :=
  self <- get_self ;;
  let qry := "SELECT " in
  uid <- lift (get_unique_event_id (unique_event_id_fields self)) ;;
  let qry := qry ++ uid in
  let qry := fold_left (fun qry f => qry ++ aliased f) (events_fields self) qry in
  let qry :=
    fold_left (fun qry (item : string * string) =>
                 let (key, f_type) := item in qry ++ dynamic_column key f_type)
              (event_params_flat_fields self) qry in
  let qry := qry ++ from_shard self ++ " as events" in
  ret qry.

(** The four entity kinds and the query [flatten_ga_data] builds for each. *)
Inductive EntityKind : Type := EVENT_PARAMS | USER_PROPERTIES | ITEMS | EVENTS.

Definition build_query (kind : EntityKind) : M string :=
  match kind with
  | EVENT_PARAMS => get_event_params_query
  | USER_PROPERTIES => get_user_properties_query
  | ITEMS => get_items_query
  | EVENTS => get_events_query
  end.

End Queries.

(** ** Dates as text *)

(** [str(d)] for a [datetime] at midnight: [YYYY-MM-DD 00:00:00]. *)
Definition digit (n : nat) : ascii := ascii_of_nat (48 + n mod 10).

Definition two_digits (n : nat) : string :=
  String (digit (n / 10)) (String (digit n) EmptyString).

Definition str_datetime (d : datetime) : string :=
  two_digits (year d / 100) ++ two_digits (year d) ++ "-"
    ++ two_digits (month d) ++ "-" ++ two_digits (day d) ++ " 00:00:00".

(** Whether the text starts with a match of [20\d\d\-\d\d\-\d\d]. *)
Definition starts_with_date (s : string) : bool :=
  match s with
  | String c0 (String c1 (String c2 (String c3 (String c4 (String c5
      (String c6 (String c7 (String c8 (String c9 _))))))))) =>
      Ascii.eqb c0 "2" && Ascii.eqb c1 "0"
      && PyStr.between 48 57 c2 && PyStr.between 48 57 c3
      && Ascii.eqb c4 "-"
      && PyStr.between 48 57 c5 && PyStr.between 48 57 c6
      && Ascii.eqb c7 "-"
      && PyStr.between 48 57 c8 && PyStr.between 48 57 c9
  | _ => false
  end.

(** [re.search(r'20\d\d\-\d\d\-\d\d', s)]: the leftmost match, if any. *)
Fixpoint re_search_date (s : string) : option string :=
  if starts_with_date s then Some (substring 0 10 s)
  else match s with
       | EmptyString => None
       | String _ rest => re_search_date rest
       end.

(** [m.group(0)] on the outcome of a search. *)
Definition group0 (m : option string) : result string :=
  match m with
  | Some s => Ok s
  | None => Raise AttributeError
  end.

(** ** Schema reconciliation *)

Section Reconcile.
Context `{Pandas}.

(** [client.query(q, job_config=cfg)] *)
Definition client_query (client : Client) (q : string) (cfg : QueryJobConfig)
    : M unit :=
  emit (QuerySubmitted q cfg) ;;
  lift (query client q cfg).

(** First loop: every field of the existing schema whose name carries the
    suffix seeds the registry with its raw key and its type. *)
Definition seed_registry (original_schema : list SchemaField)
    (registry : dict string) : dict string :=
  fold_left
    (fun registry schema_field =>
       if PyStr.endswith (name schema_field) EP_SUFFIX
       then
         let original_field_name :=
           PyStr.slice_to
             (String.length (name schema_field) - String.length EP_SUFFIX)
             (name schema_field) in
         dict_set registry original_field_name (field_type schema_field)
       else registry)
    original_schema registry.

(** Second loop: a key seen in the source that the registry lacks is added
    with the fingerprint of the row that first shows it. *)
Definition add_observed (event_params_rows : list Row) (registry : dict string)
    : dict string :=
  fold_left
    (fun registry row =>
       if negb (dict_contains registry (event_params_key row))
       then dict_set registry (event_params_key row) (event_params_type row)
       else registry)
    event_params_rows registry.

(** Third loop: one field is appended per entry of the registry. *)
Definition append_registry (registry : dict string)
    (new_schema : list SchemaField) : list SchemaField :=
  fold_left
    (fun new_schema (item : string * string) =>
       let (ep_key, ep_type) := item in
       let field_name := ep_key ++ EP_SUFFIX in
       (new_schema ++ [mkSchemaField field_name ep_type])%list)
    registry new_schema.

Definition set_dynamic_flat_events_schema (client : Client) : M unit :=
  query <- get_event_params_keys_and_types_query ;;
  let query_job_config :=
    {| qj_destination := None; qj_dry_run := Some false;
       qj_use_query_cache := None; qj_labels := [];
       qj_write_disposition := None |} in
  client_query client query query_job_config ;;
  event_params_rows <- lift (result_rows client query) ;;
  self <- get_self ;;
  let flat_events_table :=
    gcp_project self ++ "." ++ dataset self ++ ".flat_events" in
  original_schema <-
    try_except (lift (get_table client flat_events_table))
      (fun e =>
         match e with
         | ApiError 404 =>
             original_schema <-
               lift (dict_item (partitioned_table_schemas self) "flat_events") ;;
             emit (Log INFO "flat_events table not found, using hardcoded schema" None) ;;
             ret original_schema
         | _ => raise e
         end) ;;
  (* the first loop writes the registry of the object in place *)
  self <- get_self ;;
  put_self
    (set_event_params_flat_fields self
       (seed_registry original_schema (event_params_flat_fields self))) ;;
  (* so does the second, for the rows that arrive; a page that fails to
     arrive ends the loop, and the method, with its error *)
  self <- get_self ;;
  put_self
    (set_event_params_flat_fields self
       (add_observed (yielded event_params_rows)
          (event_params_flat_fields self))) ;;
  match failure event_params_rows with
  | Some e => raise e
  | None => ret tt
  end ;;
  self <- get_self ;;
  let new_schema :=
    append_registry (event_params_flat_fields self) original_schema in
  put_self
    (set_partitioned_table_schemas self
       (dict_set (partitioned_table_schemas self) "flat_events" new_schema)).

End Reconcile.

(** ** The writer *)

Section Writer.
Context `{Pandas}.

(** [dataframe[column]] *)
Definition df_item (dataframe : DataFrame) (column : string) : result Series :=
  dict_item dataframe column.

(** The body of the inner loop for one schema field: the column is cast
    according to the type of the field that bears its name. *)
Definition coerce_field (dest_bq_field : SchemaField) (column : string)
    (dataframe : DataFrame) : result DataFrame :=
  if String.eqb (name dest_bq_field) column then
    if String.eqb (field_type dest_bq_field) "STRING" then
      rbind (df_item dataframe column) (fun s =>
      rbind (astype_str s) (fun s' => Ok (dict_set dataframe column s')))
    else if String.eqb (field_type dest_bq_field) "FLOAT" then
      rbind (df_item dataframe column) (fun s =>
      rbind (astype_float s) (fun s' => Ok (dict_set dataframe column s')))
    else if String.eqb (field_type dest_bq_field) "INTEGER" then
      rbind (df_item dataframe column) (fun s =>
      rbind (series_Int64 s) (fun s' => Ok (dict_set dataframe column s')))
    else if String.eqb (field_type dest_bq_field) "DATE" then
      rbind (df_item dataframe column) (fun s =>
      rbind (dt_date s) (fun s' => Ok (dict_set dataframe column s')))
    else Ok dataframe
  else Ok dataframe.

(** [for dest_bq_field in bq_schema: ...] for one column. *)
Fixpoint coerce_column (bq_schema : list SchemaField) (column : string)
    (dataframe : DataFrame) : result DataFrame :=
  match bq_schema with
  | [] => Ok dataframe
  | dest_bq_field :: rest =>
      rbind (coerce_field dest_bq_field column dataframe)
            (coerce_column rest column)
  end.

(** [for column in dataframe: ...]; iterating over a missing schema
    ([None]) raises. *)
Fixpoint coerce_columns (bq_schema : option (list SchemaField))
    (columns : list string) (dataframe : DataFrame) : result DataFrame :=
  match columns with
  | [] => Ok dataframe
  | column :: rest =>
      match bq_schema with
      | None => Raise TypeError
      | Some fields =>
          rbind (coerce_column fields column dataframe)
                (coerce_columns bq_schema rest)
      end
  end.

Definition transform_dataframe (dataframe : DataFrame) (table_type : string)
    : M DataFrame :=
  self <- get_self ;;
  let dataframe :=
    dict_set dataframe (partitioning_column self)
             (broadcast (date self) dataframe) in
  let bq_schema := dict_get (partitioned_table_schemas self) table_type in
  dataframe <- lift (coerce_columns bq_schema (map fst dataframe) dataframe) ;;
  col <- lift (df_item dataframe (partitioning_column self)) ;;
  let dataframe := dict_drop dataframe (partitioning_column self) in
  let dataframe := (partitioning_column self, col) :: dataframe in
  ret dataframe.

(** The text of the partition delete. *)
Definition delete_query (self : GaExportedNestedDataStorage)
    (table_type date_string : string) : string :=
  PyStr.nl ++ PyStr.spaces 27
    ++ "DELETE FROM `" ++ gcp_project self ++ "." ++ dataset self ++ "."
    ++ table_type ++ "` WHERE event_date = " ++ PyStr.dq ++ date_string
    ++ PyStr.dq ++ ";" ++ PyStr.nl ++ PyStr.spaces 23.

(** The handler of the delete step: [e.code] is read first, which itself
    raises when [e] has no such attribute. *)
Definition on_delete_error (e : exn) : M unit :=
  match e with
  | ApiError code =>
      if Nat.eqb code 404
      then emit (Log WARNING
                   "Cannot delete the partition because the table doesn't exist yet: "
                   (Some e))
      else emit (Log CRITICAL "Cannot delete the partition: " (Some e))
  | _ => raise AttributeError
  end.

(** [bool(x)] of an optional list. *)
Definition truthy {A} (x : option (list A)) : bool :=
  match x with
  | Some (_ :: _) => true
  | _ => false
  end.

Definition run_query_job (client : Client) (query table_type : string)
    (sharded_output_required partitioned_output_required : bool) : M unit :=
  self <- get_self ;;
  let table_name :=
    gcp_project self ++ "." ++ dataset self ++ "." ++ table_type ++ "_"
      ++ date_shard self in
  let table_id := table_name in
  let query_job_flatten_config :=
    {| qj_destination := if sharded_output_required then Some table_id else None;
       qj_dry_run := Some false;
       qj_use_query_cache := Some true;
       qj_labels := [("queryfunction", "flatteningquery")];
       qj_write_disposition := Some "WRITE_TRUNCATE" |} in
  client_query client query query_job_flatten_config ;;
  if partitioned_output_required then
    dataframe <- lift (result_dataframe client query) ;;
    dataframe <- transform_dataframe dataframe table_type ;;
    try_except
      (let datetime_string := str_datetime (date self) in
       date_string <- lift (group0 (re_search_date datetime_string)) ;;
       let query_delete := delete_query self table_type date_string in
       let query_job_delete_config :=
         {| qj_destination := None; qj_dry_run := None;
            qj_use_query_cache := None;
            qj_labels := [("queryfunction", "flattenerpartitiondeletionquery")];
            qj_write_disposition := None |} in
       client_query client query_delete query_job_delete_config ;;
       lift (result_wait client query_delete))
      on_delete_error ;;
    let schema := dict_get (partitioned_table_schemas self) table_type in
    let load_job_config_partitioned :=
      {| lj_schema := schema;
         lj_autodetect := if truthy schema then false else true;
         lj_time_partitioning_field := partitioning_column self;
         lj_write_disposition := "WRITE_APPEND";
         lj_labels := [("queryfunction", "flattenerpartitionloadjob")] |} in
    let table_name_partitioned :=
      gcp_project self ++ "." ++ dataset self ++ "." ++ table_type in
    let table_id_partitioned := table_name_partitioned in
    emit (LoadSubmitted dataframe table_id_partitioned load_job_config_partitioned) ;;
    lift (load_table_from_dataframe client dataframe table_id_partitioned
            load_job_config_partitioned)
  else ret tt.

End Writer.

(** ** The event identifier as the engine computes it

    [get_unique_event_id] emits the text of a [CONCAT] call.  Its value on
    a source row is what the engine makes of that call: the arguments, as
    text, one after the other.  (A NULL argument makes the whole value
    NULL; rows with a NULL identity field are not modelled.) *)
Module Sql.

Inductive arg : Type :=
| Col (column : string)
| Lit (text : string).

Definition render_arg (a : arg) : string :=
  match a with
  | Col column => column
  | Lit text => PyStr.dq ++ text ++ PyStr.dq
  end.

Fixpoint join (sep : string) (l : list string) : string :=
  match l with
  | [] => ""
  | [x] => x
  | x :: rest => x ++ sep ++ join sep rest
  end.

(** The text of [CONCAT(a1, ..., an)]. *)
Definition render_concat (args : list arg) : string :=
  "CONCAT(" ++ join ", " (map render_arg args) ++ ")".

(** A source row: the text of each column's value. *)
Definition row : Type := string -> string.

Definition eval_arg (r : row) (a : arg) : string :=
  match a with
  | Col column => r column
  | Lit text => text
  end.

(** The value of [CONCAT(a1, ..., an)] on a row. *)
Fixpoint eval_concat (r : row) (args : list arg) : string :=
  match args with
  | [] => ""
  | a :: rest => eval_arg r a ++ eval_concat r rest
  end.

End Sql.

(** The arguments of the identifier's [CONCAT], from the identity fields. *)
Definition event_id_args (fields : list string) : result (list Sql.arg) :=
  rbind (list_item fields 0) (fun f0 =>
  rbind (list_item fields 1) (fun f1 =>
  rbind (list_item fields 2) (fun f2 =>
  rbind (list_item fields 3) (fun f3 =>
  Ok [Sql.Col f0; Sql.Lit "_"; Sql.Col f1; Sql.Lit "_";
      Sql.Col f2; Sql.Lit "_"; Sql.Col f3])))).

(** The identifier of a row with the given identity values, under the
    identity fields set by [__init__]. *)
Definition identity_row (stream_id user_pseudo_id event_name event_timestamp : string)
    : Sql.row :=
  fun column =>
    if String.eqb column "stream_id" then stream_id
    else if String.eqb column "user_pseudo_id" then user_pseudo_id
    else if String.eqb column "event_name" then event_name
    else if String.eqb column "event_timestamp" then event_timestamp
    else "".

Definition event_id (stream_id user_pseudo_id event_name event_timestamp : string)
    : result string :=
  rbind (event_id_args init_unique_event_id_fields) (fun args =>
  Ok (Sql.eval_concat
        (identity_row stream_id user_pseudo_id event_name event_timestamp)
        args)).

(** Whether a text contains the separator of the identifier. *)
Fixpoint has_separator (s : string) : bool :=
  match s with
  | EmptyString => false
  | String c rest => Ascii.eqb c "_" || has_separator rest
  end.

(** ** Vocabulary of the statements *)

(** Concatenation of a list of texts. *)
Fixpoint concat_all (l : list string) : string :=
  match l with
  | [] => ""
  | x :: rest => x ++ concat_all rest
  end.

(** [s * n] *)
Fixpoint repeat_string (s : string) (n : nat) : string :=
  match n with
  | O => ""
  | S n' => s ++ repeat_string s n'
  end.

(** Two objects describe the same job with the same registry: the same
    shard coordinates, the same field lists and the same registry content.
    Everything else (the parsed date, the schemas) may differ. *)
Definition same_job (a b : GaExportedNestedDataStorage) : Prop :=
  gcp_project a = gcp_project b
  /\ dataset a = dataset b
  /\ table_name a = table_name b
  /\ date_shard a = date_shard b
  /\ unique_event_id_fields a = unique_event_id_fields b
  /\ event_params_fields a = event_params_fields b
  /\ user_properties_fields a = user_properties_fields b
  /\ items_fields a = items_fields b
  /\ events_fields a = events_fields b
  /\ event_params_flat_fields a = event_params_flat_fields b.

(** The slot a dynamic column is said to read: the recorded type in lower
    case followed by [_value], except that [INTEGER] reads [int_value]. *)
Definition stated_slot (f_type : string) : string :=
  if String.eqb f_type "INTEGER" then "int_value"
  else PyStr.lower f_type ++ "_value".

(** The four value slots of a key/value element of the source. *)
Definition value_slots : list string :=
  ["string_value"; "int_value"; "float_value"; "double_value"].

(** The rows that show a key for the first time, given the keys already
    known, in the order of the rows. *)
Fixpoint first_seen (known : list string) (rows : list Row)
    : list (string * string) :=
  match rows with
  | [] => []
  | r :: rest =>
      if existsb (String.eqb (event_params_key r)) known
      then first_seen known rest
      else (event_params_key r, event_params_type r)
             :: first_seen (known ++ [event_params_key r])%list rest
  end.

(** The schema field published for a registry entry. *)
Definition dynamic_field (item : string * string) : SchemaField :=
  mkSchemaField (fst item ++ EP_SUFFIX) (snd item).

(** The raw key of a field that carries the suffix. *)
Definition raw_key (f : SchemaField) : string :=
  PyStr.slice_to (String.length (name f) - String.length EP_SUFFIX) (name f).

Section Statements.
Context `{Pandas}.

(** The configuration of the distinct-keys job. *)
Definition keys_job_config : QueryJobConfig :=
  {| qj_destination := None; qj_dry_run := Some false;
     qj_use_query_cache := None; qj_labels := [];
     qj_write_disposition := None |}.

(** The engine answers the reconciliation of [w] with the rows [rows],
    all of which arrive, and the existing schema [S]: either the destination table exists with
    schema [S], or it is not found and [S] is the built-in schema. *)
Definition answers (client : Client) (w : World) (rows : list Row)
    (S : list SchemaField) : Prop :=
  exists q,
    fst (get_event_params_keys_and_types_query w) = Ok q
    /\ query client q keys_job_config = Ok tt
    /\ result_rows client q = Ok (mkRowIterator rows None)
    /\ let table :=
         gcp_project (self_ w) ++ "." ++ dataset (self_ w) ++ ".flat_events" in
       (get_table client table = Ok S
        \/ (get_table client table = Raise (ApiError 404)
            /\ dict_get (partitioned_table_schemas (self_ w)) "flat_events"
               = Some S)).

(** The cast that the canonical type of a column calls for. *)
Definition cast_for (t : string) (s : Series) : result Series :=
  if String.eqb t "STRING" then astype_str s
  else if String.eqb t "FLOAT" then astype_float s
  else if String.eqb t "INTEGER" then series_Int64 s
  else if String.eqb t "DATE" then dt_date s
  else Ok s.

(** The canonical type of a column: the type of the schema field that
    bears its name. *)
Fixpoint canonical_type (schema : list SchemaField) (column : string)
    : option string :=
  match schema with
  | [] => None
  | f :: rest =>
      if String.eqb (name f) column then Some (field_type f)
      else canonical_type rest column
  end.

(** The types under which a schema lists a column, in the order of the
    schema: one type, the canonical one, when the names of the schema are
    distinct; none for a column that the schema does not name; several
    when the schema names the column several times, as the events schema
    does after a reconciliation that has repeated a published field. *)
Definition listed_types (schema : list SchemaField) (column : string)
    : list string :=
  map field_type (filter (fun f => String.eqb (name f) column) schema).

(** A series cast to each type of a list in turn. *)
Fixpoint cast_through (types : list string) (s : Series) : result Series :=
  match types with
  | [] => Ok s
  | t :: rest => rbind (cast_for t s) (cast_through rest)
  end.

(** A column coerced by the schema: cast to every type under which the
    schema lists it, hence to its canonical type when it is listed once,
    and left as it is when the schema does not name it. *)
Definition coerced (schema : list SchemaField) (column : string) (s : Series)
    : result Series :=
  cast_through (listed_types schema column) s.

(** [c'] is the column [c] coerced by the schema. *)
Definition coerced_column (schema : list SchemaField)
    (c c' : string * Series) : Prop :=
  fst c' = fst c /\ coerced schema (fst c) (snd c) = Ok (snd c').

End Statements.

(** ** A symbolic pandas and a scripted engine, used to run the model

    A series is described by the text of the expression that computes it;
    every cast succeeds. *)
Definition symbolic_pandas : Pandas :=
  {| Series := string;
     astype_str := fun s => Ok (s ++ ".astype(str)");
     astype_float := fun s => Ok (s ++ ".astype(float)");
     series_Int64 := fun s => Ok ("Int64(" ++ s ++ ")");
     dt_date := fun s => Ok (s ++ ".dt.date");
     broadcast := fun d _ => str_datetime d |}.

(** An engine that accepts every job, returns fixed rows, a fixed schema
    lookup and a fixed dataframe, and answers the partition delete, which
    is the only job it is asked to wait for, with [delete_outcome]. *)
Definition scripted_client (rows : list Row)
    (table : result (list SchemaField))
    (dataframe : @DataFrame symbolic_pandas)
    (delete_outcome : result unit) : @Client symbolic_pandas :=
  {| query := fun _ _ => Ok tt;
     result_rows := fun _ => Ok (mkRowIterator rows None);
     result_dataframe := fun _ => Ok dataframe;
     result_wait := fun _ => delete_outcome;
     get_table := fun _ => table;
     load_table_from_dataframe := fun _ _ _ => Ok tt |}.

(** A fresh object for shard 2024-01-01 of [proj.ga.events]. *)
Definition fresh_world : @World symbolic_pandas :=
  {| self_ := __init__ "proj" "ga" "events" "20240101" (mkDatetime 2024 1 1);
     trace := [] |}.

(** ** Further vocabulary *)

(** Every character of a text satisfies [p]. *)
Fixpoint string_forall (p : ascii -> bool) (s : string) : bool :=
  match s with
  | EmptyString => true
  | String c rest => p c && string_forall p rest
  end.

(** A character that the sanitizer lets through: alphanumeric or an
    underscore, and not changed by lower-casing. *)
Definition name_char (c : ascii) : bool :=
  (PyStr.isalnum c || Ascii.eqb c "_")
  && Ascii.eqb (PyStr.lower_char c) c.

Section JobVocabulary.
Context `{Pandas}.

(** The configuration of the flattening job of a table type. *)
Definition flatten_job_config (self : GaExportedNestedDataStorage)
    (table_type : string) (sharded_output_required : bool) : QueryJobConfig :=
  {| qj_destination :=
       if sharded_output_required
       then Some (gcp_project self ++ "." ++ dataset self ++ "." ++ table_type
                    ++ "_" ++ date_shard self)
       else None;
     qj_dry_run := Some false;
     qj_use_query_cache := Some true;
     qj_labels := [("queryfunction", "flatteningquery")];
     qj_write_disposition := Some "WRITE_TRUNCATE" |}.

(** The configuration of the partition delete. *)
Definition delete_job_config : QueryJobConfig :=
  {| qj_destination := None; qj_dry_run := None;
     qj_use_query_cache := None;
     qj_labels := [("queryfunction", "flattenerpartitiondeletionquery")];
     qj_write_disposition := None |}.

(** The configuration of the load into the rolling table. *)
Definition load_job_config (self : GaExportedNestedDataStorage)
    (table_type : string) : LoadJobConfig :=
  {| lj_schema := dict_get (partitioned_table_schemas self) table_type;
     lj_autodetect :=
       if truthy (dict_get (partitioned_table_schemas self) table_type)
       then false else true;
     lj_time_partitioning_field := partitioning_column self;
     lj_write_disposition := "WRITE_APPEND";
     lj_labels := [("queryfunction", "flattenerpartitionloadjob")] |}.

(** The rolling table of a table type. *)
Definition rolling_table (self : GaExportedNestedDataStorage)
    (table_type : string) : string :=
  gcp_project self ++ "." ++ dataset self ++ "." ++ table_type.

(** The world after some more events. *)
Definition after (w : World) (new : list Event) : World :=
  {| self_ := self_ w; trace := (trace w ++ new)%list |}.

End JobVocabulary.

(** ** The trigger message

    [InputValidator.__init__] decodes the message and reads, from its
    payload, the destination table of the load job that has completed. *)
Record DestinationTable : Type := mkDestinationTable {
  projectId : string;
  datasetId : string;
  tableId : string
}.

(** Whether the text is [_20dddddd], up to its end or up to a line break
    that ends it: where [_(20\d\d\d\d\d\d)$] can match. *)
Definition is_shard_tail (s : string) : bool :=
  match s with
  | String u (String c0 (String c1 (String c2 (String c3 (String c4
      (String c5 (String c6 (String c7 rest)))))))) =>
      Ascii.eqb u "_" && Ascii.eqb c0 "2" && Ascii.eqb c1 "0"
      && PyStr.between 48 57 c2 && PyStr.between 48 57 c3
      && PyStr.between 48 57 c4 && PyStr.between 48 57 c5
      && PyStr.between 48 57 c6 && PyStr.between 48 57 c7
      && (String.eqb rest "" || String.eqb rest PyStr.nl)
  | _ => false
  end.

(** [re.search(r'_(20\d\d\d\d\d\d)$', s)], as the group of the leftmost
    match. *)
Fixpoint search_date_shard (s : string) : option string :=
  if is_shard_tail s then Some (substring 1 8 s)
  else match s with
       | EmptyString => None
       | String _ rest => search_date_shard rest
       end.

(** What [.*] takes before the shard tail, when the text runs to a shard
    tail without a line break. *)
Fixpoint before_shard_tail (s : string) : option string :=
  if is_shard_tail s then Some ""
  else match s with
       | EmptyString => None
       | String c rest =>
           if Ascii.eqb c (ascii_of_nat 10) then None
           else match before_shard_tail rest with
                | Some g => Some (String c g)
                | None => None
                end
       end.

(** [re.search] for the pattern made of a group, [events] followed by
    [.*], and of [_20\d\d\d\d\d\d$]; the result is the group of the
    leftmost match. *)
Fixpoint search_table_name (s : string) : option string :=
  match (if String.prefix "events" s then before_shard_tail s else None) with
  | Some g => Some g
  | None =>
      match s with
      | EmptyString => None
      | String _ rest => search_table_name rest
      end
  end.

(** ** The configuration

    The configuration file maps a dataset to the tables to flatten and,
    optionally, to the output modes. *)
Record DatasetConfig : Type := mkDatasetConfig {
  tables_to_flatten : option (list string);
  output : option (dict bool)
}.

Definition Config : Type := dict DatasetConfig.

(** The attributes of an [InputValidator]; an attribute that was never
    assigned is [None]. *)
Module InputValidator.
Record t : Type := mk {
  gcp_project : option string;
  dataset : option string;
  table_date_shard : option string;
  table_name : option string;
  config : option Config
}.
End InputValidator.

(** Reading an attribute. *)
Definition attr {A} (a : option A) : result A :=
  match a with
  | Some x => Ok x
  | None => Raise AttributeError
  end.

(** [datetime.strptime(s, '%Y%m%d')]: four digits, a month, a day, in the
    forms the format accepts, and nothing after them. *)
Definition dval (c : ascii) : nat := nat_of_ascii c - 48.

(** The month at the head of a text, in the order the forms are tried:
    [1[0-2]], [0[1-9]], [[1-9]]. *)
Definition month_forms (s : string) : list (nat * string) :=
  (match s with
   | String a (String b rest) =>
       (if Ascii.eqb a "1" && PyStr.between 48 50 b
        then [(10 + dval b, rest)] else [])
       ++ (if Ascii.eqb a "0" && PyStr.between 49 57 b
           then [(dval b, rest)] else [])
   | _ => []
   end
   ++ match s with
      | String a rest =>
          if PyStr.between 49 57 a then [(dval a, rest)] else []
      | _ => []
      end)%list.

(** The day at the head of a text: [3[0-1]], [[1-2]\d], [0[1-9]], [[1-9]],
    or a space and [[1-9]]. *)
Definition day_forms (s : string) : list (nat * string) :=
  (match s with
   | String a (String b rest) =>
       (if Ascii.eqb a "3" && PyStr.between 48 49 b
        then [(30 + dval b, rest)] else [])
       ++ (if PyStr.between 49 50 a && PyStr.between 48 57 b
           then [(10 * dval a + dval b, rest)] else [])
       ++ (if Ascii.eqb a "0" && PyStr.between 49 57 b
           then [(dval b, rest)] else [])
   | _ => []
   end
   ++ match s with
      | String a rest =>
          if PyStr.between 49 57 a then [(dval a, rest)] else []
      | _ => []
      end
   ++ match s with
      | String a (String b rest) =>
          if Ascii.eqb a " " && PyStr.between 49 57 b
          then [(dval b, rest)] else []
      | _ => []
      end)%list.

(** The first month form after which a day can be read, with that day. *)
Fixpoint first_month_and_day (months : list (nat * string))
    : option (nat * nat * string) :=
  match months with
  | [] => None
  | (m, after_month) :: others =>
      match day_forms after_month with
      | (d, after_day) :: _ => Some (m, d, after_day)
      | [] => first_month_and_day others
      end
  end.

Definition is_leap (y : nat) : bool :=
  Nat.eqb (y mod 4) 0 && (negb (Nat.eqb (y mod 100) 0) || Nat.eqb (y mod 400) 0).

Definition days_in_month (y m : nat) : nat :=
  match m with
  | 2 => if is_leap y then 29 else 28
  | 4 | 6 | 9 | 11 => 30
  | _ => 31
  end.

Definition strptime_Ymd (s : string) : result datetime :=
  match s with
  | String y1 (String y2 (String y3 (String y4 rest))) =>
      if PyStr.between 48 57 y1 && PyStr.between 48 57 y2
         && PyStr.between 48 57 y3 && PyStr.between 48 57 y4
      then
        match first_month_and_day (month_forms rest) with
        | Some (m, d, unconverted) =>
            if negb (String.eqb unconverted "") then Raise ValueError
            else
              let y := 1000 * dval y1 + 100 * dval y2 + 10 * dval y3 + dval y4 in
              if Nat.eqb y 0 then Raise ValueError
              else if Nat.leb d (days_in_month y m)
                   then Ok (mkDatetime y m d)
                   else Raise ValueError
        | None => Raise ValueError
        end
      else Raise ValueError
  | _ => Raise ValueError
  end.

(** ** The entry point *)

Section EntryPoint.
Context `{Pandas}.

(** [InputValidator(event)].  [destination] is the outcome of decoding the
    message and reading the destination table from its payload (the errors
    of that part are key, type and value errors, which leave the
    constructor); [loaded_config] is the outcome of fetching and parsing
    the configuration file.  The result is the object, or the error that
    left the constructor, together with the log records written (the text
    of the payload in the first record is left out). *)
Definition InputValidator_init (destination : result DestinationTable)
    (loaded_config : result Config)
    : result InputValidator.t * list Event :=
  let invalid := [Log CRITICAL "invalid message: " None] in
  let first_try :=
    match destination with
    | Raise e => Raise e
    | Ok bq_destination_table =>
        let gcp_project := Some (projectId bq_destination_table) in
        let dataset := Some (datasetId bq_destination_table) in
        match search_date_shard (tableId bq_destination_table) with
        | None => Ok (gcp_project, dataset, None, None, invalid)
        | Some table_date_shard =>
            match search_table_name (tableId bq_destination_table) with
            | None =>
                Ok (gcp_project, dataset, Some table_date_shard, None, invalid)
            | Some table_name =>
                Ok (gcp_project, dataset, Some table_date_shard,
                    Some table_name, [])
            end
        end
    end in
  match first_try with
  | Raise e => (Raise e, [])
  | Ok (gcp_project, dataset, table_date_shard, table_name, logged) =>
      match loaded_config with
      | Ok config =>
          (Ok (InputValidator.mk gcp_project dataset table_date_shard
                 table_name (Some config)),
           logged)
      | Raise e =>
          (Ok (InputValidator.mk gcp_project dataset table_date_shard
                 table_name None),
           (logged ++ [Log CRITICAL "flattener configuration error: " (Some e)])%list)
      end
  end.

Definition valid_dataset (self : InputValidator.t) : result bool :=
  rbind (attr (InputValidator.dataset self)) (fun dataset =>
  rbind (attr (InputValidator.config self)) (fun config =>
  Ok (dict_contains config dataset))).

Definition flatten_nested_table (self : InputValidator.t) (nested_table : string)
    : result bool :=
  rbind (attr (InputValidator.config self)) (fun config =>
  rbind (attr (InputValidator.dataset self)) (fun dataset =>
  rbind (dict_item config dataset) (fun dataset_config =>
  match tables_to_flatten dataset_config with
  | None => Raise KeyError
  | Some tables => Ok (existsb (String.eqb nested_table) tables)
  end))).

(** Extract info from the config file on whether we want sharded output,
    partitioned output or both *)
Definition get_output_configuration (self : InputValidator.t)
    : result (dict bool) :=
  rbind (attr (InputValidator.config self)) (fun config =>
  rbind (attr (InputValidator.dataset self)) (fun dataset =>
  rbind (dict_item config dataset) (fun dataset_config =>
  match output dataset_config with
  | Some config_output => Ok config_output
  | None => Ok [("sharded", true); ("partitioned", false)]
  end))).

(** One of the four blocks of [flatten_ga_data]: the entity named by the
    environment variable [variable] is flattened when the configuration
    lists it. *)
Definition flatten_entity (client : Client) (environ : dict string)
    (input_event : InputValidator.t) (variable : string)
    (builder : M string) (table_type : string)
    (output_config_sharded output_config_partitioned : bool) : M unit :=
  nested_table <- lift (dict_item environ variable) ;;
  configured <- lift (flatten_nested_table input_event nested_table) ;;
  if configured : bool then
    qry <- builder ;;
    run_query_job client qry table_type output_config_sharded
      output_config_partitioned ;;
    nested_table <- lift (dict_item environ variable) ;;
    dataset <- lift (attr (InputValidator.dataset input_event)) ;;
    emit (Log INFO ("Ran " ++ nested_table ++ " flattening query for " ++ dataset)
              None)
  else
    nested_table <- lift (dict_item environ variable) ;;
    dataset <- lift (attr (InputValidator.dataset input_event)) ;;
    emit (Log INFO (nested_table ++ " flattening query for " ++ dataset
                      ++ " not configured to run") None).

(** What [flatten_ga_data] does with the object it has built. *)
Definition flatten_entities (client : Client) (environ : dict string)
    (input_event : InputValidator.t)
    (output_config_sharded output_config_partitioned : bool) : M unit :=
  set_dynamic_flat_events_schema client ;;
  flatten_entity client environ input_event "EVENT_PARAMS"
    get_event_params_query "flat_event_params"
    output_config_sharded output_config_partitioned ;;
  flatten_entity client environ input_event "USER_PROPERTIES"
    get_user_properties_query "flat_user_properties"
    output_config_sharded output_config_partitioned ;;
  flatten_entity client environ input_event "ITEMS"
    get_items_query "flat_items"
    output_config_sharded output_config_partitioned ;;
  flatten_entity client environ input_event "EVENTS"
    get_events_query "flat_events"
    output_config_sharded output_config_partitioned.

(** Flatten GA4 data.  The result is what the function returns or raises
    and everything it has logged and sent to the engine. *)
Definition flatten_ga_data (client : Client) (environ : dict string)
    (destination : result DestinationTable) (loaded_config : result Config)
    : result unit * list Event :=
  match InputValidator_init destination loaded_config with
  | (Raise e, logged) => (Raise e, logged)
  | (Ok input_event, logged) =>
      let before_object :=
        rbind (get_output_configuration input_event) (fun output_config =>
        rbind (dict_item output_config "sharded") (fun output_config_sharded =>
        rbind (dict_item output_config "partitioned")
          (fun output_config_partitioned =>
        rbind (valid_dataset input_event) (fun valid =>
        Ok (output_config_sharded, output_config_partitioned, valid))))) in
      match before_object with
      | Raise e => (Raise e, logged)
      | Ok (output_config_sharded, output_config_partitioned, true) =>
          let ga_source :=
            rbind (attr (InputValidator.gcp_project input_event))
              (fun gcp_project =>
            rbind (attr (InputValidator.dataset input_event)) (fun dataset =>
            rbind (attr (InputValidator.table_name input_event))
              (fun table_name =>
            rbind (attr (InputValidator.table_date_shard input_event))
              (fun date_shard =>
            rbind (strptime_Ymd date_shard) (fun date =>
            Ok (__init__ gcp_project dataset table_name date_shard date)))))) in
          match ga_source with
          | Raise e => (Raise e, logged)
          | Ok ga_source =>
              let (r, w) :=
                flatten_entities client environ input_event
                  output_config_sharded output_config_partitioned
                  {| self_ := ga_source; trace := logged |} in
              (r, trace w)
          end
      | Ok (_, _, false) =>
          match attr (InputValidator.dataset input_event) with
          | Ok dataset =>
              (Ok tt,
               (logged ++ [Log WARNING ("Dataset " ++ dataset
                                          ++ " not configured for flattening")
                               None])%list)
          | Raise e => (Raise e, logged)
          end
      end
  end.

End EntryPoint.

(** ** Vocabulary of the entry point *)

(** A date shard: [20] and six more decimal digits. *)
Definition is_date_shard (d : string) : bool :=
  match d with
  | String c0 (String c1 (String c2 (String c3 (String c4 (String c5
      (String c6 (String c7 EmptyString))))))) =>
      Ascii.eqb c0 "2" && Ascii.eqb c1 "0"
      && PyStr.between 48 57 c2 && PyStr.between 48 57 c3
      && PyStr.between 48 57 c4 && PyStr.between 48 57 c5
      && PyStr.between 48 57 c6 && PyStr.between 48 57 c7
  | _ => false
  end.

(** Whether a text contains a line break. *)
Fixpoint has_line_break (s : string) : bool :=
  match s with
  | EmptyString => false
  | String c rest => Ascii.eqb c (ascii_of_nat 10) || has_line_break rest
  end.

Section EntryVocabulary.
Context `{Pandas}.

(** Whatever [c] adds to the trace satisfies [P]. *)
Definition emits_only (P : Event -> Prop) {A} (c : M A) : Prop :=
  forall w, exists new,
    trace (snd (c w)) = (trace w ++ new)%list /\ Forall P new.

(** An event that leaves the rolling tables alone: neither a load nor a
    partition delete. *)
Definition spares_rolling (ev : Event) : Prop :=
  match ev with
  | LoadSubmitted _ _ _ => False
  | QuerySubmitted _ config => config <> delete_job_config
  | Log _ _ _ => True
  end.

(** An event other than the warning about an unconfigured dataset. *)
Definition not_dataset_warning (ev : Event) : Prop :=
  match ev with
  | Log WARNING _ None => False
  | _ => True
  end.

(** An event that is a log record. *)
Definition is_log (ev : Event) : Prop :=
  match ev with
  | Log _ _ _ => True
  | _ => False
  end.

(** An event that is a log record or the submission of the distinct-keys
    job of the reconciliation. *)
Definition only_reconciles (ev : Event) : Prop :=
  match ev with
  | LoadSubmitted _ _ _ => False
  | QuerySubmitted _ config => config = keys_job_config
  | Log _ _ _ => True
  end.

End EntryVocabulary.

(** Two objects describe the same shard with the same fixed field lists;
    the registry and the schemas may differ. *)
Definition same_shard (a b : GaExportedNestedDataStorage) : Prop :=
  gcp_project a = gcp_project b
  /\ dataset a = dataset b
  /\ table_name a = table_name b
  /\ date_shard a = date_shard b
  /\ date a = date b
  /\ unique_event_id_fields a = unique_event_id_fields b
  /\ event_params_fields a = event_params_fields b
  /\ user_properties_fields a = user_properties_fields b
  /\ items_fields a = items_fields b
  /\ events_fields a = events_fields b.

(** The names of the environment variables read by [flatten_ga_data]. *)
Definition entity_variables : list string :=
  ["EVENT_PARAMS"; "USER_PROPERTIES"; "ITEMS"; "EVENTS"].


(** * Properties *)

(** ** Texts *)

Lemma str_app_assoc (a b c : string) : (a ++ b) ++ c = a ++ (b ++ c).
Proof. induction a as [|x a IH]; simpl; [reflexivity | now rewrite IH]. Qed.

Lemma str_app_nil_r (a : string) : a ++ "" = a.
Proof. induction a as [|x a IH]; simpl; [reflexivity | now rewrite IH]. Qed.

Lemma str_length_app (a b : string) :
  String.length (a ++ b) = String.length a + String.length b.
Proof. induction a as [|x a IH]; simpl; [reflexivity | now rewrite IH]. Qed.

Lemma lower_length (s : string) :
  String.length (PyStr.lower s) = String.length s.
Proof. induction s as [|c s IH]; simpl; [reflexivity | now rewrite IH]. Qed.

Lemma slice_to_length (n : nat) (s : string) :
  String.length (PyStr.slice_to n s) = Nat.min n (String.length s).
Proof.
  unfold PyStr.slice_to. revert s.
  induction n as [|n IH]; intros [|c s]; simpl; try reflexivity.
  now rewrite IH.
Qed.

Lemma sanitize_loop_length (chars r : string) :
  String.length (sanitize_loop r chars)
  = String.length r + String.length chars.
Proof.
  revert r. induction chars as [|c chars IH]; intros r; simpl.
  - lia.
  - destruct (PyStr.isalnum c); rewrite IH, str_length_app; simpl; lia.
Qed.

(** The sanitizer returns as soon as its input has a first character, and
    what it returns is the accumulated text, with an underscore in front
    when it starts with a digit, cut at 300 characters. *)
Lemma sanitize_returns (p_field : string) :
  p_field <> "" ->
  exists r,
    _create_valid_bigquery_field_name p_field = Ok (PyStr.slice_to 300 r)
    /\ String.length p_field <= String.length r.
Proof.
  intros Hne. unfold _create_valid_bigquery_field_name.
  remember (sanitize_loop "" (PyStr.lower p_field)) as acc eqn:Hacc.
  assert (Hlen : String.length acc = String.length p_field).
  { subst acc. rewrite sanitize_loop_length, lower_length. reflexivity. }
  destruct acc as [|c0 acc'].
  - destruct p_field; [congruence | discriminate].
  - cbn [PyStr.first_char rbind].
    destruct (PyStr.isdigit c0).
    + eexists; split; [reflexivity|]. rewrite str_length_app, Hlen. lia.
    + eexists; split; [reflexivity|]. rewrite Hlen. lia.
Qed.

(** ** Field-name sanitization *)

(** C8: the sanitizer maps ["UTM Source!"] to ["utm_source_"], ["1stVisit"]
    to ["_1stvisit"], and returns exactly 300 characters for every key of
    310 characters. *)
Theorem sanitization_examples :
  _create_valid_bigquery_field_name "UTM Source!" = Ok "utm_source_"
  /\ _create_valid_bigquery_field_name "1stVisit" = Ok "_1stvisit"
  /\ forall key,
       String.length key = 310 ->
       exists r,
         _create_valid_bigquery_field_name key = Ok r
         /\ String.length r = 300.
Proof.
  split; [reflexivity | split; [reflexivity|]].
  intros key Hlen.
  destruct (sanitize_returns key) as (r & Hr & Hle).
  - intros ->. discriminate.
  - exists (PyStr.slice_to 300 r). split; [exact Hr|].
    rewrite slice_to_length. lia.
Qed.

Lemma sanitization_examples_witness :
  exists r,
    _create_valid_bigquery_field_name (repeat_string "Key 7" 62) = Ok r
    /\ String.length r = 300.
Proof.
  apply (proj2 (proj2 sanitization_examples)). reflexivity.
Defined.

(** C10: on every non-empty input the sanitizer returns a text of at most
    300 characters; on the empty text it raises [IndexError], because it
    reads the first character of what it accumulated. *)
Theorem sanitization_total_on_nonempty :
  (forall p_field,
     p_field <> "" ->
     exists r,
       _create_valid_bigquery_field_name p_field = Ok r
       /\ String.length r <= 300)
  /\ _create_valid_bigquery_field_name "" = Raise IndexError.
Proof.
  split; [|reflexivity].
  intros p_field Hne.
  destruct (sanitize_returns p_field Hne) as (r & Hr & _).
  exists (PyStr.slice_to 300 r). split; [exact Hr|].
  rewrite slice_to_length. lia.
Qed.

Lemma sanitization_total_on_nonempty_witness :
  exists r,
    _create_valid_bigquery_field_name "9 lives" = Ok r
    /\ String.length r <= 300.
Proof.
  apply (proj1 sanitization_total_on_nonempty). discriminate.
Defined.

(** ** Query text *)

Lemma fold_left_append {A} (f : A -> string) (l : list A) (q : string) :
  fold_left (fun qry x => qry ++ f x) l q = q ++ concat_all (map f l).
Proof.
  revert q. induction l as [|x l IH]; intros q; simpl.
  - now rewrite str_app_nil_r.
  - now rewrite IH, str_app_assoc.
Qed.

Lemma fold_left_same {A B} (f g : A -> B -> A) (l : list B) (a : A) :
  (forall a b, f a b = g a b) -> fold_left f l a = fold_left g l a.
Proof.
  intros Hfg. revert a.
  induction l as [|x l IH]; intros a; simpl; [reflexivity|].
  now rewrite Hfg, IH.
Qed.

Lemma value_slot_stated (f_type : string) :
  value_slot f_type = stated_slot f_type.
Proof.
  unfold value_slot, stated_slot.
  destruct (String.eqb f_type "INTEGER"); reflexivity.
Qed.

Section QueryProperties.
Context `{Pandas}.

(** Case analysis on every result a builder consults. *)
Ltac run_builder :=
  unfold bind, lift, get_self, ret;
  repeat match goal with
         | |- context [match ?r with Ok _ => _ | Raise _ => _ end] =>
             destruct r
         end.

(** A query builder leaves the object and the trace as they were. *)
Lemma build_query_keeps_world (kind : EntityKind) (w : World) :
  snd (build_query kind w) = w.
Proof.
  destruct kind; simpl;
    [ unfold get_event_params_query
    | unfold get_user_properties_query
    | unfold get_items_query
    | unfold get_events_query ];
    run_builder; reflexivity.
Qed.

(** C9: each dynamic column of the events query reads the slot named by
    the recorded type in lower case followed by [_value], [INTEGER] being
    read from [int_value]; for the fingerprint [STRINGINTEGER] the slot is
    [stringinteger_value], which is none of the four value slots. *)
Theorem dynamic_columns_read_lowercased_slot (w : World) (uid : string) :
  get_unique_event_id (unique_event_id_fields (self_ w)) = Ok uid ->
  get_events_query w
  = (Ok ("SELECT " ++ uid
         ++ concat_all (map aliased (events_fields (self_ w)))
         ++ concat_all
              (map (fun item : string * string =>
                      ",(SELECT value." ++ stated_slot (snd item)
                        ++ " FROM UNNEST(events.event_params) WHERE key = '"
                        ++ fst item ++ "') AS " ++ fst item ++ "_ep")
                   (event_params_flat_fields (self_ w)))
         ++ from_shard (self_ w) ++ " as events"), w)
  /\ stated_slot "STRINGINTEGER" = "stringinteger_value"
  /\ ~ In (stated_slot "STRINGINTEGER") value_slots.
Proof.
  intros Huid. split; [|split].
  - unfold get_events_query, bind, lift, get_self, ret. rewrite Huid.
    f_equal. f_equal.
    rewrite (fold_left_append aliased).
    rewrite (fold_left_same _
               (fun qry item => qry ++ dynamic_column (fst item) (snd item)))
      by (intros a [key f_type]; reflexivity).
    rewrite (fold_left_append
               (fun item => dynamic_column (fst item) (snd item))).
    rewrite (map_ext
               (fun item => dynamic_column (fst item) (snd item))
               (fun item : string * string =>
                  ",(SELECT value." ++ stated_slot (snd item)
                    ++ " FROM UNNEST(events.event_params) WHERE key = '"
                    ++ fst item ++ "') AS " ++ fst item ++ "_ep"))
      by (intros [key f_type]; unfold dynamic_column;
          now rewrite value_slot_stated).
    now rewrite !str_app_assoc.
  - reflexivity.
  - cbv. intros [E|[E|[E|[E|[]]]]]; discriminate E.
Qed.

(** The text of a query is a function of the job and the registry. *)
Lemma build_query_reads_job (kind : EntityKind) (w1 w2 : World) :
  same_job (self_ w1) (self_ w2) ->
  fst (build_query kind w1) = fst (build_query kind w2).
Proof.
  destruct w1 as [[] t1], w2 as [[] t2]. unfold same_job. cbn.
  intros (-> & -> & -> & -> & -> & -> & -> & -> & -> & ->).
  destruct kind; simpl;
    [ unfold get_event_params_query
    | unfold get_user_properties_query
    | unfold get_items_query
    | unfold get_events_query ];
    cbn; run_builder; reflexivity.
Qed.

(** C6: for a fixed job descriptor and a fixed registry content, a query
    builder of any of the four kinds returns the same text (or the same
    error) in every state of the object, and leaves the object and the
    trace untouched; called twice in a row it returns the same text both
    times.  The dynamic columns follow the order of the registry. *)
Theorem query_text_is_deterministic (kind : EntityKind) (w1 w2 : World) :
  same_job (self_ w1) (self_ w2) ->
  fst (build_query kind w1) = fst (build_query kind w2)
  /\ snd (build_query kind w1) = w1
  /\ (let (first, w') := build_query kind w1 in
      let (second, w'') := build_query kind w' in
      first = second /\ w'' = w1).
Proof.
  intros Hjob. split; [now apply build_query_reads_job|].
  pose proof (build_query_keeps_world kind w1) as Hw.
  split; [exact Hw|].
  destruct (build_query kind w1) as [first w'] eqn:E1. simpl in Hw. subst w'.
  rewrite E1. auto.
Qed.

End QueryProperties.

Lemma dynamic_columns_read_lowercased_slot_witness :
  let w : @World symbolic_pandas :=
    {| self_ :=
         set_event_params_flat_fields (self_ fresh_world)
           [("page", "STRING"); ("count", "INTEGER"); ("mixed", "STRINGINTEGER")];
       trace := [] |} in
  let uid :=
    "CONCAT(stream_id, " ++ PyStr.dq ++ "_" ++ PyStr.dq
      ++ ", user_pseudo_id, " ++ PyStr.dq ++ "_" ++ PyStr.dq
      ++ ", event_name, " ++ PyStr.dq ++ "_" ++ PyStr.dq
      ++ ", event_timestamp) as event_id" in
  get_events_query w
  = (Ok ("SELECT " ++ uid
         ++ concat_all (map aliased init_events_fields)
         ++ ",(SELECT value.string_value FROM UNNEST(events.event_params) WHERE key = 'page') AS page_ep"
         ++ ",(SELECT value.int_value FROM UNNEST(events.event_params) WHERE key = 'count') AS count_ep"
         ++ ",(SELECT value.stringinteger_value FROM UNNEST(events.event_params) WHERE key = 'mixed') AS mixed_ep"
         ++ " FROM `proj.ga.events_20240101` as events"), w)
  /\ stated_slot "STRINGINTEGER" = "stringinteger_value"
  /\ ~ In (stated_slot "STRINGINTEGER") value_slots.
Proof.
  intros w uid.
  apply (dynamic_columns_read_lowercased_slot w uid). reflexivity.
Defined.

Lemma query_text_is_deterministic_witness :
  let w1 : @World symbolic_pandas :=
    {| self_ :=
         set_event_params_flat_fields (self_ fresh_world)
           [("page", "STRING"); ("count", "INTEGER")];
       trace := [] |} in
  let w2 : @World symbolic_pandas :=
    {| self_ :=
         set_partitioned_table_schemas
           (set_event_params_flat_fields
              (__init__ "proj" "ga" "events" "20240101" (mkDatetime 2024 1 2))
              [("page", "STRING"); ("count", "INTEGER")])
           [];
       trace := [Log INFO "flat_events table not found, using hardcoded schema" None] |} in
  fst (build_query EVENTS w1) = fst (build_query EVENTS w2)
  /\ snd (build_query EVENTS w1) = w1
  /\ (let (first, w') := build_query EVENTS w1 in
      let (second, w'') := build_query EVENTS w' in
      first = second /\ w'' = w1).
Proof.
  intros w1 w2.
  apply (query_text_is_deterministic EVENTS w1 w2).
  repeat split; reflexivity.
Defined.

(** ** The event identifier *)

(** The text that [get_unique_event_id] emits is the rendering of the
    [CONCAT] call whose value [event_id] computes. *)
Lemma get_unique_event_id_renders (fields : list string) :
  get_unique_event_id fields
  = rbind (event_id_args fields)
          (fun args => Ok (Sql.render_concat args ++ " as event_id")).
Proof.
  unfold get_unique_event_id, event_id_args.
  destruct (list_item fields 0) as [f0|]; [|reflexivity].
  destruct (list_item fields 1) as [f1|]; [|reflexivity].
  destruct (list_item fields 2) as [f2|]; [|reflexivity].
  destruct (list_item fields 3) as [f3|]; [|reflexivity].
  cbn [rbind]. f_equal.
  unfold Sql.render_concat. cbn [map Sql.render_arg Sql.join].
  now rewrite !str_app_assoc.
Qed.

Lemma event_id_value (s u e t : string) :
  event_id s u e t = Ok (s ++ "_" ++ u ++ "_" ++ e ++ "_" ++ t).
Proof.
  unfold event_id. cbn. now rewrite str_app_nil_r.
Qed.

Lemma has_separator_app (a b : string) :
  has_separator (a ++ String "_" b) = true.
Proof.
  induction a as [|c a IH]; simpl; [reflexivity|].
  rewrite IH. apply orb_true_r.
Qed.

(** Two texts that agree after a separator-free head agree on the head and
    on what follows the separator. *)
Lemma split_at_first_separator (a a' r r' : string) :
  has_separator a = false -> has_separator a' = false ->
  a ++ String "_" r = a' ++ String "_" r' ->
  a = a' /\ r = r'.
Proof.
  revert a'. induction a as [|c a IH]; intros [|c' a'] Ha Ha' E; simpl in *.
  - injection E as ->. auto.
  - injection E as <- _. discriminate Ha'.
  - injection E as -> _. discriminate Ha.
  - injection E as -> E.
    apply orb_false_iff in Ha as [_ Ha]. apply orb_false_iff in Ha' as [_ Ha'].
    destruct (IH a' Ha Ha' E) as [-> ->]. auto.
Qed.

(** Two texts that agree and end in a separator-free tail agree on the
    tail and on what precedes the last separator. *)
Lemma split_at_last_separator (e e' t t' : string) :
  has_separator t = false -> has_separator t' = false ->
  e ++ String "_" t = e' ++ String "_" t' ->
  e = e' /\ t = t'.
Proof.
  intros Ht Ht'. revert e'.
  induction e as [|c e IH]; intros [|c' e'] E; simpl in *.
  - injection E as ->. auto.
  - injection E as _ E. rewrite E, has_separator_app in Ht. discriminate Ht.
  - injection E as _ E. rewrite <- E, has_separator_app in Ht'. discriminate Ht'.
  - injection E as -> E. destruct (IH e' E) as [-> ->]. auto.
Qed.

(** C3, as the code has it: the identifier is the four identity values
    joined by underscores, a function of those values alone; two rows
    whose stream id, pseudo user id and event timestamp contain no
    underscore (the event name may) have the same identifier only if they
    agree on all four values. *)
Theorem event_id_injective_without_separator
    (s1 u1 e1 t1 s2 u2 e2 t2 : string) :
  has_separator s1 = false -> has_separator u1 = false ->
  has_separator t1 = false ->
  has_separator s2 = false -> has_separator u2 = false ->
  has_separator t2 = false ->
  event_id s1 u1 e1 t1 = Ok (s1 ++ "_" ++ u1 ++ "_" ++ e1 ++ "_" ++ t1)
  /\ (event_id s1 u1 e1 t1 = event_id s2 u2 e2 t2 ->
      s1 = s2 /\ u1 = u2 /\ e1 = e2 /\ t1 = t2).
Proof.
  intros Hs1 Hu1 Ht1 Hs2 Hu2 Ht2. split; [apply event_id_value|].
  rewrite !event_id_value. intros E. injection E as E.
  apply split_at_first_separator in E as [-> E]; [|assumption..].
  apply split_at_first_separator in E as [-> E]; [|assumption..].
  apply split_at_last_separator in E as [-> ->]; auto.
Qed.

Lemma event_id_injective_without_separator_witness :
  event_id "4021" "1797.5531" "page_view" "1704067200000000"
  = Ok "4021_1797.5531_page_view_1704067200000000"
  /\ (event_id "4021" "1797.5531" "page_view" "1704067200000000"
      = event_id "4021" "1797.5531" "page" "1704067200000000" ->
      "4021" = "4021" /\ "1797.5531" = "1797.5531" /\ "page_view" = "page"
      /\ "1704067200000000" = "1704067200000000").
Proof.
  apply (event_id_injective_without_separator
           "4021" "1797.5531" "page_view" "1704067200000000"
           "4021" "1797.5531" "page" "1704067200000000"); reflexivity.
Defined.

(** C3, as stated, fails: two rows that differ in stream id and pseudo
    user id get the same identifier when a value contains the separator. *)
Lemma event_id_collision :
  ("a_b", "c", "click", "17") <> ("a", "b_c", "click", "17")
  /\ event_id "a_b" "c" "click" "17" = event_id "a" "b_c" "click" "17".
Proof.
  split; [intros E; discriminate E | reflexivity].
Qed.

(** ** Dictionaries *)

Section DictProperties.
Context {V : Type}.
Implicit Types (d : dict V) (k : string) (v : V).

Lemma dict_get_set_same d k v : dict_get (dict_set d k v) k = Some v.
Proof.
  induction d as [|[k' v'] d IH]; simpl.
  - now rewrite String.eqb_refl.
  - destruct (String.eqb k' k) eqn:E; simpl; rewrite E; [reflexivity | exact IH].
Qed.

Lemma dict_get_set_other d k k' v :
  k' <> k -> dict_get (dict_set d k v) k' = dict_get d k'.
Proof.
  intros Hne. induction d as [|[k0 v0] d IH]; simpl.
  - destruct (String.eqb_spec k k'); [congruence | reflexivity].
  - destruct (String.eqb_spec k0 k) as [->|Hk]; simpl.
    + destruct (String.eqb_spec k k'); [congruence | reflexivity].
    + destruct (String.eqb k0 k'); [reflexivity | exact IH].
Qed.

Lemma dict_set_absent d k v :
  dict_get d k = None -> dict_set d k v = (d ++ [(k, v)])%list.
Proof.
  induction d as [|[k' v'] d IH]; simpl; [reflexivity|].
  destruct (String.eqb k' k); [discriminate|].
  intros Hd. now rewrite IH.
Qed.

Lemma dict_set_present d k v v0 :
  dict_get d k = Some v0 -> v0 = v -> dict_set d k v = d.
Proof.
  intros Hd ->. induction d as [|[k' v'] d IH]; simpl in *; [discriminate|].
  destruct (String.eqb k' k).
  - now injection Hd as ->.
  - now rewrite IH.
Qed.

Lemma dict_get_app_left d d' k v :
  dict_get d k = Some v -> dict_get (d ++ d')%list k = Some v.
Proof.
  induction d as [|[k' v'] d IH]; simpl; [discriminate|].
  destruct (String.eqb k' k); auto.
Qed.

Lemma dict_contains_existsb d k :
  dict_contains d k = existsb (String.eqb k) (map fst d).
Proof.
  unfold dict_contains.
  induction d as [|[k' v'] d IH]; simpl; [reflexivity|].
  rewrite (String.eqb_sym k k').
  destruct (String.eqb k' k); simpl; [reflexivity | exact IH].
Qed.

Lemma dict_drop_absent d k : ~ In k (map fst d) -> dict_drop d k = d.
Proof.
  induction d as [|[k' v'] d IH]; simpl; [reflexivity|].
  intros Hn. destruct (String.eqb_spec k' k) as [->|Hk]; [tauto|].
  rewrite IH; tauto.
Qed.

End DictProperties.

(** ** Schema reconciliation *)

Lemma substring_split (s : string) (n : nat) :
  n <= String.length s ->
  s = substring 0 n s ++ substring n (String.length s - n) s.
Proof.
  revert s. induction n as [|n IH]; intros s Hn.
  - rewrite Nat.sub_0_r. simpl.
    assert (Hall : forall t, substring 0 (String.length t) t = t).
    { induction t as [|c t IHt]; simpl; [reflexivity | now rewrite IHt]. }
    rewrite Hall. now destruct s.
  - destruct s as [|c s]; simpl in *; [lia|].
    f_equal. apply IH. lia.
Qed.

(** A name that ends with the suffix is its raw key followed by the
    suffix. *)
Lemma endswith_split (s suffix : string) :
  PyStr.endswith s suffix = true ->
  s = PyStr.slice_to (String.length s - String.length suffix) s ++ suffix.
Proof.
  unfold PyStr.endswith, PyStr.slice_to. intros E.
  apply andb_true_iff in E as [Hle E].
  apply Nat.leb_le in Hle. apply String.eqb_eq in E.
  rewrite (substring_split s (String.length s - String.length suffix)) at 1
    by lia.
  f_equal.
  replace (String.length s - (String.length s - String.length suffix))
    with (String.length suffix) by lia.
  exact E.
Qed.

Lemma seed_registry_cons (f : SchemaField) (S : list SchemaField)
    (registry : dict string) :
  seed_registry (f :: S) registry
  = seed_registry S
      (if PyStr.endswith (name f) EP_SUFFIX
       then dict_set registry (raw_key f) (field_type f)
       else registry).
Proof. reflexivity. Qed.

(** Seeding does not touch a key that no field of the schema spells. *)
Lemma seed_registry_other (S : list SchemaField) (registry : dict string)
    (key : string) :
  (forall g, In g S -> name g <> key ++ EP_SUFFIX) ->
  dict_get (seed_registry S registry) key = dict_get registry key.
Proof.
  revert registry. induction S as [|g S IH]; intros registry Hno.
  - reflexivity.
  - rewrite seed_registry_cons, IH by (intros g' Hg'; apply Hno; now right).
    destruct (PyStr.endswith (name g) EP_SUFFIX) eqn:E; [|reflexivity].
    apply dict_get_set_other. intros ->.
    apply (Hno g); [now left|]. now apply endswith_split.
Qed.

(** Seeding records, for every suffixed field of a schema with distinct
    names, the type of that field under its raw key. *)
Lemma seed_registry_types (S : list SchemaField) (registry : dict string)
    (f : SchemaField) :
  NoDup (map name S) -> In f S ->
  PyStr.endswith (name f) EP_SUFFIX = true ->
  name f = raw_key f ++ EP_SUFFIX
  /\ dict_get (seed_registry S registry) (raw_key f) = Some (field_type f).
Proof.
  intros Hnd Hin Hsuf. split; [now apply endswith_split|].
  revert registry. induction S as [|g S IH]; intros registry; [destruct Hin|].
  inversion Hnd as [|? ? Hfresh Hnd']; subst.
  rewrite seed_registry_cons.
  destruct Hin as [->|Hin].
  - rewrite Hsuf, seed_registry_other; [apply dict_get_set_same|].
    intros g Hg E. apply Hfresh.
    rewrite (endswith_split _ _ Hsuf). fold (raw_key f). rewrite <- E.
    now apply in_map.
  - now apply IH.
Qed.

Lemma add_observed_first_seen (rows : list Row) (registry : dict string) :
  add_observed rows registry
  = (registry ++ first_seen (map fst registry) rows)%list.
Proof.
  unfold add_observed. revert registry.
  induction rows as [|r rows IH]; intros registry; simpl.
  - now rewrite app_nil_r.
  - rewrite <- dict_contains_existsb.
    destruct (dict_contains registry (event_params_key r)) eqn:E; simpl.
    + apply IH.
    + rewrite IH. unfold dict_contains in E.
      destruct (dict_get registry (event_params_key r)) eqn:G; [discriminate|].
      rewrite (dict_set_absent _ _ _ G), map_app, <- app_assoc. reflexivity.
Qed.

Lemma append_registry_map (registry : dict string) (schema : list SchemaField) :
  append_registry registry schema
  = (schema ++ map dynamic_field registry)%list.
Proof.
  unfold append_registry. revert schema.
  induction registry as [|[key t] registry IH]; intros schema; simpl.
  - now rewrite app_nil_r.
  - rewrite IH, <- app_assoc. reflexivity.
Qed.

Section ReconcileProperties.
Context `{Pandas}.

Lemma keys_query_returns (w : World) :
  exists q, get_event_params_keys_and_types_query w = (Ok q, w).
Proof. eexists. reflexivity. Qed.

(** When the engine answers, the reconciliation returns, with the
    registry seeded from the existing schema and extended by the rows, and
    with one field appended to the existing schema per registry entry. *)
Lemma set_dynamic_flat_events_schema_runs (client : Client) (w : World)
    (rows : list Row) (S : list SchemaField) :
  answers client w rows S ->
  exists w',
    set_dynamic_flat_events_schema client w = (Ok tt, w')
    /\ event_params_flat_fields (self_ w')
       = add_observed rows (seed_registry S (event_params_flat_fields (self_ w)))
    /\ dict_get (partitioned_table_schemas (self_ w')) "flat_events"
       = Some (append_registry (event_params_flat_fields (self_ w')) S).
Proof.
  intros (q & Hq & Hsubmit & Hrows & Htable).
  destruct (keys_query_returns w) as (q0 & Hq0).
  rewrite Hq0 in Hq. cbn [fst] in Hq. injection Hq as ->.
  unfold set_dynamic_flat_events_schema, client_query, keys_job_config in *.
  unfold bind, get_self, ret, emit, lift, put_self, try_except, raise.
  rewrite Hq0, Hsubmit, Hrows. cbn [self_ trace yielded failure].
  cbn zeta in Htable.
  destruct Htable as [Hfound | [Hmissing Hbuiltin]].
  - rewrite Hfound. eexists. split; [reflexivity|].
    cbn [self_ event_params_flat_fields set_partitioned_table_schemas
         set_event_params_flat_fields partitioned_table_schemas].
    split; [reflexivity | apply dict_get_set_same].
  - rewrite Hmissing. cbn [Nat.eqb]. unfold dict_item. rewrite Hbuiltin.
    eexists. split; [reflexivity|].
    cbn [self_ event_params_flat_fields set_partitioned_table_schemas
         set_event_params_flat_fields partitioned_table_schemas].
    split; [reflexivity | apply dict_get_set_same].
Qed.

End ReconcileProperties.

Section ReconcileTheorems.
Context `{Pandas}.

(** C4: whatever the existing schema [S] and the observed rows, the schema
    that reconciliation publishes is [S] followed by further fields: no
    field of [S] is removed, retyped or moved, and every added field comes
    after all of them. *)
Theorem schema_is_additive (client : Client) (w : World) (rows : list Row)
    (S : list SchemaField) :
  answers client w rows S ->
  exists w' added,
    set_dynamic_flat_events_schema client w = (Ok tt, w')
    /\ dict_get (partitioned_table_schemas (self_ w')) "flat_events"
       = Some (S ++ added)%list.
Proof.
  intros Hans.
  destruct (set_dynamic_flat_events_schema_runs client w rows S Hans)
    as (w' & Hrun & _ & Hschema).
  exists w', (map dynamic_field (event_params_flat_fields (self_ w'))).
  split; [exact Hrun|]. now rewrite Hschema, append_registry_map.
Qed.

(** C5: the registry after reconciliation is the registry seeded from the
    existing schema, whatever the rows, followed by the keys the rows show
    for the first time, in the order of the rows; a key published in the
    existing schema keeps the type of its field there. *)
Theorem established_types_win (client : Client) (w : World) (rows : list Row)
    (S : list SchemaField) :
  answers client w rows S ->
  NoDup (map name S) ->
  exists w',
    set_dynamic_flat_events_schema client w = (Ok tt, w')
    /\ let seeded := seed_registry S (event_params_flat_fields (self_ w)) in
       event_params_flat_fields (self_ w')
       = (seeded ++ first_seen (map fst seeded) rows)%list
       /\ forall f,
            In f S -> PyStr.endswith (name f) EP_SUFFIX = true ->
            name f = raw_key f ++ EP_SUFFIX
            /\ dict_get (event_params_flat_fields (self_ w')) (raw_key f)
               = Some (field_type f).
Proof.
  intros Hans Hnd.
  destruct (set_dynamic_flat_events_schema_runs client w rows S Hans)
    as (w' & Hrun & Hreg & _).
  exists w'. split; [exact Hrun|]. cbn zeta.
  rewrite Hreg, add_observed_first_seen. split; [reflexivity|].
  intros f Hin Hsuf.
  destruct (seed_registry_types S (event_params_flat_fields (self_ w)) f
              Hnd Hin Hsuf) as [Hname Hget].
  split; [exact Hname|]. now apply dict_get_app_left.
Qed.

End ReconcileTheorems.

(** The scenario of the published key: the destination has fields
    [a, b, c_ep(STRING)] and the source shows [c] (now as an integer) and
    [d] (an integer). *)
Lemma scenario_answers :
  answers
    (scripted_client [mkRow "c" "INTEGER"; mkRow "d" "INTEGER"]
       (Ok [mkSchemaField "a" "STRING"; mkSchemaField "b" "STRING";
            mkSchemaField "c_ep" "STRING"])
       [] (Ok tt))
    fresh_world
    [mkRow "c" "INTEGER"; mkRow "d" "INTEGER"]
    [mkSchemaField "a" "STRING"; mkSchemaField "b" "STRING";
     mkSchemaField "c_ep" "STRING"].
Proof.
  eexists. split; [reflexivity|].
  split; [reflexivity|]. split; [reflexivity|]. left. reflexivity.
Defined.

Lemma schema_is_additive_witness :
  exists w' added,
    set_dynamic_flat_events_schema
      (scripted_client [mkRow "c" "INTEGER"; mkRow "d" "INTEGER"]
         (Ok [mkSchemaField "a" "STRING"; mkSchemaField "b" "STRING";
              mkSchemaField "c_ep" "STRING"])
         [] (Ok tt))
      fresh_world
    = (Ok tt, w')
    /\ dict_get (partitioned_table_schemas (self_ w')) "flat_events"
       = Some ([mkSchemaField "a" "STRING"; mkSchemaField "b" "STRING";
                mkSchemaField "c_ep" "STRING"] ++ added)%list.
Proof.
  apply (schema_is_additive _ _ [mkRow "c" "INTEGER"; mkRow "d" "INTEGER"]).
  exact scenario_answers.
Defined.

Lemma established_types_win_witness :
  let S := [mkSchemaField "a" "STRING"; mkSchemaField "b" "STRING";
            mkSchemaField "c_ep" "STRING"] in
  let rows := [mkRow "c" "INTEGER"; mkRow "d" "INTEGER"] in
  exists w',
    set_dynamic_flat_events_schema (scripted_client rows (Ok S) [] (Ok tt))
      fresh_world
    = (Ok tt, w')
    /\ let seeded := seed_registry S (event_params_flat_fields (self_ fresh_world)) in
       event_params_flat_fields (self_ w')
       = (seeded ++ first_seen (map fst seeded) rows)%list
       /\ forall f,
            In f S -> PyStr.endswith (name f) EP_SUFFIX = true ->
            name f = raw_key f ++ EP_SUFFIX
            /\ dict_get (event_params_flat_fields (self_ w')) (raw_key f)
               = Some (field_type f).
Proof.
  intros S rows.
  apply (established_types_win _ _ rows S).
  - exact scenario_answers.
  - repeat (constructor; [simpl; intuition discriminate|]). constructor.
Defined.

(** C1 at the scenario: the code publishes [c_ep] a second time.  The
    registry holds the published key [c] with its published type and the
    new key [d]; the new schema is the existing schema followed by a field
    for each of the two, not only for [d]. *)
Theorem reconciliation_repeats_published_field :
  let existing :=
    [mkSchemaField "a" "STRING"; mkSchemaField "b" "STRING";
     mkSchemaField "c_ep" "STRING"] in
  let run :=
    set_dynamic_flat_events_schema
      (scripted_client [mkRow "c" "INTEGER"; mkRow "d" "INTEGER"]
         (Ok existing) [] (Ok tt))
      fresh_world in
  fst run = Ok tt
  /\ event_params_flat_fields (self_ (snd run))
     = [("c", "STRING"); ("d", "INTEGER")]
  /\ dict_get (partitioned_table_schemas (self_ (snd run))) "flat_events"
     = Some [mkSchemaField "a" "STRING"; mkSchemaField "b" "STRING";
             mkSchemaField "c_ep" "STRING"; mkSchemaField "c_ep" "STRING";
             mkSchemaField "d_ep" "INTEGER"].
Proof.
  vm_compute. repeat split; reflexivity.
Qed.

(** ** The dataframe transform *)

Section FrameProperties.
Context {V : Type}.
Implicit Types (d : dict V) (k : string) (v : V).

Lemma dict_get_app_right d d' k :
  ~ In k (map fst d) -> dict_get (d ++ d')%list k = dict_get d' k.
Proof.
  induction d as [|[k' v'] d IH]; simpl; [reflexivity|].
  intros Hn. destruct (String.eqb_spec k' k) as [->|Hk]; [tauto|].
  apply IH. tauto.
Qed.

Lemma dict_set_app_right d d' k v :
  ~ In k (map fst d) -> dict_set (d ++ d')%list k v = (d ++ dict_set d' k v)%list.
Proof.
  induction d as [|[k' v'] d IH]; simpl; [reflexivity|].
  intros Hn. destruct (String.eqb_spec k' k) as [->|Hk]; [tauto|].
  rewrite IH; tauto.
Qed.

Lemma dict_set_labels_in d k v x :
  In x (map fst (dict_set d k v)) -> x = k \/ In x (map fst d).
Proof.
  induction d as [|[k' v'] d IH]; simpl.
  - intros [<-|[]]. now left.
  - destruct (String.eqb k' k); simpl; [tauto|].
    intros [<-|Hx]; [tauto|]. destruct (IH Hx); tauto.
Qed.

Lemma dict_set_labels_nodup d k v :
  NoDup (map fst d) -> NoDup (map fst (dict_set d k v)).
Proof.
  induction d as [|[k' v'] d IH]; simpl; intros Hnd.
  - constructor; [intros [] | constructor].
  - inversion Hnd as [|? ? Hfresh Hnd']; subst.
    destruct (String.eqb_spec k' k) as [->|Hk]; simpl.
    + now constructor.
    + constructor; [|now apply IH].
      intros Hx. destruct (dict_set_labels_in _ _ _ _ Hx); congruence.
Qed.

End FrameProperties.

Section WriterProperties.
Context `{Pandas}.

Lemma coerce_field_spec (f : SchemaField) (column : string)
    (dataframe : DataFrame) (s : Series) :
  dict_get dataframe column = Some s ->
  coerce_field f column dataframe
  = if String.eqb (name f) column
    then rbind (cast_for (field_type f) s)
               (fun s' => Ok (dict_set dataframe column s'))
    else Ok dataframe.
Proof.
  intros Hget. unfold coerce_field, cast_for, df_item, dict_item.
  rewrite Hget. cbn [rbind].
  destruct (String.eqb (name f) column); [|reflexivity].
  destruct (String.eqb (field_type f) "STRING"); [reflexivity|].
  destruct (String.eqb (field_type f) "FLOAT"); [reflexivity|].
  destruct (String.eqb (field_type f) "INTEGER"); [reflexivity|].
  destruct (String.eqb (field_type f) "DATE"); [reflexivity|].
  cbn [rbind]. now rewrite (dict_set_present _ _ _ _ Hget eq_refl).
Qed.

(** Writing a label twice keeps the second value. *)
Lemma dict_set_twice (dataframe : DataFrame) (column : string)
    (s s' : Series) :
  dict_set (dict_set dataframe column s) column s' = dict_set dataframe column s'.
Proof.
  induction dataframe as [|[c0 s0] dataframe IH]; simpl.
  - now rewrite String.eqb_refl.
  - destruct (String.eqb_spec c0 column) as [->|Hc]; simpl.
    + now rewrite String.eqb_refl.
    + destruct (String.eqb_spec c0 column) as [E|_]; [congruence|].
      now rewrite IH.
Qed.

(** The inner loop casts the column once for every field that bears its
    name, in the order of the schema. *)
Lemma coerce_column_spec (schema : list SchemaField) (column : string)
    (dataframe : DataFrame) (s : Series) :
  dict_get dataframe column = Some s ->
  coerce_column schema column dataframe
  = rbind (coerced schema column s)
          (fun s' => Ok (dict_set dataframe column s')).
Proof.
  unfold coerced, listed_types. revert dataframe s.
  induction schema as [|f schema IH]; intros dataframe s Hget; simpl.
  - now rewrite (dict_set_present _ _ _ _ Hget eq_refl).
  - rewrite (coerce_field_spec f column dataframe s Hget).
    destruct (String.eqb (name f) column); simpl.
    + destruct (cast_for (field_type f) s) as [s'|e]; cbn [rbind];
        [|reflexivity].
      rewrite (IH (dict_set dataframe column s') s')
        by apply dict_get_set_same.
      destruct (cast_through _ s') as [s''|e]; cbn [rbind]; [|reflexivity].
      now rewrite dict_set_twice.
    + now apply IH.
Qed.

(** In a schema with distinct names a column is listed under its canonical
    type and no other. *)
Lemma listed_once (schema : list SchemaField) (column : string) :
  NoDup (map name schema) ->
  listed_types schema column
  = match canonical_type schema column with
    | Some t => [t]
    | None => []
    end.
Proof.
  unfold listed_types.
  induction schema as [|f schema IH]; simpl; intros Hnd; [reflexivity|].
  inversion Hnd as [|? ? Hfresh Hnd']; subst.
  destruct (String.eqb_spec (name f) column) as [E|_]; [|now apply IH].
  simpl. f_equal.
  assert (Hnone : forall l : list SchemaField,
             ~ In column (map name l) ->
             filter (fun f0 => String.eqb (name f0) column) l = []).
  { induction l as [|g l IHl]; simpl; intros Hn; [reflexivity|].
    destruct (String.eqb_spec (name g) column) as [Eg|_]; [tauto|].
    apply IHl. tauto. }
  rewrite Hnone; [reflexivity | now rewrite <- E].
Qed.

Lemma coerced_labels (schema : list SchemaField) (cols cols' : DataFrame) :
  Forall2 (coerced_column schema) cols cols' -> map fst cols' = map fst cols.
Proof.
  induction 1 as [|c c' cols cols' [Hl _] _ IH]; simpl; [reflexivity|].
  now rewrite Hl, IH.
Qed.

(** The outer loop, column by column: with [done] already behind it, it
    turns the remaining columns into their coerced versions. *)
Lemma coerce_columns_spec (schema : list SchemaField)
    (rest rest' done : DataFrame) :
  NoDup (map fst (done ++ rest)%list) ->
  Forall2 (coerced_column schema) rest rest' ->
  coerce_columns (Some schema) (map fst rest) (done ++ rest)%list
  = Ok (done ++ rest')%list.
Proof.
  intros Hnd Hall. revert done Hnd.
  induction Hall as [|[c s] [c' s'] rest rest' [Hl Hc] _ IH]; intros done Hnd.
  - reflexivity.
  - simpl in Hl, Hc. subst c'. simpl.
    assert (Hfresh : ~ In c (map fst done)).
    { rewrite map_app in Hnd. simpl in Hnd.
      apply NoDup_remove_2 in Hnd. rewrite in_app_iff in Hnd. tauto. }
    rewrite (coerce_column_spec schema c _ s).
    2:{ rewrite (dict_get_app_right _ _ _ Hfresh). simpl.
        now rewrite String.eqb_refl. }
    rewrite Hc. cbn [rbind].
    rewrite (dict_set_app_right _ _ _ _ Hfresh). simpl.
    rewrite String.eqb_refl.
    specialize (IH (done ++ [(c, s')])%list).
    rewrite <- !app_assoc in IH. simpl in IH. apply IH.
    rewrite map_app in *. simpl in *. exact Hnd.
Qed.

(** Once the partition tag is set, the coerced frame holds the coerced tag
    under the partition label and, around it, the other columns of the
    input, coerced, in their order. *)
Lemma tagged_columns (schema : list SchemaField) (pc : string) (b tag : Series)
    (dataframe others : DataFrame) :
  NoDup (map fst dataframe) ->
  coerced schema pc b = Ok tag ->
  Forall2 (coerced_column schema) (dict_drop dataframe pc) others ->
  exists cols',
    Forall2 (coerced_column schema) (dict_set dataframe pc b) cols'
    /\ dict_get cols' pc = Some tag
    /\ dict_drop cols' pc = others.
Proof.
  intros Hnd Htag. revert others.
  induction dataframe as [|[c s] dataframe IH]; intros others Hall; simpl in *.
  - inversion Hall; subst. exists [(pc, tag)]. simpl.
    rewrite String.eqb_refl. repeat split.
    constructor; [split; [reflexivity | exact Htag] | constructor].
  - inversion Hnd as [|? ? Hfresh Hnd']; subst.
    destruct (String.eqb_spec c pc) as [->|Hc].
    + rewrite (dict_drop_absent _ _ Hfresh) in Hall.
      exists ((pc, tag) :: others). simpl. rewrite String.eqb_refl.
      split; [|split; [reflexivity|]].
      * constructor; [split; [reflexivity | exact Htag] | exact Hall].
      * apply dict_drop_absent.
        now rewrite (coerced_labels _ _ _ Hall).
    + inversion Hall as [|? [c' s'] ? others' [Hl Hcs] Hall']; subst.
      simpl in Hl, Hcs. subst c'.
      destruct (IH Hnd' others' Hall') as (cols' & Hcols & Hget & Hdrop).
      exists ((c, s') :: cols'). simpl.
      destruct (String.eqb_spec c pc) as [E|_]; [congruence|].
      split; [|split; [exact Hget | now rewrite Hdrop]].
      constructor; [split; [reflexivity | exact Hcs] | exact Hcols].
Qed.

(** C7: for a table type with a canonical schema, the transform returns
    the partition tag first (the job's date, coerced as the partition
    column is) and after it every other column of the input, in order,
    coerced by the schema: cast to the type under which the schema lists
    its name - text for STRING, floating point for FLOAT, nullable integer
    for INTEGER, calendar date for DATE - and cast again for every further
    field of that name, as happens for a field that the reconciliation
    has published twice.  In a schema with distinct names this is one
    cast, to the canonical type of the column. *)
Theorem transform_coerces_and_tags (w : World) (dataframe : DataFrame)
    (table_type : string) (schema : list SchemaField) (tag : Series)
    (others : DataFrame) :
  dict_get (partitioned_table_schemas (self_ w)) table_type = Some schema ->
  NoDup (map fst dataframe) ->
  coerced schema (partitioning_column (self_ w))
          (broadcast (date (self_ w)) dataframe) = Ok tag ->
  Forall2 (coerced_column schema)
          (dict_drop dataframe (partitioning_column (self_ w))) others ->
  transform_dataframe dataframe table_type w
  = (Ok ((partitioning_column (self_ w), tag) :: others), w)
  /\ (NoDup (map name schema) ->
      forall column s,
        coerced schema column s
        = match canonical_type schema column with
          | Some t => cast_for t s
          | None => Ok s
          end).
Proof.
  intros Hschema Hlabels Htag Hothers. split.
  - destruct (tagged_columns schema _ _ _ dataframe others Hlabels Htag Hothers)
      as (cols' & Hcols & Hget & Hdrop).
    unfold transform_dataframe, bind, get_self, lift, ret.
    rewrite Hschema.
    pose proof (coerce_columns_spec schema
                  (dict_set dataframe (partitioning_column (self_ w))
                            (broadcast (date (self_ w)) dataframe))
                  cols' []) as Hrun.
    simpl in Hrun. rewrite Hrun; [|now apply dict_set_labels_nodup | exact Hcols].
    unfold df_item, dict_item. rewrite Hget, Hdrop. reflexivity.
  - intros Hnames column s. unfold coerced.
    rewrite (listed_once schema column Hnames).
    destruct (canonical_type schema column) as [t|]; simpl; [|reflexivity].
    now destruct (cast_for t s).
Qed.

End WriterProperties.

(** The witness runs the transform on the events schema of the scenario of
    the published key, in which the reconciliation has listed [c_ep]
    twice: the column is cast to text twice. *)
Lemma transform_coerces_and_tags_witness :
  let w :=
    snd (set_dynamic_flat_events_schema
           (scripted_client [mkRow "c" "INTEGER"; mkRow "d" "INTEGER"]
              (Ok [mkSchemaField "a" "STRING"; mkSchemaField "b" "STRING";
                   mkSchemaField "c_ep" "STRING"])
              [] (Ok tt))
           fresh_world) in
  let schema :=
    [mkSchemaField "a" "STRING"; mkSchemaField "b" "STRING";
     mkSchemaField "c_ep" "STRING"; mkSchemaField "c_ep" "STRING";
     mkSchemaField "d_ep" "INTEGER"] in
  @transform_dataframe symbolic_pandas
    [("a", "as"); ("c_ep", "cs"); ("d_ep", "ds")] "flat_events" w
  = (Ok [("event_date", "2024-01-01 00:00:00");
         ("a", "as.astype(str)");
         ("c_ep", "cs.astype(str).astype(str)");
         ("d_ep", "Int64(ds)")],
     w)
  /\ (NoDup (map name schema) ->
      forall column s,
        @coerced symbolic_pandas schema column s
        = match canonical_type schema column with
          | Some t => @cast_for symbolic_pandas t s
          | None => Ok s
          end).
Proof.
  apply (@transform_coerces_and_tags symbolic_pandas
           (snd (set_dynamic_flat_events_schema
                   (scripted_client [mkRow "c" "INTEGER"; mkRow "d" "INTEGER"]
                      (Ok [mkSchemaField "a" "STRING"; mkSchemaField "b" "STRING";
                           mkSchemaField "c_ep" "STRING"])
                      [] (Ok tt))
                   fresh_world))
           _ "flat_events").
  - reflexivity.
  - repeat (constructor; [simpl; intuition discriminate|]). constructor.
  - reflexivity.
  - repeat (constructor; [split; reflexivity|]). constructor.
Defined.

(** ** The rolling write path *)

Section RollingProperties.
Context `{Pandas}.

(** The handler of the delete step returns normally on every API error,
    whatever its status; it only chooses the level of the log record. *)
Lemma on_delete_error_swallows (code : nat) (w : World) :
  on_delete_error (ApiError code) w
  = (Ok tt,
     {| self_ := self_ w;
        trace :=
          (trace w
             ++ [if Nat.eqb code 404
                 then Log WARNING
                        "Cannot delete the partition because the table doesn't exist yet: "
                        (Some (ApiError code))
                 else Log CRITICAL "Cannot delete the partition: "
                        (Some (ApiError code))])%list |}).
Proof.
  unfold on_delete_error, emit. destruct (Nat.eqb code 404); reflexivity.
Qed.

End RollingProperties.

(** C2 at a failing delete: the engine refuses the partition delete with
    status 403.  The run logs the failure, then submits the load with
    append disposition, and returns normally. *)
Theorem load_runs_after_failed_delete :
  let run :=
    run_query_job
      (scripted_client [] (Raise (ApiError 404))
         [("event_id", "ids"); ("event_params_key", "keys");
          ("event_params_value", "values")]
         (Raise (ApiError 403)))
      "SELECT 1" "flat_event_params" false true fresh_world in
  fst run = Ok tt
  /\ exists before loaded config,
       trace (snd run)
       = (before
            ++ [Log CRITICAL "Cannot delete the partition: " (Some (ApiError 403));
                LoadSubmitted loaded "proj.ga.flat_event_params" config])%list
       /\ lj_write_disposition config = "WRITE_APPEND".
Proof.
  vm_compute. split; [reflexivity|].
  eexists [_; _], _, _. split; reflexivity.
Qed.

(** * Further properties *)

(** ** The sanitizer's output *)

Lemma lower_char_idempotent (c : ascii) :
  PyStr.lower_char (PyStr.lower_char c) = PyStr.lower_char c.
Proof. destruct c as [[] [] [] [] [] [] [] []]; reflexivity. Qed.

Lemma string_forall_app (p : ascii -> bool) (a b : string) :
  string_forall p (a ++ b) = string_forall p a && string_forall p b.
Proof.
  induction a as [|c a IH]; simpl; [reflexivity|].
  now rewrite IH, andb_assoc.
Qed.

Lemma string_forall_slice (p : ascii -> bool) (n : nat) (s : string) :
  string_forall p s = true -> string_forall p (PyStr.slice_to n s) = true.
Proof.
  unfold PyStr.slice_to. revert s.
  induction n as [|n IH]; intros [|c s]; simpl; try reflexivity.
  intros Hs. apply andb_true_iff in Hs as [Hc Hs].
  now rewrite Hc, IH.
Qed.

Lemma slice_to_all (n : nat) (s : string) :
  String.length s <= n -> PyStr.slice_to n s = s.
Proof.
  unfold PyStr.slice_to. revert s.
  induction n as [|n IH]; intros [|c s]; simpl; intros Hlen;
    try reflexivity; try lia.
  rewrite IH; [reflexivity | lia].
Qed.

(** Over a lower-cased text the loop only ever appends name characters. *)
Lemma sanitize_loop_name_chars (s r : string) :
  string_forall name_char r = true ->
  string_forall name_char (sanitize_loop r (PyStr.lower s)) = true.
Proof.
  revert r. induction s as [|c s IH]; intros r Hr; simpl; [exact Hr|].
  destruct (PyStr.isalnum (PyStr.lower_char c)) eqn:E; apply IH;
    rewrite string_forall_app, Hr; simpl; unfold name_char.
  - now rewrite E, lower_char_idempotent, Ascii.eqb_refl.
  - reflexivity.
Qed.

(** Over a text of name characters the loop appends the text itself. *)
Lemma sanitize_loop_fixed (s r : string) :
  string_forall name_char s = true -> sanitize_loop r s = r ++ s.
Proof.
  revert r. induction s as [|c s IH]; intros r Hs; simpl in *.
  - now rewrite str_app_nil_r.
  - apply andb_true_iff in Hs as [Hc Hs].
    unfold name_char in Hc. apply andb_true_iff in Hc as [Hc _].
    destruct (PyStr.isalnum c) eqn:E.
    + rewrite IH, str_app_assoc by exact Hs. reflexivity.
    + simpl in Hc. apply Ascii.eqb_eq in Hc. subst c.
      rewrite IH, str_app_assoc by exact Hs. reflexivity.
Qed.

Lemma lower_fixed (s : string) :
  string_forall name_char s = true -> PyStr.lower s = s.
Proof.
  induction s as [|c s IH]; simpl; [reflexivity|].
  intros Hs. apply andb_true_iff in Hs as [Hc Hs].
  unfold name_char in Hc. apply andb_true_iff in Hc as [_ Hc].
  apply Ascii.eqb_eq in Hc. now rewrite Hc, IH.
Qed.

(** What the sanitizer returns, in full: a non-empty text of at most 300
    name characters whose first character is not a digit. *)
Lemma sanitized_shape (p_field r : string) :
  _create_valid_bigquery_field_name p_field = Ok r ->
  string_forall name_char r = true
  /\ String.length r <= 300
  /\ exists c rest, r = String c rest /\ PyStr.isdigit c = false.
Proof.
  unfold _create_valid_bigquery_field_name.
  pose proof (sanitize_loop_name_chars p_field "" eq_refl) as Hacc.
  destruct (sanitize_loop "" (PyStr.lower p_field)) as [|c0 acc]; [discriminate|].
  cbn [PyStr.first_char rbind]. intros E. injection E as <-.
  split; [|split].
  - apply string_forall_slice. destruct (PyStr.isdigit c0); [|exact Hacc].
    simpl in *. exact Hacc.
  - rewrite slice_to_length. lia.
  - destruct (PyStr.isdigit c0) eqn:D.
    + exists "_"%char, (PyStr.slice_to 299 (String c0 acc)). split; reflexivity.
    + exists c0, (PyStr.slice_to 299 acc). split; [reflexivity | exact D].
Qed.

(** X1: a name that the sanitizer returns is made of alphanumeric
    characters, in the sense of [str.isalnum], and underscores, is left
    as it is by [lower], and does not start with a digit in the sense of
    [str.isdigit].  This is less than the docstring asks for, a start with
    a letter or an underscore: the vulgar fraction U+00BD is alphanumeric
    and not a digit, and a name that starts with it is returned as it
    is. *)
Theorem sanitized_name_shape (p_field r : string) :
  _create_valid_bigquery_field_name p_field = Ok r ->
  string_forall (fun c => PyStr.isalnum c || Ascii.eqb c "_") r = true
  /\ PyStr.lower r = r
  /\ (exists c rest, r = String c rest /\ PyStr.isdigit c = false)
  /\ (let half := ascii_of_nat 189 in
      _create_valid_bigquery_field_name (String half "x")
      = Ok (String half "x")
      /\ PyStr.isalpha half = false
      /\ half <> "_"%char).
Proof.
  intros Hr. destruct (sanitized_shape p_field r Hr) as (Hchars & _ & Hfirst).
  split; [|split; [now apply lower_fixed | split; [exact Hfirst|]]].
  - clear Hr Hfirst. induction r as [|c r IH]; simpl in *; [reflexivity|].
    apply andb_true_iff in Hchars as [Hc Hchars].
    unfold name_char in Hc. apply andb_true_iff in Hc as [Hc _].
    now rewrite Hc, IH.
  - cbv zeta. split; [reflexivity | split; [reflexivity | discriminate]].
Qed.

Lemma sanitized_name_shape_witness :
  string_forall (fun c => PyStr.isalnum c || Ascii.eqb c "_") "_2nd_visit_" = true
  /\ PyStr.lower "_2nd_visit_" = "_2nd_visit_"
  /\ (exists c rest, "_2nd_visit_" = String c rest /\ PyStr.isdigit c = false)
  /\ (let half := ascii_of_nat 189 in
      _create_valid_bigquery_field_name (String half "x")
      = Ok (String half "x")
      /\ PyStr.isalpha half = false
      /\ half <> "_"%char).
Proof.
  apply (sanitized_name_shape "2nd Visit!" "_2nd_visit_"). reflexivity.
Defined.

(** X2: a sanitized name is a fixed point of the sanitizer. *)
Theorem sanitization_is_idempotent (p_field r : string) :
  _create_valid_bigquery_field_name p_field = Ok r ->
  _create_valid_bigquery_field_name r = Ok r.
Proof.
  intros Hr.
  destruct (sanitized_shape p_field r Hr) as (Hchars & Hlen & c & rest & -> & Hc).
  unfold _create_valid_bigquery_field_name.
  rewrite (lower_fixed _ Hchars), (sanitize_loop_fixed _ "" Hchars).
  cbn [append PyStr.first_char rbind]. rewrite Hc.
  now rewrite slice_to_all.
Qed.

Lemma sanitization_is_idempotent_witness :
  _create_valid_bigquery_field_name "_2nd_visit_" = Ok "_2nd_visit_".
Proof.
  apply (sanitization_is_idempotent "2nd Visit!" "_2nd_visit_"). reflexivity.
Defined.

(** ** More on schema reconciliation *)

Lemma dict_set_labels_keep {V} (d : dict V) (k k' : string) (v : V) :
  In k (map fst d) -> In k (map fst (dict_set d k' v)).
Proof.
  induction d as [|[k0 v0] d IH]; simpl; [tauto|].
  destruct (String.eqb k0 k'); simpl; tauto.
Qed.

Lemma dict_contains_in {V} (d : dict V) (k : string) :
  dict_contains d k = true <-> In k (map fst d).
Proof.
  rewrite dict_contains_existsb, existsb_exists. split.
  - intros (x & Hx & E). apply String.eqb_eq in E. now subst.
  - intros Hk. exists k. split; [exact Hk | apply String.eqb_refl].
Qed.

Lemma in_dict_get {V} (d : dict V) (k : string) (v : V) :
  NoDup (map fst d) -> In (k, v) d -> dict_get d k = Some v.
Proof.
  induction d as [|[k0 v0] d IH]; simpl; intros Hnd Hin; [destruct Hin|].
  inversion Hnd as [|? ? Hfresh Hnd']; subst.
  destruct Hin as [E|Hin].
  - injection E as -> ->. now rewrite String.eqb_refl.
  - destruct (String.eqb_spec k0 k) as [->|_]; [|now apply IH].
    exfalso. apply Hfresh. now apply (in_map fst) in Hin.
Qed.

Lemma seed_registry_nodup (S : list SchemaField) (registry : dict string) :
  NoDup (map fst registry) -> NoDup (map fst (seed_registry S registry)).
Proof.
  revert registry. induction S as [|f S IH]; intros registry Hnd; [exact Hnd|].
  rewrite seed_registry_cons. apply IH.
  destruct (PyStr.endswith (name f) EP_SUFFIX); [|exact Hnd].
  now apply dict_set_labels_nodup.
Qed.

Lemma seed_registry_keeps (S : list SchemaField) (registry : dict string)
    (k : string) :
  In k (map fst registry) -> In k (map fst (seed_registry S registry)).
Proof.
  revert registry. induction S as [|f S IH]; intros registry Hk; [exact Hk|].
  rewrite seed_registry_cons. apply IH.
  destruct (PyStr.endswith (name f) EP_SUFFIX); [|exact Hk].
  now apply dict_set_labels_keep.
Qed.

(** A schema without suffixed fields seeds nothing. *)
Lemma seed_registry_unsuffixed (S : list SchemaField) (registry : dict string) :
  (forall f, In f S -> PyStr.endswith (name f) EP_SUFFIX = false) ->
  seed_registry S registry = registry.
Proof.
  induction S as [|f S IH]; intros Hno; [reflexivity|].
  rewrite seed_registry_cons, (Hno f) by now left.
  apply IH. intros g Hg. apply Hno. now right.
Qed.

Lemma first_seen_nodup (rows : list Row) (known : list string) :
  NoDup known -> NoDup (known ++ map fst (first_seen known rows)).
Proof.
  revert known. induction rows as [|r rows IH]; intros known Hnd; simpl.
  - now rewrite app_nil_r.
  - destruct (existsb (String.eqb (event_params_key r)) known) eqn:E.
    + now apply IH.
    + simpl.
      replace (known ++ event_params_key r
                 :: map fst (first_seen (known ++ [event_params_key r]) rows))%list
        with ((known ++ [event_params_key r])
                ++ map fst (first_seen (known ++ [event_params_key r]) rows))%list
        by (now rewrite <- app_assoc).
      apply IH. apply NoDup_app; [exact Hnd | repeat constructor; intros [] |].
      intros x Hx [<-|[]].
      assert (existsb (String.eqb (event_params_key r)) known = true);
        [|congruence].
      apply existsb_exists. exists (event_params_key r).
      split; [exact Hx | apply String.eqb_refl].
Qed.

Lemma first_seen_complete (rows : list Row) (known : list string) (r : Row) :
  In r rows ->
  In (event_params_key r) (known ++ map fst (first_seen known rows)).
Proof.
  revert known. induction rows as [|r0 rows IH]; intros known Hin; [destruct Hin|].
  simpl. destruct (existsb (String.eqb (event_params_key r0)) known) eqn:E.
  - destruct Hin as [->|Hin]; [|now apply IH].
    apply existsb_exists in E as (x & Hx & E). apply String.eqb_eq in E.
    subst x. apply in_or_app. now left.
  - simpl. destruct Hin as [->|Hin].
    + apply in_or_app. right. now left.
    + specialize (IH (known ++ [event_params_key r0])%list Hin).
      rewrite <- app_assoc in IH. exact IH.
Qed.

(** Case analysis on the handler of a table that is not found. *)
Lemma not_found_cases {A} (P : A -> Prop) (e : exn) (x y : A) :
  P x -> P y -> P (match e with ApiError 404 => x | _ => y end).
Proof.
  intros Hx Hy. destruct e as [| | | | |code|]; try exact Hy.
  do 404 (destruct code as [|code]; [exact Hy|]).
  destruct code; [exact Hx | exact Hy].
Qed.

Section MoreReconcile.
Context `{Pandas}.

(** X3: on a first run (an empty registry and an existing schema without
    suffixed fields, as the built-in one) the published schema is the
    existing schema followed by exactly one field per distinct observed
    key, in first-seen order, typed by the first fingerprint seen. *)
Theorem first_run_publishes_each_key_once (client : Client) (w : World)
    (rows : list Row) (S : list SchemaField) :
  answers client w rows S ->
  event_params_flat_fields (self_ w) = [] ->
  (forall f, In f S -> PyStr.endswith (name f) EP_SUFFIX = false) ->
  exists w',
    set_dynamic_flat_events_schema client w = (Ok tt, w')
    /\ event_params_flat_fields (self_ w') = first_seen [] rows
    /\ dict_get (partitioned_table_schemas (self_ w')) "flat_events"
       = Some (S ++ map dynamic_field (first_seen [] rows))%list
    /\ NoDup (map fst (first_seen [] rows)).
Proof.
  intros Hans Hempty Hplain.
  destruct (set_dynamic_flat_events_schema_runs client w rows S Hans)
    as (w' & Hrun & Hreg & Hschema).
  rewrite Hempty, (seed_registry_unsuffixed _ _ Hplain),
    add_observed_first_seen in Hreg. simpl in Hreg.
  exists w'. rewrite Hschema, Hreg, append_registry_map.
  repeat split; try assumption.
  apply (first_seen_nodup rows []). constructor.
Qed.

(** X4: reconciliation keeps the registry a dictionary: no key twice, no
    key of the object lost, and every key the rows show is in it. *)
Theorem registry_holds_each_key_once (client : Client) (w : World)
    (rows : list Row) (S : list SchemaField) :
  answers client w rows S ->
  NoDup (map fst (event_params_flat_fields (self_ w))) ->
  exists w',
    set_dynamic_flat_events_schema client w = (Ok tt, w')
    /\ NoDup (map fst (event_params_flat_fields (self_ w')))
    /\ (forall k, In k (map fst (event_params_flat_fields (self_ w))) ->
                  In k (map fst (event_params_flat_fields (self_ w'))))
    /\ (forall r, In r rows ->
                  dict_contains (event_params_flat_fields (self_ w'))
                                (event_params_key r) = true).
Proof.
  intros Hans Hnd.
  destruct (set_dynamic_flat_events_schema_runs client w rows S Hans)
    as (w' & Hrun & Hreg & _).
  exists w'. split; [exact Hrun|].
  rewrite Hreg, add_observed_first_seen, map_app. split; [|split].
  - apply first_seen_nodup. now apply seed_registry_nodup.
  - intros k Hk. apply in_or_app. left. now apply seed_registry_keeps.
  - intros r Hr. apply dict_contains_in. rewrite map_app.
    now apply first_seen_complete.
Qed.


End MoreReconcile.

Lemma builtin_schema_is_plain (f : SchemaField) :
  In f init_flat_events_schema -> PyStr.endswith (name f) EP_SUFFIX = false.
Proof.
  revert f. apply Forall_forall. repeat constructor.
Qed.

Lemma first_run_answers :
  answers
    (scripted_client
       [mkRow "page" "STRING"; mkRow "count" "INTEGER"; mkRow "page" "INTEGER"]
       (Raise (ApiError 404)) [] (Ok tt))
    fresh_world
    [mkRow "page" "STRING"; mkRow "count" "INTEGER"; mkRow "page" "INTEGER"]
    init_flat_events_schema.
Proof.
  eexists. split; [reflexivity|].
  split; [reflexivity|]. split; [reflexivity|]. right. split; reflexivity.
Defined.

Lemma first_run_publishes_each_key_once_witness :
  let rows :=
    [mkRow "page" "STRING"; mkRow "count" "INTEGER"; mkRow "page" "INTEGER"] in
  exists w',
    set_dynamic_flat_events_schema
      (scripted_client rows (Raise (ApiError 404)) [] (Ok tt)) fresh_world
    = (Ok tt, w')
    /\ event_params_flat_fields (self_ w') = first_seen [] rows
    /\ dict_get (partitioned_table_schemas (self_ w')) "flat_events"
       = Some (init_flat_events_schema
                 ++ map dynamic_field (first_seen [] rows))%list
    /\ NoDup (map fst (first_seen [] rows)).
Proof.
  intros rows.
  apply (first_run_publishes_each_key_once _ _ rows init_flat_events_schema).
  - exact first_run_answers.
  - reflexivity.
  - exact builtin_schema_is_plain.
Defined.

Lemma registry_holds_each_key_once_witness :
  let rows :=
    [mkRow "page" "STRING"; mkRow "count" "INTEGER"; mkRow "page" "INTEGER"] in
  exists w',
    set_dynamic_flat_events_schema
      (scripted_client rows (Raise (ApiError 404)) [] (Ok tt)) fresh_world
    = (Ok tt, w')
    /\ NoDup (map fst (event_params_flat_fields (self_ w')))
    /\ (forall k, In k (map fst (event_params_flat_fields (self_ fresh_world))) ->
                  In k (map fst (event_params_flat_fields (self_ w'))))
    /\ (forall r, In r rows ->
                  dict_contains (event_params_flat_fields (self_ w'))
                                (event_params_key r) = true).
Proof.
  intros rows.
  apply (registry_holds_each_key_once _ _ rows init_flat_events_schema).
  - exact first_run_answers.
  - simpl. constructor.
Defined.


(** ** The published schema names every dynamic column *)

Lemma str_app_inv_tail (a b c : string) : a ++ c = b ++ c -> a = b.
Proof.
  revert b. induction a as [|x a IH]; intros [|y b] E; simpl in *.
  - reflexivity.
  - exfalso. apply (f_equal String.length) in E. simpl in E.
    rewrite str_length_app in E. lia.
  - exfalso. apply (f_equal String.length) in E. simpl in E.
    rewrite str_length_app in E. lia.
  - injection E as -> E. f_equal. now apply IH.
Qed.

Lemma canonical_type_app (A B : list SchemaField) (column : string) :
  canonical_type (A ++ B) column
  = match canonical_type A column with
    | Some t => Some t
    | None => canonical_type B column
    end.
Proof.
  induction A as [|f A IH]; simpl; [reflexivity|].
  destruct (String.eqb (name f) column); [reflexivity | exact IH].
Qed.

Lemma canonical_type_in (S : list SchemaField) (column t : string) :
  canonical_type S column = Some t ->
  exists f, In f S /\ name f = column /\ field_type f = t.
Proof.
  induction S as [|f S IH]; simpl; [discriminate|].
  destruct (String.eqb_spec (name f) column) as [E|_].
  - intros [= <-]. exists f. auto.
  - intros Ht. destruct (IH Ht) as (g & Hg & Hn & Hft). exists g. auto.
Qed.

(** Among the fields published for a registry, the field of a key's alias
    carries the type the registry holds for that key. *)
Lemma canonical_type_dynamic (registry : dict string) (key : string) :
  canonical_type (map dynamic_field registry) (key ++ EP_SUFFIX)
  = dict_get registry key.
Proof.
  induction registry as [|[k t] registry IH]; simpl; [reflexivity|].
  destruct (String.eqb_spec k key) as [->|Hk].
  - now rewrite String.eqb_refl.
  - destruct (String.eqb_spec (k ++ EP_SUFFIX) (key ++ EP_SUFFIX)) as [E|_];
      [|exact IH].
    apply str_app_inv_tail in E. contradiction.
Qed.

Lemma endswith_app (key suffix : string) :
  PyStr.endswith (key ++ suffix) suffix = true.
Proof.
  unfold PyStr.endswith. rewrite str_length_app.
  apply andb_true_iff. split; [apply Nat.leb_le; lia|].
  replace (String.length key + String.length suffix - String.length suffix)
    with (String.length key) by lia.
  apply String.eqb_eq.
  induction key as [|c key IH]; simpl; [|exact IH].
  induction suffix as [|c suffix IHs]; simpl; [reflexivity | now rewrite IHs].
Qed.

Section SchemaNamesColumns.
Context `{Pandas}.

(** X6: after reconciliation, every entry of the registry (hence every
    dynamic column of the events query, whose alias is the key with the
    suffix) has in the published schema a field of that alias, and the
    canonical type of that alias is the type the registry holds. *)
Theorem published_schema_types_dynamic_columns (client : Client) (w : World)
    (rows : list Row) (S : list SchemaField) :
  answers client w rows S ->
  NoDup (map name S) ->
  NoDup (map fst (event_params_flat_fields (self_ w))) ->
  exists w' schema,
    set_dynamic_flat_events_schema client w = (Ok tt, w')
    /\ dict_get (partitioned_table_schemas (self_ w')) "flat_events"
       = Some schema
    /\ forall key t,
         In (key, t) (event_params_flat_fields (self_ w')) ->
         canonical_type schema (key ++ EP_SUFFIX) = Some t.
Proof.
  intros Hans HS Hreg0.
  destruct (set_dynamic_flat_events_schema_runs client w rows S Hans)
    as (w' & Hrun & Hreg & Hschema).
  exists w', (append_registry (event_params_flat_fields (self_ w')) S).
  split; [exact Hrun|]. split; [exact Hschema|].
  intros key t Hin.
  assert (Hnd : NoDup (map fst (event_params_flat_fields (self_ w')))).
  { rewrite Hreg, add_observed_first_seen, map_app.
    apply first_seen_nodup. now apply seed_registry_nodup. }
  pose proof (in_dict_get _ _ _ Hnd Hin) as Hget.
  rewrite append_registry_map, canonical_type_app, canonical_type_dynamic.
  destruct (canonical_type S (key ++ EP_SUFFIX)) as [t0|] eqn:E; [|exact Hget].
  destruct (canonical_type_in _ _ _ E) as (f & Hf & Hname & Hft).
  destruct (seed_registry_types S (event_params_flat_fields (self_ w)) f HS Hf)
    as [Hraw Hseed].
  { rewrite Hname. apply endswith_app. }
  rewrite Hname in Hraw. apply str_app_inv_tail in Hraw.
  rewrite <- Hraw in Hseed.
  apply (dict_get_app_left _ (first_seen
           (map fst (seed_registry S (event_params_flat_fields (self_ w))))
           rows)) in Hseed.
  rewrite <- add_observed_first_seen, <- Hreg, Hget in Hseed.
  rewrite <- Hft. now symmetry.
Qed.

End SchemaNamesColumns.

Lemma published_schema_types_dynamic_columns_witness :
  let S := [mkSchemaField "a" "STRING"; mkSchemaField "b" "STRING";
            mkSchemaField "c_ep" "STRING"] in
  let rows := [mkRow "c" "INTEGER"; mkRow "d" "INTEGER"] in
  exists w' schema,
    set_dynamic_flat_events_schema (scripted_client rows (Ok S) [] (Ok tt))
      fresh_world
    = (Ok tt, w')
    /\ dict_get (partitioned_table_schemas (self_ w')) "flat_events"
       = Some schema
    /\ forall key t,
         In (key, t) (event_params_flat_fields (self_ w')) ->
         canonical_type schema (key ++ EP_SUFFIX) = Some t.
Proof.
  intros S rows.
  apply (published_schema_types_dynamic_columns _ _ rows S).
  - exact scenario_answers.
  - repeat (constructor; [simpl; intuition discriminate|]). constructor.
  - simpl. constructor.
Defined.

(** ** The rolling write path, case by case *)

Section MoreWriter.
Context `{Pandas}.

(** The transform reads the object and leaves the world as it was. *)
Lemma transform_dataframe_keeps_world (dataframe : DataFrame)
    (table_type : string) (w : World) :
  snd (transform_dataframe dataframe table_type w) = w.
Proof.
  unfold transform_dataframe, bind, get_self, lift, ret.
  repeat match goal with
         | |- context [match ?r with Ok _ => _ | Raise _ => _ end] =>
             destruct r
         end; reflexivity.
Qed.

Lemma transform_dataframe_reads_self (dataframe : DataFrame)
    (table_type : string) (w1 w2 : World) :
  self_ w1 = self_ w2 ->
  fst (transform_dataframe dataframe table_type w1)
  = fst (transform_dataframe dataframe table_type w2).
Proof.
  intros E. unfold transform_dataframe, bind, get_self, lift, ret.
  rewrite E.
  repeat match goal with
         | |- context [match ?r with Ok _ => _ | Raise _ => _ end] =>
             destruct r
         end; reflexivity.
Qed.

(** How the transform runs inside a larger run. *)
Lemma transform_dataframe_in (dataframe : DataFrame) (table_type : string)
    (w : World) (new : list Event) :
  transform_dataframe dataframe table_type (after w new)
  = (fst (transform_dataframe dataframe table_type w), after w new).
Proof.
  rewrite (surjective_pairing (transform_dataframe _ _ (after w new))).
  rewrite transform_dataframe_keeps_world.
  now rewrite (transform_dataframe_reads_self _ _ (after w new) w).
Qed.

(** Every run, step by step: the flattening job is submitted; in rolling
    mode the result is fetched and transformed, the date is formatted, the
    delete is submitted and awaited, its error handled, and the load is
    submitted. *)
Lemma run_query_job_steps (client : Client) (qry table_type : string)
    (sharded partitioned : bool) (w : World) :
  let self := self_ w in
  let submitted :=
    [QuerySubmitted qry (flatten_job_config self table_type sharded)] in
  run_query_job client qry table_type sharded partitioned w
  = match query client qry (flatten_job_config self table_type sharded) with
    | Raise e => (Raise e, after w submitted)
    | Ok _ =>
      if partitioned then
        match result_dataframe client qry with
        | Raise e => (Raise e, after w submitted)
        | Ok dataframe =>
          match fst (transform_dataframe dataframe table_type w) with
          | Raise e => (Raise e, after w submitted)
          | Ok dataframe =>
            let load new :=
              (load_table_from_dataframe client dataframe
                 (rolling_table self table_type)
                 (load_job_config self table_type),
               after w (submitted ++ new
                          ++ [LoadSubmitted dataframe
                                (rolling_table self table_type)
                                (load_job_config self table_type)])%list) in
            match re_search_date (str_datetime (date self)) with
            | None => (Raise AttributeError, after w submitted)
            | Some date_string =>
              let query_delete := delete_query self table_type date_string in
              let deleting := [QuerySubmitted query_delete delete_job_config] in
              let outcome :=
                match query client query_delete delete_job_config with
                | Ok _ => result_wait client query_delete
                | Raise e => Raise e
                end in
              match outcome with
              | Ok _ => load deleting
              | Raise (ApiError code) =>
                  load (deleting
                          ++ [if Nat.eqb code 404
                              then Log WARNING
                                     "Cannot delete the partition because the table doesn't exist yet: "
                                     (Some (ApiError code))
                              else Log CRITICAL "Cannot delete the partition: "
                                     (Some (ApiError code))])%list
              | Raise _ =>
                  (Raise AttributeError, after w (submitted ++ deleting)%list)
              end
            end
          end
        end
      else (Ok tt, after w submitted)
    end.
Proof.
  cbn zeta.
  unfold run_query_job, client_query.
  unfold bind at 1. unfold get_self at 1.
  unfold bind at 1. unfold bind at 1. unfold emit at 1. unfold lift at 1.
  fold (flatten_job_config (self_ w) table_type sharded).
  change {| self_ := self_ w;
            trace := (trace w ++ [QuerySubmitted qry
                        (flatten_job_config (self_ w) table_type sharded)])%list |}
    with (after w [QuerySubmitted qry
                     (flatten_job_config (self_ w) table_type sharded)]).
  destruct (query client qry _) as [[]|e]; [|reflexivity].
  destruct partitioned; [|reflexivity].
  unfold bind at 1. unfold lift at 1.
  destruct (result_dataframe client qry) as [dataframe|e]; [|reflexivity].
  unfold bind at 1. rewrite transform_dataframe_in.
  destruct (fst (transform_dataframe dataframe table_type w))
    as [dataframe'|e]; [|reflexivity].
  unfold bind, try_except, lift, emit, group0.
  destruct (re_search_date _) as [date_string|]; [|reflexivity].
  cbn [self_ trace after].
  fold delete_job_config.
  destruct (query client (delete_query _ _ _) delete_job_config) as [[]|e];
    [destruct (result_wait client _) as [[]|e]|];
    try (destruct e; rewrite ?on_delete_error_swallows);
    unfold after, on_delete_error, raise; cbn [self_ trace];
    now rewrite <- ?app_assoc.
Qed.

End MoreWriter.

(** Solving [explicit list = pre ++ x :: post] for [pre] and [post]. *)
Ltac crack_position :=
  repeat match goal with
         | E : (_ :: _ = _ :: _) |- _ =>
             first [discriminate E | injection E; clear E; intros]
         | E : ([] = _ :: _) |- _ => discriminate E
         | E : (_ :: _ = []) |- _ => discriminate E
         | E : ([] = (?p ++ _ :: _)%list) |- _ => destruct p; discriminate E
         | E : (_ :: _ = (?p ++ _ :: _)%list) |- _ =>
             destruct p; cbn [app] in E
         end.

(** A run that submits no load. *)
Ltac no_load :=
  solve [ eexists _, _; split; [reflexivity|];
          intros pre post df dest cfg E; cbn [app] in E; crack_position ].

(** A run that submits one load, after the delete for [ds]. *)
Ltac one_load ds :=
  eexists _, _; split; [reflexivity|];
  intros pre post df dest cfg E; cbn [app] in E; crack_position; subst;
  split; [reflexivity|]; split; [reflexivity|]; split; [reflexivity|];
  exists ds; simpl; tauto.

Section RollingOrder.
Context `{Pandas}.

(** X7: in every run, whatever the engine answers, the object is left as
    it was, and a load is submitted at most once, as the last thing the
    run does, into the rolling table with append disposition, and only
    after the partition delete for the same table has been submitted. *)
Theorem rolling_load_follows_delete (client : Client) (qry table_type : string)
    (sharded partitioned : bool) (w : World) :
  exists r new,
    run_query_job client qry table_type sharded partitioned w
    = (r, after w new)
    /\ forall pre post dataframe destination config,
         new = (pre ++ LoadSubmitted dataframe destination config :: post)%list ->
         post = []
         /\ destination = rolling_table (self_ w) table_type
         /\ config = load_job_config (self_ w) table_type
         /\ exists date_string,
              In (QuerySubmitted
                    (delete_query (self_ w) table_type date_string)
                    delete_job_config) pre.
Proof.
  rewrite run_query_job_steps. cbn zeta.
  destruct (query client qry _) as [[]|e]; [|no_load].
  destruct partitioned; [|no_load].
  destruct (result_dataframe client qry) as [dataframe|e]; [|no_load].
  destruct (fst (transform_dataframe dataframe table_type w))
    as [dataframe'|e]; [|no_load].
  destruct (re_search_date _) as [date_string|]; [|no_load].
  destruct (match query client (delete_query (self_ w) table_type date_string)
                    delete_job_config with
            | Ok _ => result_wait client
                        (delete_query (self_ w) table_type date_string)
            | Raise e => Raise e
            end) as [[]|e].
  - one_load date_string.
  - destruct e; try no_load. destruct (Nat.eqb code 404); one_load date_string.
Qed.

(** X8: when the rolling table does not exist yet (the delete answers with
    status 404), the run logs a warning and goes on to the load; what the
    run returns is what the load returns. *)
Theorem missing_rolling_table_is_tolerated (client : Client)
    (qry table_type date_string : string) (sharded : bool) (w : World)
    (dataframe dataframe' : DataFrame) :
  query client qry (flatten_job_config (self_ w) table_type sharded) = Ok tt ->
  result_dataframe client qry = Ok dataframe ->
  fst (transform_dataframe dataframe table_type w) = Ok dataframe' ->
  re_search_date (str_datetime (date (self_ w))) = Some date_string ->
  query client (delete_query (self_ w) table_type date_string) delete_job_config
  = Ok tt ->
  result_wait client (delete_query (self_ w) table_type date_string)
  = Raise (ApiError 404) ->
  run_query_job client qry table_type sharded true w
  = (load_table_from_dataframe client dataframe'
       (rolling_table (self_ w) table_type)
       (load_job_config (self_ w) table_type),
     after w
       [QuerySubmitted qry (flatten_job_config (self_ w) table_type sharded);
        QuerySubmitted (delete_query (self_ w) table_type date_string)
          delete_job_config;
        Log WARNING
          "Cannot delete the partition because the table doesn't exist yet: "
          (Some (ApiError 404));
        LoadSubmitted dataframe' (rolling_table (self_ w) table_type)
          (load_job_config (self_ w) table_type)]).
Proof.
  intros Hsubmit Hframe Htransform Hdate Hdelete Hwait.
  rewrite run_query_job_steps. cbn zeta.
  now rewrite Hsubmit, Hframe, Htransform, Hdate, Hdelete, Hwait.
Qed.

(** X9: when the delete step raises an error that carries no status code
    (anything but an API call error), reading the code in the handler
    raises in turn: the run ends with [AttributeError] in place of the
    original error, and nothing is loaded. *)
Theorem codeless_delete_error_is_masked (client : Client)
    (qry table_type date_string : string) (sharded : bool) (w : World)
    (dataframe dataframe' : DataFrame) (e : exn) :
  query client qry (flatten_job_config (self_ w) table_type sharded) = Ok tt ->
  result_dataframe client qry = Ok dataframe ->
  fst (transform_dataframe dataframe table_type w) = Ok dataframe' ->
  re_search_date (str_datetime (date (self_ w))) = Some date_string ->
  query client (delete_query (self_ w) table_type date_string) delete_job_config
  = Raise e
  \/ (query client (delete_query (self_ w) table_type date_string)
            delete_job_config = Ok tt
      /\ result_wait client (delete_query (self_ w) table_type date_string)
         = Raise e) ->
  (forall code, e <> ApiError code) ->
  run_query_job client qry table_type sharded true w
  = (Raise AttributeError,
     after w
       [QuerySubmitted qry (flatten_job_config (self_ w) table_type sharded);
        QuerySubmitted (delete_query (self_ w) table_type date_string)
          delete_job_config]).
Proof.
  intros Hsubmit Hframe Htransform Hdate Hdelete Hcode.
  rewrite run_query_job_steps. cbn zeta.
  rewrite Hsubmit, Hframe, Htransform, Hdate.
  destruct Hdelete as [-> | [-> ->]];
    destruct e; try reflexivity; now destruct (Hcode code).
Qed.

(** X10: for a table type without a canonical schema the rolling path
    stops at the transform with [TypeError], whatever the dataframe: the
    flattening job has been submitted, but no delete and no load. *)
Theorem unknown_table_type_stops_before_delete (client : Client)
    (qry table_type : string) (sharded : bool) (w : World)
    (dataframe : DataFrame) :
  dict_get (partitioned_table_schemas (self_ w)) table_type = None ->
  query client qry (flatten_job_config (self_ w) table_type sharded) = Ok tt ->
  result_dataframe client qry = Ok dataframe ->
  transform_dataframe dataframe table_type w = (Raise TypeError, w)
  /\ run_query_job client qry table_type sharded true w
     = (Raise TypeError,
        after w
          [QuerySubmitted qry
             (flatten_job_config (self_ w) table_type sharded)]).
Proof.
  intros Hschema Hsubmit Hframe.
  assert (Htransform :
            transform_dataframe dataframe table_type w = (Raise TypeError, w)).
  { unfold transform_dataframe, bind, get_self, lift. rewrite Hschema.
    destruct (dict_set dataframe _ _) as [|[c s] rest] eqn:E; [|reflexivity].
    destruct dataframe as [|[c s] rest]; simpl in E; [discriminate|].
    destruct (String.eqb c _); discriminate. }
  split; [exact Htransform|].
  rewrite run_query_job_steps. cbn zeta.
  now rewrite Hsubmit, Hframe, Htransform.
Qed.

End RollingOrder.

Lemma missing_rolling_table_is_tolerated_witness :
  let client :=
    scripted_client [] (Raise (ApiError 404)) [("event_id", "ids")]
      (Raise (ApiError 404)) in
  let self := self_ fresh_world in
  let loaded : @DataFrame symbolic_pandas :=
    [("event_date", "2024-01-01 00:00:00.dt.date");
     ("event_id", "ids.astype(str)")] in
  run_query_job client "SELECT 1" "flat_items" true true fresh_world
  = (Ok tt,
     after fresh_world
       [QuerySubmitted "SELECT 1" (flatten_job_config self "flat_items" true);
        QuerySubmitted (delete_query self "flat_items" "2024-01-01")
          delete_job_config;
        Log WARNING
          "Cannot delete the partition because the table doesn't exist yet: "
          (Some (ApiError 404));
        LoadSubmitted loaded (rolling_table self "flat_items")
          (load_job_config self "flat_items")]).
Proof.
  intros client self loaded.
  apply (missing_rolling_table_is_tolerated client "SELECT 1" "flat_items"
           "2024-01-01" true fresh_world [("event_id", "ids")] loaded);
    reflexivity.
Defined.

Lemma codeless_delete_error_is_masked_witness :
  let client :=
    scripted_client [] (Raise (ApiError 404)) [("event_id", "ids")]
      (Raise (OtherError "timed out")) in
  let self := self_ fresh_world in
  run_query_job client "SELECT 1" "flat_items" true true fresh_world
  = (Raise AttributeError,
     after fresh_world
       [QuerySubmitted "SELECT 1" (flatten_job_config self "flat_items" true);
        QuerySubmitted (delete_query self "flat_items" "2024-01-01")
          delete_job_config]).
Proof.
  intros client self.
  apply (codeless_delete_error_is_masked client "SELECT 1" "flat_items"
           "2024-01-01" true fresh_world [("event_id", "ids")]
           [("event_date", "2024-01-01 00:00:00.dt.date");
            ("event_id", "ids.astype(str)")]
           (OtherError "timed out")); try reflexivity.
  - right. split; reflexivity.
  - intros code E. discriminate E.
Defined.

Lemma unknown_table_type_stops_before_delete_witness :
  let client :=
    scripted_client [] (Raise (ApiError 404)) [("event_id", "ids")] (Ok tt) in
  @transform_dataframe symbolic_pandas [("event_id", "ids")] "flat_sessions"
    fresh_world
  = (Raise TypeError, fresh_world)
  /\ run_query_job client "SELECT 1" "flat_sessions" true true fresh_world
     = (Raise TypeError,
        after fresh_world
          [QuerySubmitted "SELECT 1"
             (flatten_job_config (self_ fresh_world) "flat_sessions" true)]).
Proof.
  intros client.
  apply (unknown_table_type_stops_before_delete client "SELECT 1"
           "flat_sessions" true fresh_world [("event_id", "ids")]);
    reflexivity.
Defined.

(** ** The date of the partition delete *)

Lemma digit_is_decimal (n : nat) : PyStr.between 48 57 (digit n) = true.
Proof.
  unfold digit. pose proof (Nat.mod_upper_bound n 10) as Hlt.
  destruct (n mod 10) as [|[|[|[|[|[|[|[|[|[|k]]]]]]]]]];
    try reflexivity; lia.
Qed.

Lemma decimal_is_not_dash (c : ascii) :
  PyStr.between 48 57 c = true -> Ascii.eqb c "-" = false.
Proof. destruct c as [[] [] [] [] [] [] [] []]; cbv; congruence. Qed.

Lemma digit_is_two (n : nat) : Ascii.eqb (digit n) "2" = Nat.eqb (n mod 10) 2.
Proof.
  unfold digit. pose proof (Nat.mod_upper_bound n 10) as Hlt.
  destruct (n mod 10) as [|[|[|[|[|[|[|[|[|[|k]]]]]]]]]];
    try reflexivity; lia.
Qed.

Lemma digit_is_zero (n : nat) : Ascii.eqb (digit n) "0" = Nat.eqb (n mod 10) 0.
Proof.
  unfold digit. pose proof (Nat.mod_upper_bound n 10) as Hlt.
  destruct (n mod 10) as [|[|[|[|[|[|[|[|[|[|k]]]]]]]]]];
    try reflexivity; lia.
Qed.

(** The search over a time stamp made of decimal digits: only its start
    can match, and it does when the stamp starts with [20]. *)
Lemma search_in_stamp (y1 y2 y3 y4 m1 m2 d1 d2 : ascii) :
  PyStr.between 48 57 y1 = true -> PyStr.between 48 57 y2 = true ->
  PyStr.between 48 57 y3 = true -> PyStr.between 48 57 y4 = true ->
  PyStr.between 48 57 m1 = true -> PyStr.between 48 57 m2 = true ->
  PyStr.between 48 57 d1 = true -> PyStr.between 48 57 d2 = true ->
  re_search_date
    (String y1 (String y2 (String y3 (String y4 (String "-"
       (String m1 (String m2 (String "-" (String d1 (String d2
          " 00:00:00"))))))))))
  = if Ascii.eqb y1 "2" && Ascii.eqb y2 "0"
    then Some (String y1 (String y2 (String y3 (String y4 (String "-"
                 (String m1 (String m2 (String "-" (String d1 (String d2
                    ""))))))))))
    else None.
Proof.
  intros Hy1 Hy2 Hy3 Hy4 Hm1 Hm2 Hd1 Hd2.
  pose proof (decimal_is_not_dash _ Hy4) as Ny4.
  pose proof (decimal_is_not_dash _ Hm1) as Nm1.
  pose proof (decimal_is_not_dash _ Hm2) as Nm2.
  pose proof (decimal_is_not_dash _ Hd1) as Nd1.
  pose proof (decimal_is_not_dash _ Hd2) as Nd2.
  cbn -[PyStr.between Ascii.eqb].
  rewrite Hy3, Hy4, Hm1, Hm2, Hd1, Hd2, Nm1, Nm2, Nd1, Nd2.
  change (Ascii.eqb "-" "-") with true.
  change (Ascii.eqb " " "-") with false.
  change (Ascii.eqb "0" "-") with false.
  change (Ascii.eqb ":" "-") with false.
  rewrite ?andb_true_r, ?andb_false_r.
  destruct (Ascii.eqb y1 "2" && Ascii.eqb y2 "0"); reflexivity.
Qed.

(** X11: for a date of a four-digit year, the text searched in the delete step
    matches exactly when the year is 2000..2099, and what is found is then
    the date itself as [YYYY-MM-DD]; for any other year the search finds
    nothing, so the delete step raises [AttributeError]. *)
Theorem delete_date_is_the_object_date (d : datetime) :
  year d < 100 * 100 ->
  group0 (re_search_date (str_datetime d))
  = if Nat.leb 2000 (year d) && Nat.leb (year d) 2099
    then Ok (two_digits (year d / 100) ++ two_digits (year d) ++ "-"
               ++ two_digits (month d) ++ "-" ++ two_digits (day d))
    else Raise AttributeError.
Proof.
  intros Hyear. unfold str_datetime, two_digits. cbn [append].
  rewrite search_in_stamp by apply digit_is_decimal.
  rewrite digit_is_two, digit_is_zero.
  pose proof (Nat.div_mod_eq (year d) 100) as Hy.
  pose proof (Nat.mod_upper_bound (year d) 100) as Hr.
  pose proof (Nat.div_mod_eq (year d / 100) 10) as Ha.
  pose proof (Nat.mod_upper_bound (year d / 100) 10) as Hb.
  assert (Hsmall : (year d / 100 / 10) mod 10 = year d / 100 / 10).
  { apply Nat.mod_small. lia. }
  rewrite Hsmall.
  destruct (Nat.eqb_spec (year d / 100 / 10) 2) as [E2|N2];
    destruct (Nat.eqb_spec ((year d / 100) mod 10) 0) as [E0|N0];
    destruct (Nat.leb_spec 2000 (year d));
    destruct (Nat.leb_spec (year d) 2099);
    cbn [andb group0]; try reflexivity; lia.
Qed.

Lemma delete_date_is_the_object_date_witness :
  group0 (re_search_date (str_datetime (mkDatetime 2024 2 29)))
  = Ok "2024-02-29".
Proof.
  apply (delete_date_is_the_object_date (mkDatetime 2024 2 29)). simpl. lia.
Defined.

(** ** The columns of a transformed dataframe *)

Lemma dict_set_labels_present {V} (d : dict V) (k : string) (v v0 : V) :
  dict_get d k = Some v0 -> map fst (dict_set d k v) = map fst d.
Proof.
  induction d as [|[k' v'] d IH]; simpl; [discriminate|].
  destruct (String.eqb k' k); simpl; [reflexivity|].
  intros Hd. now rewrite IH.
Qed.

Lemma dict_drop_labels {V} (d d' : dict V) (k : string) :
  map fst d = map fst d' -> map fst (dict_drop d k) = map fst (dict_drop d' k).
Proof.
  revert d'. induction d as [|[k0 v0] d IH]; intros [|[k1 v1] d'] E;
    simpl in *; try discriminate; [reflexivity|].
  injection E as -> E.
  destruct (String.eqb k1 k); simpl; [|f_equal]; now apply IH.
Qed.

Lemma dict_drop_set_labels {V} (d : dict V) (k : string) (v : V) :
  map fst (dict_drop (dict_set d k v) k) = map fst (dict_drop d k).
Proof.
  induction d as [|[k0 v0] d IH]; simpl.
  - now rewrite String.eqb_refl.
  - destruct (String.eqb k0 k) eqn:E; simpl; rewrite E; [reflexivity|].
    simpl. now rewrite IH.
Qed.

Section TransformColumns.
Context `{Pandas}.

Lemma coerce_field_labels (f : SchemaField) (column : string)
    (dataframe dataframe' : DataFrame) :
  coerce_field f column dataframe = Ok dataframe' ->
  map fst dataframe' = map fst dataframe.
Proof.
  unfold coerce_field, df_item, dict_item.
  destruct (String.eqb (name f) column); [|now intros [= <-]].
  destruct (dict_get dataframe column) as [s|] eqn:G.
  - cbn [rbind].
    repeat match goal with
           | |- context [if ?b then _ else _] => destruct b
           end;
      try (now intros [= <-]);
      match goal with
      | |- rbind ?r _ = _ -> _ => destruct r as [s'|]; cbn [rbind]
      end;
      try discriminate; intros [= <-];
      now apply (dict_set_labels_present _ _ _ s).
  - cbn [rbind].
    repeat match goal with
           | |- context [if ?b then _ else _] => destruct b
           end;
      try discriminate; now intros [= <-].
Qed.

Lemma coerce_column_labels (schema : list SchemaField) (column : string)
    (dataframe dataframe' : DataFrame) :
  coerce_column schema column dataframe = Ok dataframe' ->
  map fst dataframe' = map fst dataframe.
Proof.
  revert dataframe. induction schema as [|f schema IH]; intros dataframe; simpl.
  - now intros [= <-].
  - destruct (coerce_field f column dataframe) as [mid|] eqn:E;
      cbn [rbind]; [|discriminate].
    intros Hrest. rewrite (IH _ Hrest). now apply (coerce_field_labels f column).
Qed.

Lemma coerce_columns_labels (bq_schema : option (list SchemaField))
    (columns : list string) (dataframe dataframe' : DataFrame) :
  coerce_columns bq_schema columns dataframe = Ok dataframe' ->
  map fst dataframe' = map fst dataframe.
Proof.
  revert dataframe. induction columns as [|c columns IH]; intros dataframe; simpl.
  - now intros [= <-].
  - destruct bq_schema as [fields|]; [|discriminate].
    destruct (coerce_column fields c dataframe) as [mid|] eqn:E;
      cbn [rbind]; [|discriminate].
    intros Hrest. rewrite (IH _ Hrest). now apply (coerce_column_labels fields c).
Qed.

(** X12: whatever the schema and the dataframe, a transform that returns
    has kept every column of the input, in the input's order, behind the
    partition column, which comes first and once; it has left the object
    and the trace alone. *)
Theorem transform_keeps_the_columns (w w' : World)
    (dataframe dataframe' : DataFrame) (table_type : string) :
  transform_dataframe dataframe table_type w = (Ok dataframe', w') ->
  w' = w
  /\ map fst dataframe'
     = partitioning_column (self_ w)
         :: map fst (dict_drop dataframe (partitioning_column (self_ w))).
Proof.
  intros Hrun.
  pose proof (transform_dataframe_keeps_world dataframe table_type w) as Hw.
  rewrite Hrun in Hw. simpl in Hw. split; [exact Hw|].
  revert Hrun. unfold transform_dataframe, bind, get_self, lift, ret.
  destruct (coerce_columns _ _ _) as [cols|] eqn:E; [|discriminate].
  unfold df_item, dict_item.
  destruct (dict_get cols _) as [tag|]; [|discriminate].
  intros [= <- _]. simpl. f_equal.
  rewrite (dict_drop_labels cols _ _ (coerce_columns_labels _ _ _ _ E)).
  apply dict_drop_set_labels.
Qed.

End TransformColumns.

Lemma transform_keeps_the_columns_witness :
  fresh_world = fresh_world
  /\ map fst
       [("event_date", "2024-01-01 00:00:00.dt.date");
        ("event_id", "ids.astype(str)"); ("extra", "xs")]
     = partitioning_column (self_ fresh_world)
         :: map fst
              (dict_drop [("event_id", "ids"); ("event_date", "20240101");
                          ("extra", "xs")]
                         (partitioning_column (self_ fresh_world))).
Proof.
  apply (@transform_keeps_the_columns symbolic_pandas fresh_world fresh_world
           [("event_id", "ids"); ("event_date", "20240101"); ("extra", "xs")]
           _ "flat_items").
  reflexivity.
Defined.

(** ** What the validator extracts from a table id *)

Lemma is_shard_tail_inv (s : string) :
  is_shard_tail s = true ->
  exists d,
    is_date_shard d = true /\ substring 1 8 s = d
    /\ (s = "_" ++ d \/ s = "_" ++ d ++ PyStr.nl).
Proof.
  destruct s as [|u [|c0 [|c1 [|c2 [|c3 [|c4 [|c5 [|c6 [|c7 rest]]]]]]]]];
    try discriminate.
  cbn [is_shard_tail]. intros Ht.
  repeat (apply andb_true_iff in Ht as [Ht ?]).
  apply Ascii.eqb_eq in Ht. subst u.
  exists (String c0 (String c1 (String c2 (String c3 (String c4 (String c5
            (String c6 (String c7 "")))))))).
  match goal with
  | Hr : (String.eqb rest "" || String.eqb rest PyStr.nl)%bool = true |- _ =>
      apply orb_true_iff in Hr as [Hr|Hr]; apply String.eqb_eq in Hr; subst rest
  end;
    (split; [|split; [reflexivity | (left + right); reflexivity]]);
    cbn [is_date_shard];
    repeat match goal with
           | Hx : ?b = true |- context [?b] => rewrite Hx
           end;
    reflexivity.
Qed.

Lemma is_shard_tail_length (s : string) :
  is_shard_tail s = true -> String.length s = 9 \/ String.length s = 10.
Proof.
  intros Ht. destruct (is_shard_tail_inv s Ht) as (d & Hd & _ & Hs).
  assert (String.length d = 8).
  { destruct d as [|? [|? [|? [|? [|? [|? [|? [|? [|? ?]]]]]]]]];
      try discriminate. reflexivity. }
  destruct Hs as [-> | ->]; simpl; rewrite ?str_length_app; simpl; lia.
Qed.

(** Nothing that runs to a shard tail from further left is a shard tail. *)
Lemma is_shard_tail_leftmost (c : ascii) (pre tail : string) :
  is_shard_tail tail = true -> is_shard_tail (String c (pre ++ tail)) = false.
Proof.
  intros Ht. destruct (is_shard_tail (String c (pre ++ tail))) eqn:E; [|reflexivity].
  exfalso.
  pose proof (is_shard_tail_length _ Ht) as Hl.
  pose proof (is_shard_tail_length _ E) as Hl'.
  simpl in Hl'. rewrite str_length_app in Hl'.
  destruct pre as [|? pre]; [|simpl in Hl'; lia].
  simpl in E, Hl'.
  destruct tail as [|u [|c0 tail]]; try discriminate.
  cbn [is_shard_tail] in Ht.
  destruct tail as [|? [|? [|? [|? [|? [|? [|? ?]]]]]]]; try discriminate.
  repeat (apply andb_true_iff in Ht as [Ht ?]).
  apply Ascii.eqb_eq in Ht. subst u.
  cbn [is_shard_tail] in E.
  repeat (apply andb_true_iff in E as [E ?]).
  match goal with
  | Hu : Ascii.eqb "_" "2" = true |- _ => discriminate Hu
  end.
Qed.

Lemma search_date_shard_at (pre tail : string) :
  is_shard_tail tail = true ->
  search_date_shard (pre ++ tail) = Some (substring 1 8 tail).
Proof.
  intros Ht. induction pre as [|c pre IH]; simpl.
  - destruct tail; [discriminate|]. simpl in *. now rewrite Ht.
  - fold (is_shard_tail (String c (pre ++ tail))).
    now rewrite (is_shard_tail_leftmost c pre tail Ht).
Qed.

Lemma before_shard_tail_inv (s g : string) :
  before_shard_tail s = Some g ->
  exists tail, s = g ++ tail /\ is_shard_tail tail = true.
Proof.
  revert g. induction s as [|c s IH]; intros g.
  - simpl. discriminate.
  - cbn [before_shard_tail].
    destruct (is_shard_tail (String c s)) eqn:Ht.
    + intros [= <-]. now exists (String c s).
    + destruct (Ascii.eqb c _); [discriminate|].
      destruct (before_shard_tail s) as [g'|]; [|discriminate].
      intros [= <-]. destruct (IH g' eq_refl) as (tail & -> & Htail).
      now exists tail.
Qed.

Lemma shard_tail_head (c : ascii) (s : string) :
  c <> "_"%char -> is_shard_tail (String c s) = false.
Proof.
  intros Hc. destruct (is_shard_tail (String c s)) eqn:E; [|reflexivity].
  destruct (is_shard_tail_inv _ E) as (d & _ & _ & [Hs|Hs]);
    simpl in Hs; injection Hs as -> _; congruence.
Qed.

Lemma prefix_events_inv (s : string) :
  String.prefix "events" s = true -> exists rest, s = "events" ++ rest.
Proof.
  intros Hp. apply String.prefix_correct in Hp.
  change (String.length "events") with 6 in Hp.
  pose proof (slice_to_length 6 s) as Hlen.
  unfold PyStr.slice_to in Hlen. rewrite Hp in Hlen.
  change (String.length "events") with 6 in Hlen.
  exists (substring 6 (String.length s - 6) s).
  rewrite <- Hp. apply substring_split. lia.
Qed.

Lemma prefix_events_app (rest : string) :
  String.prefix "events" ("events" ++ rest) = true.
Proof. apply String.prefix_correct. destruct rest; reflexivity. Qed.

(** What is taken before the shard tail of a text that starts with
    [events] starts with [events] too. *)
Lemma before_shard_tail_events (rest g : string) :
  before_shard_tail ("events" ++ rest) = Some g ->
  String.prefix "events" g = true.
Proof.
  cbn [append before_shard_tail].
  rewrite !shard_tail_head by (intros E; discriminate E).
  simpl.
  destruct (before_shard_tail rest); [|discriminate].
  intros [= <-]. apply String.prefix_correct.
  match goal with |- context [String "s"%char ?g] => destruct g; reflexivity end.
Qed.

Lemma search_table_name_inv (s g : string) :
  search_table_name s = Some g ->
  exists pre tail,
    s = pre ++ g ++ tail /\ is_shard_tail tail = true
    /\ String.prefix "events" g = true.
Proof.
  induction s as [|c s IH].
  - simpl. discriminate.
  - cbn [search_table_name].
    destruct (String.prefix "events" (String c s)) eqn:Hp.
    + destruct (before_shard_tail (String c s)) as [g'|] eqn:Hb.
      * intros [= <-].
        destruct (before_shard_tail_inv _ _ Hb) as (tail & Hs & Ht).
        exists "", tail. repeat split; try assumption.
        destruct (prefix_events_inv _ Hp) as (rest & Hrest).
        rewrite Hrest in Hb. now apply (before_shard_tail_events rest).
      * intros Hrest. destruct (IH Hrest) as (pre & tail & -> & Ht & Hg).
        now exists (String c pre), tail.
    + intros Hrest. destruct (IH Hrest) as (pre & tail & -> & Ht & Hg).
      now exists (String c pre), tail.
Qed.

(** The validator returns an object with project and dataset set and has
    written log records only; what is left to show is about the name. *)
Ltac validator_returns :=
  eexists _, _;
  split; [reflexivity|]; split; [reflexivity|]; split; [reflexivity|];
  split; [repeat constructor|].

Section ValidatorProperties.
Context `{Pandas}.

(** X13: the validator never raises on a decoded destination, and what it
    keeps comes from the table id: a table name it has set starts with
    [events], the date shard is then set too, it is [20] and six digits,
    and name, underscore and shard, in this order, end the table id (up to
    a final line break). *)
Theorem validator_reads_the_table_id (bq : DestinationTable)
    (loaded_config : result Config) :
  exists input_event logged,
    InputValidator_init (Ok bq) loaded_config = (Ok input_event, logged)
    /\ InputValidator.gcp_project input_event = Some (projectId bq)
    /\ InputValidator.dataset input_event = Some (datasetId bq)
    /\ Forall is_log logged
    /\ forall g,
         InputValidator.table_name input_event = Some g ->
         exists pre d,
           InputValidator.table_date_shard input_event = Some d
           /\ is_date_shard d = true
           /\ String.prefix "events" g = true
           /\ (tableId bq = pre ++ g ++ "_" ++ d
               \/ tableId bq = pre ++ g ++ "_" ++ d ++ PyStr.nl).
Proof.
  unfold InputValidator_init.
  destruct (search_date_shard (tableId bq)) as [d|] eqn:Hd.
  2:{ destruct loaded_config; validator_returns; intros g0 E; discriminate E. }
  destruct (search_table_name (tableId bq)) as [g|] eqn:Hg.
  2:{ destruct loaded_config; validator_returns; intros g0 E; discriminate E. }
  destruct (search_table_name_inv _ _ Hg) as (pre & tail & Hs & Ht & Hp).
  destruct (is_shard_tail_inv _ Ht) as (d' & Hshard & Hsub & Htail).
  assert (Hdd : d = d').
  { rewrite Hs, <- str_app_assoc, (search_date_shard_at _ _ Ht), Hsub in Hd.
    now injection Hd. }
  subst d. clear Hsub.
  destruct loaded_config; validator_returns;
    intros g0 [= <-]; exists pre, d';
    (split; [reflexivity|]); (split; [exact Hshard|]); (split; [exact Hp|]);
    rewrite Hs; destruct Htail as [-> | ->]; [left | right | left | right];
    reflexivity.
Qed.

Lemma shard_is_tail (d : string) :
  is_date_shard d = true -> is_shard_tail ("_" ++ d) = true.
Proof.
  destruct d as [|c0 [|c1 [|c2 [|c3 [|c4 [|c5 [|c6 [|c7 [|? ?]]]]]]]]];
    try discriminate.
  cbn [is_date_shard append is_shard_tail]. intros Hd.
  repeat (apply andb_true_iff in Hd as [Hd ?]).
  repeat match goal with
         | Hx : ?b = true |- context [?b] => rewrite Hx
         end.
  reflexivity.
Qed.

Lemma before_shard_tail_at (g tail : string) :
  has_line_break g = false -> is_shard_tail tail = true ->
  before_shard_tail (g ++ tail) = Some g.
Proof.
  intros Hg Ht. induction g as [|c g IH].
  - destruct tail; [discriminate|]. cbn [append before_shard_tail].
    now rewrite Ht.
  - cbn [append before_shard_tail].
    rewrite (is_shard_tail_leftmost c g tail Ht).
    simpl in Hg. apply orb_false_iff in Hg as [Hc Hg].
    now rewrite Hc, (IH Hg).
Qed.

(** X14: for a table id made of [events], any text without a line break,
    an underscore and a date shard, the validator logs nothing and keeps
    the text before the underscore as table name and the shard as date
    shard: the two recompose the id, so the queries read the table of the
    trigger. *)
Theorem plain_table_id_round_trips (project ds mid d : string)
    (loaded_config : Config) :
  is_date_shard d = true ->
  has_line_break mid = false ->
  InputValidator_init
    (Ok (mkDestinationTable project ds ("events" ++ mid ++ "_" ++ d)))
    (Ok loaded_config)
  = (Ok (InputValidator.mk (Some project) (Some ds) (Some d)
           (Some ("events" ++ mid)) (Some loaded_config)),
     []).
Proof.
  intros Hd Hmid. unfold InputValidator_init. cbn [tableId projectId datasetId].
  pose proof (shard_is_tail d Hd) as Ht.
  destruct (is_shard_tail_inv _ Ht) as (d' & _ & Hsub & _).
  assert (Hshard : search_date_shard ("events" ++ mid ++ "_" ++ d) = Some d).
  { rewrite <- str_app_assoc, (search_date_shard_at _ _ Ht).
    f_equal.
    destruct d as [|c0 [|c1 [|c2 [|c3 [|c4 [|c5 [|c6 [|c7 [|? ?]]]]]]]]];
      try discriminate. reflexivity. }
  rewrite Hshard.
  assert (Hname : search_table_name ("events" ++ mid ++ "_" ++ d)
                  = Some ("events" ++ mid)).
  { assert (Hb : before_shard_tail ("events" ++ mid ++ "_" ++ d)
                 = Some ("events" ++ mid)).
    { rewrite <- str_app_assoc. apply before_shard_tail_at; [|exact Ht].
      simpl. exact Hmid. }
    assert (Hp : String.prefix "events" ("events" ++ mid ++ "_" ++ d) = true).
    { apply prefix_events_app. }
    cbn [append] in Hp, Hb |- *. cbn [search_table_name].
    now rewrite Hp, Hb. }
  now rewrite Hname.
Qed.

End ValidatorProperties.

Lemma plain_table_id_round_trips_witness :
  @InputValidator_init symbolic_pandas
    (Ok (mkDestinationTable "proj" "ga" ("events" ++ "_intraday" ++ "_" ++ "20240131")))
    (Ok [])
  = (Ok (InputValidator.mk (Some "proj") (Some "ga") (Some "20240131")
           (Some ("events" ++ "_intraday")) (Some [])),
     []).
Proof.
  apply (plain_table_id_round_trips "proj" "ga" "_intraday" "20240131" []);
    reflexivity.
Defined.

(** ** From the date shard to the date of the delete *)

Lemma dval_bound (c : ascii) : PyStr.between 48 57 c = true -> dval c < 10.
Proof.
  destruct c as [[] [] [] [] [] [] [] []]; intros Hc;
    try discriminate Hc; cbv; lia.
Qed.

Lemma digit_dval (c : ascii) : PyStr.between 48 57 c = true -> digit (dval c) = c.
Proof.
  destruct c as [[] [] [] [] [] [] [] []]; intros Hc;
    try discriminate Hc; reflexivity.
Qed.

Lemma digit_small (n : nat) : n < 10 -> digit n = ascii_of_nat (48 + n).
Proof. intros Hn. unfold digit. now rewrite Nat.mod_small. Qed.

(** Two decimal characters are the two digits of the number they spell. *)
Lemma two_digits_spelled (a b : ascii) (high : nat) :
  PyStr.between 48 57 a = true -> PyStr.between 48 57 b = true ->
  two_digits (100 * high + 10 * dval a + dval b) = String a (String b "").
Proof.
  intros Ha Hb.
  pose proof (dval_bound a Ha) as Hx. pose proof (dval_bound b Hb) as Hy.
  unfold two_digits, digit.
  set (n := 100 * high + 10 * dval a + dval b).
  pose proof (Nat.div_mod_eq n 10) as Hn.
  pose proof (Nat.mod_upper_bound n 10) as Hr.
  pose proof (Nat.div_mod_eq (n / 10) 10) as Hm.
  pose proof (Nat.mod_upper_bound (n / 10) 10) as Hs.
  assert (E1 : (n / 10) mod 10 = dval a) by (subst n; lia).
  assert (E0 : n mod 10 = dval b) by (subst n; lia).
  rewrite E1, E0, <- (digit_small _ Hx), <- (digit_small _ Hy).
  now rewrite (digit_dval a Ha), (digit_dval b Hb).
Qed.

(** Case analysis on the conditions of the forms of a month or a day. *)
Ltac split_forms :=
  repeat match goal with
         | |- context [if ?b then _ else _] => destruct b eqn:?
         end;
  cbn [app].

Ltac note_chars :=
  repeat match goal with
         | Hx : (_ && _)%bool = true |- _ =>
             apply andb_true_iff in Hx as [? ?]
         | Hx : Ascii.eqb _ _ = true |- _ => apply Ascii.eqb_eq in Hx; subst
         end.

Ltac clash :=
  match goal with
  | Hx : @eq ascii _ _ |- _ => discriminate Hx
  end.

(** A day read from exactly two decimal characters is the number they
    spell. *)
Lemma day_forms_two (a b : ascii) (d : nat) (rest : string)
    (others : list (nat * string)) :
  PyStr.between 48 57 a = true ->
  day_forms (String a (String b "")) = (d, rest) :: others ->
  rest = "" -> d = 10 * dval a + dval b.
Proof.
  intros Ha. unfold day_forms. split_forms;
    intros E; try discriminate E; injection E as <- <- _; intros Hrest;
    try discriminate Hrest; note_chars; try clash; try reflexivity;
    cbv in Ha; discriminate Ha.
Qed.

(** A day read at the head of three characters leaves some unread. *)
Lemma day_forms_three (a b c : ascii) (d : nat) (rest : string)
    (others : list (nat * string)) :
  day_forms (String a (String b (String c ""))) = (d, rest) :: others ->
  rest <> "".
Proof.
  unfold day_forms. split_forms;
    intros E; try discriminate E; injection E as <- <- _; discriminate.
Qed.

Lemma month_and_day_of_four (a b c d : ascii) (m dd : nat) :
  PyStr.between 48 57 c = true ->
  first_month_and_day (month_forms (String a (String b (String c (String d "")))))
  = Some (m, dd, "") ->
  m = 10 * dval a + dval b /\ dd = 10 * dval c + dval d.
Proof.
  intros Hc. unfold month_forms. split_forms; cbn [first_month_and_day];
    repeat match goal with
           | |- context [match day_forms ?s with _ => _ end] =>
               let E := fresh "E" in
               destruct (day_forms s) as [|[? ?] ?] eqn:E
           end;
    intros Hm; try discriminate Hm; injection Hm as <- <- ->;
    try (match goal with
         | E : day_forms (String _ (String _ (String _ ""))) = _ |- _ =>
             now destruct (day_forms_three _ _ _ _ _ _ E)
         end);
    match goal with
    | E : day_forms (String _ (String _ "")) = _ |- _ =>
        rewrite (day_forms_two _ _ _ _ _ Hc E eq_refl)
    end;
    note_chars; try clash; split; reflexivity.
Qed.

(** A date parsed from a date shard has the numbers the shard spells. *)
Lemma strptime_shard_inv (c2 c3 c4 c5 c6 c7 : ascii) (date : datetime) :
  PyStr.between 48 57 c2 = true -> PyStr.between 48 57 c3 = true ->
  PyStr.between 48 57 c6 = true ->
  strptime_Ymd
    (String "2" (String "0" (String c2 (String c3 (String c4 (String c5
       (String c6 (String c7 ""))))))))
  = Ok date ->
  date = mkDatetime (100 * 20 + 10 * dval c2 + dval c3)
                    (10 * dval c4 + dval c5) (10 * dval c6 + dval c7).
Proof.
  intros H2 H3 H6. unfold strptime_Ymd.
  change (PyStr.between 48 57 "2") with true.
  change (PyStr.between 48 57 "0") with true.
  rewrite H2, H3. cbn [andb].
  destruct (first_month_and_day _) as [[[m d] unconverted]|] eqn:E;
    [|discriminate].
  destruct unconverted; [|discriminate]. cbn [String.eqb negb].
  destruct (month_and_day_of_four _ _ _ _ _ _ H6 E) as [-> ->].
  destruct (Nat.eqb _ 0); [discriminate|].
  destruct (Nat.leb _ _); [|discriminate].
  intros [= <-]. reflexivity.
Qed.

(** X15: when the date shard that the validator extracts parses as a
    date, the text searched in the delete step matches, and what it finds
    is the shard's own year, month and day, joined by dashes: the delete
    is for the partition of the landed shard. *)
Theorem shard_date_reaches_the_delete (shard : string) (date : datetime) :
  is_date_shard shard = true ->
  strptime_Ymd shard = Ok date ->
  group0 (re_search_date (str_datetime date))
  = Ok (substring 0 4 shard ++ "-" ++ substring 4 2 shard ++ "-"
          ++ substring 6 2 shard).
Proof.
  destruct shard as [|c0 [|c1 [|c2 [|c3 [|c4 [|c5 [|c6 [|c7 [|? ?]]]]]]]]];
    try discriminate.
  cbn [is_date_shard]. intros Hs.
  repeat (apply andb_true_iff in Hs as [Hs ?]).
  apply Ascii.eqb_eq in Hs. subst c0.
  match goal with
  | Hx : Ascii.eqb c1 "0" = true |- _ => apply Ascii.eqb_eq in Hx; subst c1
  end.
  intros Hdate. apply strptime_shard_inv in Hdate; try assumption.
  subst date. unfold str_datetime. cbn [year month day].
  pose proof (dval_bound _ H4) as B2. pose proof (dval_bound _ H3) as B3.
  replace ((100 * 20 + 10 * dval c2 + dval c3) / 100) with (100 * 0 + 10 * dval "2" + dval "0").
  2:{ change (100 * 0 + 10 * dval "2" + dval "0") with 20.
      apply (Nat.div_unique _ 100 20 (10 * dval c2 + dval c3)); lia. }
  rewrite (two_digits_spelled "2" "0" 0) by reflexivity.
  rewrite (two_digits_spelled c2 c3 20) by assumption.
  change (10 * dval c4 + dval c5) with (100 * 0 + 10 * dval c4 + dval c5).
  change (10 * dval c6 + dval c7) with (100 * 0 + 10 * dval c6 + dval c7).
  rewrite (two_digits_spelled c4 c5 0 H2 H1).
  rewrite (two_digits_spelled c6 c7 0 H0 H).
  cbn [append]. rewrite search_in_stamp by (assumption || reflexivity).
  reflexivity.
Qed.

Lemma shard_date_reaches_the_delete_witness :
  group0 (re_search_date (str_datetime (mkDatetime 2024 2 29)))
  = Ok (substring 0 4 "20240229" ++ "-" ++ substring 4 2 "20240229" ++ "-"
          ++ substring 6 2 "20240229").
Proof.
  apply (shard_date_reaches_the_delete "20240229" (mkDatetime 2024 2 29));
    reflexivity.
Defined.

(** ** What an invocation can leave in the trace *)

Section TraceInvariants.
Context `{Pandas}.
Variable P : Event -> Prop.

Lemma emits_only_keeps {A} (c : M A) :
  (forall w, snd (c w) = w) -> emits_only P c.
Proof.
  intros Hc w. exists []. rewrite Hc, app_nil_r. auto.
Qed.

Lemma emits_only_ret {A} (a : A) : emits_only P (ret a).
Proof. now apply emits_only_keeps. Qed.

Lemma emits_only_raise {A} (e : exn) : emits_only P (raise e : M A).
Proof. now apply emits_only_keeps. Qed.

Lemma emits_only_lift {A} (r : result A) : emits_only P (lift r).
Proof. now apply emits_only_keeps. Qed.

Lemma emits_only_get_self : emits_only P get_self.
Proof. now apply emits_only_keeps. Qed.

Lemma emits_only_put_self (s : GaExportedNestedDataStorage) :
  emits_only P (put_self s).
Proof. intros w. exists []. simpl. rewrite app_nil_r. auto. Qed.

Lemma emits_only_emit (ev : Event) : P ev -> emits_only P (emit ev).
Proof. intros Hev w. exists [ev]. simpl. auto. Qed.

Lemma emits_only_bind {A B} (c : M A) (k : A -> M B) :
  emits_only P c -> (forall a, emits_only P (k a)) -> emits_only P (bind c k).
Proof.
  intros Hc Hk w. unfold bind.
  destruct (Hc w) as (new & Hnew & Hall).
  destruct (c w) as [[a|e] w1]; simpl in Hnew.
  - destruct (Hk a w1) as (new' & Hnew' & Hall').
    exists (new ++ new')%list. rewrite Hnew', Hnew, app_assoc.
    split; [reflexivity | now apply Forall_app].
  - exists new. auto.
Qed.

Lemma emits_only_try_except {A} (c : M A) (h : exn -> M A) :
  emits_only P c -> (forall e, emits_only P (h e)) ->
  emits_only P (try_except c h).
Proof.
  intros Hc Hh w. unfold try_except.
  destruct (Hc w) as (new & Hnew & Hall).
  destruct (c w) as [[a|e] w1]; simpl in Hnew.
  - exists new. auto.
  - destruct (Hh e w1) as (new' & Hnew' & Hall').
    exists (new ++ new')%list. rewrite Hnew', Hnew, app_assoc.
    split; [reflexivity | now apply Forall_app].
Qed.

Lemma emits_only_build_query (kind : EntityKind) :
  emits_only P (build_query kind).
Proof. apply emits_only_keeps. apply build_query_keeps_world. Qed.

(** The reconciliation adds the submission of the distinct-keys job and,
    at most, the record of the missing table. *)
Lemma emits_only_reconciliation (client : Client) :
  (forall q, P (QuerySubmitted q keys_job_config)) ->
  P (Log INFO "flat_events table not found, using hardcoded schema" None) ->
  emits_only P (set_dynamic_flat_events_schema client).
Proof.
  intros Hq Hlog. unfold set_dynamic_flat_events_schema, client_query.
  apply emits_only_bind.
  { apply emits_only_keeps. intros w.
    destruct (keys_query_returns w) as (q & ->). reflexivity. }
  intros q. apply emits_only_bind.
  { apply emits_only_bind; [apply emits_only_emit, Hq|].
    intros _. apply emits_only_lift. }
  intros _. apply emits_only_bind; [apply emits_only_lift|].
  intros rows. apply emits_only_bind; [apply emits_only_get_self|].
  intros self. apply emits_only_bind.
  { apply emits_only_try_except; [apply emits_only_lift|].
    intros e. apply (not_found_cases (emits_only P)).
    - apply emits_only_bind; [apply emits_only_lift|].
      intros S. apply emits_only_bind; [now apply emits_only_emit|].
      intros _. apply emits_only_ret.
    - apply emits_only_raise. }
  intros S.
  apply emits_only_bind; [apply emits_only_get_self|]. intros self1.
  apply emits_only_bind; [apply emits_only_put_self|]. intros _.
  apply emits_only_bind; [apply emits_only_get_self|]. intros self2.
  apply emits_only_bind; [apply emits_only_put_self|]. intros _.
  apply emits_only_bind.
  { destruct (failure rows); [apply emits_only_raise | apply emits_only_ret]. }
  intros _.
  apply emits_only_bind; [apply emits_only_get_self|]. intros self3.
  apply emits_only_put_self.
Qed.

(** One block of the entry point adds what its run adds and one record. *)
Lemma emits_only_flatten_entity (client : Client) (environ : dict string)
    (input_event : InputValidator.t) (variable table_type : string)
    (kind : EntityKind) (sharded partitioned : bool) :
  (forall qry, emits_only P
                 (run_query_job client qry table_type sharded partitioned)) ->
  (forall msg, P (Log INFO msg None)) ->
  emits_only P
    (flatten_entity client environ input_event variable (build_query kind)
       table_type sharded partitioned).
Proof.
  intros Hrun Hlog. unfold flatten_entity.
  apply emits_only_bind; [apply emits_only_lift|]. intros nested.
  apply emits_only_bind; [apply emits_only_lift|]. intros [|].
  - apply emits_only_bind; [apply emits_only_build_query|]. intros qry.
    apply emits_only_bind; [apply Hrun|]. intros _.
    apply emits_only_bind; [apply emits_only_lift|]. intros nested'.
    apply emits_only_bind; [apply emits_only_lift|]. intros ds.
    apply emits_only_emit, Hlog.
  - apply emits_only_bind; [apply emits_only_lift|]. intros nested'.
    apply emits_only_bind; [apply emits_only_lift|]. intros ds.
    apply emits_only_emit, Hlog.
Qed.

Lemma emits_only_flatten_entities (client : Client) (environ : dict string)
    (input_event : InputValidator.t) (sharded partitioned : bool) :
  (forall q, P (QuerySubmitted q keys_job_config)) ->
  (forall msg, P (Log INFO msg None)) ->
  (forall qry table_type,
     emits_only P (run_query_job client qry table_type sharded partitioned)) ->
  emits_only P
    (flatten_entities client environ input_event sharded partitioned).
Proof.
  intros Hq Hlog Hrun. unfold flatten_entities.
  apply emits_only_bind; [now apply emits_only_reconciliation|]. intros _.
  apply emits_only_bind;
    [apply (emits_only_flatten_entity _ _ _ _ _ EVENT_PARAMS); auto|].
  intros _.
  apply emits_only_bind;
    [apply (emits_only_flatten_entity _ _ _ _ _ USER_PROPERTIES); auto|].
  intros _.
  apply emits_only_bind;
    [apply (emits_only_flatten_entity _ _ _ _ _ ITEMS); auto|].
  intros _.
  apply (emits_only_flatten_entity _ _ _ _ _ EVENTS); auto.
Qed.

(** The validator writes critical records only. *)
Lemma validator_logs (destination : result DestinationTable)
    (loaded_config : result Config) :
  (forall msg e, P (Log CRITICAL msg e)) ->
  Forall P (snd (InputValidator_init destination loaded_config)).
Proof.
  intros Hlog. unfold InputValidator_init.
  destruct destination as [bq|e]; [|constructor].
  destruct (search_date_shard _); [destruct (search_table_name _)|];
    destruct loaded_config; simpl; repeat constructor; apply Hlog.
Qed.

End TraceInvariants.

Section EntryPointRuns.
Context `{Pandas}.

Lemma run_query_job_spares (client : Client) (qry table_type : string)
    (sharded : bool) :
  emits_only spares_rolling
    (run_query_job client qry table_type sharded false).
Proof.
  intros w. rewrite run_query_job_steps. cbn zeta.
  destruct (query client qry _);
    (eexists; split; [reflexivity | repeat constructor; discriminate]).
Qed.

Lemma run_query_job_no_dataset_warning (client : Client)
    (qry table_type : string) (sharded partitioned : bool) :
  emits_only not_dataset_warning
    (run_query_job client qry table_type sharded partitioned).
Proof.
  intros w. rewrite run_query_job_steps. cbn zeta.
  repeat match goal with
         | |- context [match ?x with _ => _ end] => destruct x
         end;
    (eexists; split; [reflexivity | repeat constructor]).
Qed.

(** When the output configuration can be read, the dataset is an entry of
    the configuration: the membership test that follows cannot fail. *)
Lemma configured_when_output_is_read (input_event : InputValidator.t)
    (output_config : dict bool) (valid : bool) :
  get_output_configuration input_event = Ok output_config ->
  valid_dataset input_event = Ok valid ->
  valid = true.
Proof.
  unfold get_output_configuration, valid_dataset, dict_item, dict_contains, attr.
  destruct input_event as [p [ds|] sh tn [cfg|]]; simpl; try discriminate.
  destruct (dict_get cfg ds); simpl; try discriminate.
  intros _ E. now inversion E.
Qed.

(** The trace of the four blocks, started from the records of the
    validator, holds what the validator and the blocks have put there. *)
Lemma flatten_entities_trace (P : Event -> Prop) (client : Client)
    (environ : dict string) (input_event : InputValidator.t)
    (sharded partitioned : bool) (self : GaExportedNestedDataStorage)
    (logged : list Event) :
  Forall P logged ->
  emits_only P (flatten_entities client environ input_event sharded partitioned) ->
  Forall P
    (trace (snd (flatten_entities client environ input_event sharded partitioned
                   {| self_ := self; trace := logged |}))).
Proof.
  intros Hlogged Hrun.
  destruct (Hrun {| self_ := self; trace := logged |}) as (new & -> & Hnew).
  simpl. now apply Forall_app.
Qed.

End EntryPointRuns.

(** ** The entry point *)

Section EntryPointProperties.
Context `{Pandas}.

(** X16: when the dataset of the message is not an entry of the
    configuration, [flatten_ga_data] raises [KeyError] - the output
    configuration is read before the dataset is tested - and has sent
    nothing to the engine. *)
Theorem unconfigured_dataset_raises_key_error (client : Client)
    (environ : dict string) (bq : DestinationTable) (config : Config) :
  dict_get config (datasetId bq) = None ->
  fst (flatten_ga_data client environ (Ok bq) (Ok config)) = Raise KeyError
  /\ Forall is_log (snd (flatten_ga_data client environ (Ok bq) (Ok config))).
Proof.
  intros Hnone. unfold flatten_ga_data.
  pose proof (validator_logs is_log (Ok bq) (Ok config) (fun _ _ => I))
    as Hlogs.
  unfold InputValidator_init in *.
  destruct (search_date_shard (tableId bq));
    [destruct (search_table_name (tableId bq))|];
    unfold get_output_configuration, dict_item; simpl;
    rewrite Hnone; simpl; auto.
Qed.

(** X17: whatever the message, the configuration and the engine,
    [flatten_ga_data] never logs that the dataset is not configured for
    flattening: its [else] branch cannot be reached. *)
Theorem dataset_warning_is_unreachable (client : Client)
    (environ : dict string) (destination : result DestinationTable)
    (loaded_config : result Config) :
  Forall not_dataset_warning
    (snd (flatten_ga_data client environ destination loaded_config)).
Proof.
  unfold flatten_ga_data.
  pose proof (validator_logs not_dataset_warning destination loaded_config
                (fun _ _ => I)) as Hlogs.
  destruct (InputValidator_init destination loaded_config)
    as [[input_event|e] logged]; simpl in Hlogs; [|exact Hlogs].
  destruct (get_output_configuration input_event) as [output_config|e] eqn:Eo;
    simpl; [|exact Hlogs].
  destruct (dict_item output_config "sharded") as [sharded|e]; simpl;
    [|exact Hlogs].
  destruct (dict_item output_config "partitioned") as [partitioned|e]; simpl;
    [|exact Hlogs].
  destruct (valid_dataset input_event) as [valid|e] eqn:Ev; simpl;
    [|exact Hlogs].
  rewrite (configured_when_output_is_read _ _ _ Eo Ev).
  match goal with
  | |- context [match ?s with Ok _ => _ | Raise _ => _ end] =>
      destruct s as [ga_source|e]; [|exact Hlogs]
  end.
  pose proof (flatten_entities_trace not_dataset_warning client environ
                input_event sharded partitioned ga_source logged Hlogs)
    as Htrace.
  destruct (flatten_entities _ _ _ _ _ _) as [r w]. simpl in *.
  apply Htrace.
  apply emits_only_flatten_entities.
  - intros q. exact I.
  - intros msg. exact I.
  - intros qry table_type. apply run_query_job_no_dataset_warning.
Qed.

(** X18: when the dataset's configuration has no [output] section, or one
    whose [partitioned] entry is false, an invocation submits no load job
    and no partition delete, whatever the engine answers. *)
Theorem snapshot_output_spares_rolling_tables (client : Client)
    (environ : dict string) (bq : DestinationTable) (config : Config)
    (dataset_config : DatasetConfig) :
  dict_get config (datasetId bq) = Some dataset_config ->
  match output dataset_config with
  | None => True
  | Some config_output => dict_get config_output "partitioned" = Some false
  end ->
  Forall spares_rolling
    (snd (flatten_ga_data client environ (Ok bq) (Ok config))).
Proof.
  intros Hds Hout. unfold flatten_ga_data.
  pose proof (validator_logs spares_rolling (Ok bq) (Ok config)
                (fun _ _ => I)) as Hlogs.
  assert (Hcfg : forall input_event logged,
             InputValidator_init (Ok bq) (Ok config) = (Ok input_event, logged) ->
             InputValidator.dataset input_event = Some (datasetId bq)
             /\ InputValidator.config input_event = Some config).
  { unfold InputValidator_init. intros input_event logged.
    destruct (search_date_shard (tableId bq));
      [destruct (search_table_name (tableId bq))|];
      intros E; inversion E; auto. }
  destruct (InputValidator_init (Ok bq) (Ok config))
    as [[input_event|e] logged]; simpl in Hlogs; [|exact Hlogs].
  destruct (Hcfg input_event logged eq_refl) as [Hd Hc].
  unfold get_output_configuration, valid_dataset, dict_item, dict_contains.
  rewrite Hd, Hc. simpl. rewrite Hds. simpl.
  assert (Hrun : forall sharded ga_source,
             Forall spares_rolling
               (snd (let (r, w) :=
                       flatten_entities client environ input_event sharded false
                         {| self_ := ga_source; trace := logged |} in
                     (r, trace w)))).
  { intros sharded ga_source.
    pose proof (flatten_entities_trace spares_rolling client environ
                  input_event sharded false ga_source logged Hlogs) as Htrace.
    destruct (flatten_entities _ _ _ _ _ _) as [r w]. simpl in *.
    apply Htrace. apply emits_only_flatten_entities.
    - intros q. simpl. discriminate.
    - intros msg. exact I.
    - intros qry table_type. apply run_query_job_spares. }
  destruct (output dataset_config) as [config_output|]; simpl.
  - destruct (dict_get config_output "sharded") as [sharded|]; simpl;
      [|exact Hlogs].
    rewrite Hout. simpl.
    match goal with
    | |- context [match ?s with Ok _ => _ | Raise _ => _ end] =>
        destruct s as [ga_source|e]; [apply Hrun | exact Hlogs]
    end.
  - match goal with
    | |- context [match ?s with Ok _ => _ | Raise _ => _ end] =>
        destruct s as [ga_source|e]; [apply Hrun | exact Hlogs]
    end.
Qed.

(** X19: a message about a table whose name is not that of an events
    shard is recorded as invalid by the validator, which returns an object
    without a table name; [flatten_ga_data] then fails, having sent
    nothing to the engine. *)
Theorem invalid_message_fails_before_the_engine (client : Client)
    (environ : dict string) (bq : DestinationTable)
    (loaded_config : result Config) :
  search_table_name (tableId bq) = None ->
  (exists e,
      fst (flatten_ga_data client environ (Ok bq) loaded_config) = Raise e)
  /\ Forall is_log
       (snd (flatten_ga_data client environ (Ok bq) loaded_config))
  /\ In (Log CRITICAL "invalid message: " None)
       (snd (flatten_ga_data client environ (Ok bq) loaded_config)).
Proof.
  intros Hname. unfold flatten_ga_data, InputValidator_init.
  rewrite Hname.
  assert (Hcase : forall shard,
    let input_event :=
      InputValidator.mk (Some (projectId bq)) (Some (datasetId bq)) shard None
        (match loaded_config with Ok c => Some c | Raise _ => None end) in
    let logged :=
      ([Log CRITICAL "invalid message: " None]
         ++ match loaded_config with
            | Ok _ => []
            | Raise e =>
                [Log CRITICAL "flattener configuration error: " (Some e)]
            end)%list in
    forall r,
      r = match
            rbind (get_output_configuration input_event) (fun output_config =>
            rbind (dict_item output_config "sharded") (fun s =>
            rbind (dict_item output_config "partitioned") (fun p =>
            rbind (valid_dataset input_event) (fun valid =>
            Ok (s, p, valid)))))
          with
          | Raise e => (Raise e, logged)
          | Ok (s, p, true) => (Raise AttributeError, logged)
          | Ok (_, _, false) =>
              (Ok tt,
               (logged ++ [Log WARNING ("Dataset " ++ datasetId bq
                                          ++ " not configured for flattening")
                               None])%list)
          end ->
      (exists e, fst r = Raise e) /\ Forall is_log (snd r)
      /\ In (Log CRITICAL "invalid message: " None) (snd r)).
  { intros shard input_event logged r ->.
    assert (Hlogged : Forall is_log logged /\
                      In (Log CRITICAL "invalid message: " None) logged).
    { unfold logged. destruct loaded_config; simpl; repeat constructor; auto. }
    destruct Hlogged as [Hl Hi].
    assert (Hfail : forall e0 : exn,
               (exists e, fst (@Raise unit e0, logged) = Raise e)
               /\ Forall is_log (snd (@Raise unit e0, logged))
               /\ In (Log CRITICAL "invalid message: " None)
                    (snd (@Raise unit e0, logged))).
    { intros e0. simpl. eauto. }
    destruct (get_output_configuration input_event) as [o|e] eqn:Eo; simpl;
      [|apply Hfail].
    destruct (dict_item o "sharded"); simpl; [|apply Hfail].
    destruct (dict_item o "partitioned"); simpl; [|apply Hfail].
    destruct (valid_dataset input_event) as [valid|e] eqn:Ev; simpl;
      [|apply Hfail].
    rewrite (configured_when_output_is_read _ _ _ Eo Ev). apply Hfail. }
  destruct (search_date_shard (tableId bq)) as [shard|];
    [specialize (Hcase (Some shard)) | specialize (Hcase None)];
    cbn zeta in Hcase; destruct loaded_config as [c|e0];
    apply Hcase; reflexivity.
Qed.

(** X20: when the configuration file cannot be fetched or parsed, the
    validator only logs the error; [flatten_ga_data] then raises
    [AttributeError] at its first use of the configuration, having sent
    nothing to the engine, and the error of the fetch is in the log. *)
Theorem failed_configuration_fetch_raises_attribute_error (client : Client)
    (environ : dict string) (bq : DestinationTable) (e : exn) :
  fst (flatten_ga_data client environ (Ok bq) (Raise e)) = Raise AttributeError
  /\ Forall is_log (snd (flatten_ga_data client environ (Ok bq) (Raise e)))
  /\ In (Log CRITICAL "flattener configuration error: " (Some e))
       (snd (flatten_ga_data client environ (Ok bq) (Raise e))).
Proof.
  unfold flatten_ga_data, InputValidator_init.
  destruct (search_date_shard (tableId bq));
    [destruct (search_table_name (tableId bq))|];
    simpl; (split; [reflexivity | split; [repeat constructor | auto 6]]).
Qed.

End EntryPointProperties.

Lemma unconfigured_dataset_raises_key_error_witness :
  let client := scripted_client [] (Raise (ApiError 404)) [] (Ok tt) in
  let bq := mkDestinationTable "proj" "analytics_1" "events_20240229" in
  let config :=
    [("analytics_2",
      {| tables_to_flatten := Some ["events"]; output := None |})] in
  fst (flatten_ga_data client [] (Ok bq) (Ok config)) = Raise KeyError
  /\ Forall is_log (snd (flatten_ga_data client [] (Ok bq) (Ok config))).
Proof.
  apply (@unconfigured_dataset_raises_key_error symbolic_pandas).
  reflexivity.
Defined.

Lemma snapshot_output_spares_rolling_tables_witness :
  let client := scripted_client [] (Raise (ApiError 404)) [] (Ok tt) in
  let environ :=
    [("EVENT_PARAMS", "event_params"); ("USER_PROPERTIES", "user_properties");
     ("ITEMS", "items"); ("EVENTS", "events")] in
  let bq := mkDestinationTable "proj" "analytics_1" "events_20240229" in
  let config :=
    [("analytics_1",
      {| tables_to_flatten := Some ["events"; "items"];
         output := Some [("sharded", true); ("partitioned", false)] |})] in
  Forall spares_rolling
    (snd (flatten_ga_data client environ (Ok bq) (Ok config))).
Proof.
  apply (@snapshot_output_spares_rolling_tables symbolic_pandas
           (scripted_client [] (Raise (ApiError 404)) [] (Ok tt)) _
           (mkDestinationTable "proj" "analytics_1" "events_20240229") _
           {| tables_to_flatten := Some ["events"; "items"];
              output := Some [("sharded", true); ("partitioned", false)] |});
    reflexivity.
Defined.

Lemma invalid_message_fails_before_the_engine_witness :
  let client := scripted_client [] (Raise (ApiError 404)) [] (Ok tt) in
  let bq :=
    mkDestinationTable "proj" "analytics_1" "pseudonymous_users_20240229" in
  let config :=
    [("analytics_1",
      {| tables_to_flatten := Some ["events"]; output := None |})] in
  (exists e, fst (flatten_ga_data client [] (Ok bq) (Ok config)) = Raise e)
  /\ Forall is_log (snd (flatten_ga_data client [] (Ok bq) (Ok config)))
  /\ In (Log CRITICAL "invalid message: " None)
       (snd (flatten_ga_data client [] (Ok bq) (Ok config))).
Proof.
  apply (@invalid_message_fails_before_the_engine symbolic_pandas).
  reflexivity.
Defined.
(** ** The builders and the reconciliation *)

(** Regrouping the pieces of a text. *)
Lemma ok_inj {A} (a b : A) : Ok a = Ok b -> a = b.
Proof. intros E. now injection E. Qed.

Lemma glue_two (a b c1 c2 d t : string) :
  a ++ b ++ c1 ++ c2 ++ d ++ t = a ++ b ++ (c1 ++ c2) ++ d ++ t.
Proof. now rewrite !str_app_assoc. Qed.

Lemma glue_three (a b c1 c2 c3 d t : string) :
  a ++ b ++ c1 ++ c2 ++ c3 ++ d ++ t = a ++ b ++ (c1 ++ c2 ++ c3) ++ d ++ t.
Proof. now rewrite !str_app_assoc. Qed.

Section BuilderFrame.
Context `{Pandas}.

Lemma same_shard_refl (a : GaExportedNestedDataStorage) : same_shard a a.
Proof. repeat split. Qed.

(** The reconciliation rewrites the registry and the schemas only. *)
Lemma reconciliation_keeps_shard (client : Client) (w : World) :
  same_shard (self_ w) (self_ (snd (set_dynamic_flat_events_schema client w))).
Proof.
  destruct (keys_query_returns w) as (q0 & Hq0).
  unfold set_dynamic_flat_events_schema, client_query.
  unfold bind, get_self, ret, emit, lift, put_self, try_except, raise.
  rewrite Hq0. cbn [self_ trace].
  destruct (query client q0 _); [|apply same_shard_refl].
  destruct (result_rows client q0) as [[rows [e1|]]|];
    [| |apply same_shard_refl];
    (destruct (get_table client _) as [S|e0]; [repeat split|]).
  all: cbn [yielded failure].
  match goal with
  | |- context [?m {| self_ := self_ w; trace := ?t |}] =>
      match m with
      | match e0 with
        | IndexError => _ | KeyError => _ | TypeError => _
        | AttributeError => _ | ValueError => _
        | ApiError _ => _ | OtherError _ => _
        end => pattern m
      end
  end.
  all: apply not_found_cases;
    [destruct (dict_item _ _); repeat split | repeat split].
Qed.

(** The texts that do not list the dynamic columns are functions of the
    shard and the fixed field lists. *)
Lemma build_query_reads_shard (kind : EntityKind) (w1 w2 : World) :
  kind <> EVENTS ->
  same_shard (self_ w1) (self_ w2) ->
  fst (build_query kind w1) = fst (build_query kind w2).
Proof.
  intros Hkind.
  destruct w1 as [[] t1], w2 as [[] t2]. unfold same_shard. cbn.
  intros (-> & -> & -> & -> & -> & -> & -> & -> & -> & ->).
  destruct kind; try congruence; simpl;
    [ unfold get_event_params_query
    | unfold get_user_properties_query
    | unfold get_items_query ];
    cbn; unfold bind, lift, get_self, ret;
    repeat match goal with
           | |- context [match ?r with Ok _ => _ | Raise _ => _ end] =>
               destruct r
           end;
    reflexivity.
Qed.

Lemma keys_query_reads_shard (w1 w2 : World) :
  same_shard (self_ w1) (self_ w2) ->
  fst (get_event_params_keys_and_types_query w1)
  = fst (get_event_params_keys_and_types_query w2).
Proof.
  destruct w1 as [[] t1], w2 as [[] t2]. unfold same_shard. cbn.
  intros (-> & -> & -> & -> & -> & -> & -> & -> & -> & ->). reflexivity.
Qed.

(** X21: the reconciliation changes the text of the events query only:
    the texts of the three other flattening queries and of the
    distinct-keys query are the same after it as before, whatever the
    engine has answered. *)
Theorem reconciliation_touches_only_the_events_query (client : Client)
    (w : World) (kind : EntityKind) :
  kind <> EVENTS ->
  fst (build_query kind (snd (set_dynamic_flat_events_schema client w)))
  = fst (build_query kind w)
  /\ fst (get_event_params_keys_and_types_query
            (snd (set_dynamic_flat_events_schema client w)))
     = fst (get_event_params_keys_and_types_query w).
Proof.
  intros Hkind. split; symmetry.
  - apply build_query_reads_shard; [exact Hkind|].
    apply reconciliation_keeps_shard.
  - apply keys_query_reads_shard, reconciliation_keeps_shard.
Qed.

(** X22: on an object built by the constructor, before and after a
    reconciliation, each of the four builders returns a text: the indexed
    field lists are long enough, and the reconciliation leaves them as
    they are. *)
Theorem builders_return_on_constructed_objects (client : Client)
    (gcp_project dataset table_name date_shard : string) (date : datetime)
    (logged : list Event) (kind : EntityKind) :
  let w :=
    {| self_ := __init__ gcp_project dataset table_name date_shard date;
       trace := logged |} in
  (exists q, build_query kind w = (Ok q, w))
  /\ (exists q,
         build_query kind (snd (set_dynamic_flat_events_schema client w))
         = (Ok q, snd (set_dynamic_flat_events_schema client w))).
Proof.
  intros w.
  assert (Hlists : forall w' : World,
             same_shard (self_ w) (self_ w') ->
             exists q, build_query kind w' = (Ok q, w')).
  { intros [[] t'] Hsame. unfold same_shard in Hsame. cbn in Hsame.
    destruct Hsame as (_ & _ & _ & _ & _ & <- & <- & <- & _ & _).
    destruct kind; eexists; reflexivity. }
  split; apply Hlists;
    [apply same_shard_refl | apply reconciliation_keeps_shard].
Qed.

(** X23: whenever a builder returns, its text selects the event
    identifier first and reads the shard named by the object: the four
    flat tables share one key and one source. *)
Theorem flattening_queries_share_key_and_source (kind : EntityKind)
    (w : World) (q : string) :
  fst (build_query kind w) = Ok q ->
  exists uid columns tail,
    get_unique_event_id (unique_event_id_fields (self_ w)) = Ok uid
    /\ q = "SELECT " ++ uid ++ columns ++ from_shard (self_ w) ++ tail.
Proof.
  destruct kind; unfold build_query;
    [ unfold get_event_params_query
    | unfold get_user_properties_query
    | unfold get_items_query
    | unfold get_events_query ];
    unfold bind, lift, get_self, ret;
    destruct (get_unique_event_id _) as [uid|]; try discriminate;
    repeat match goal with
           | |- context [match ?r with Ok _ => _ | Raise _ => _ end] =>
               destruct r; try discriminate
           end;
    unfold fst; cbv beta iota; intros E; apply ok_inj in E; subst q;
    remember (from_shard (self_ w)) as source eqn:Hsource; clear Hsource.
  - rewrite !str_app_assoc.
    do 3 eexists. split; [reflexivity | apply (glue_two "SELECT " uid)].
  - rewrite !str_app_assoc.
    do 3 eexists. split; [reflexivity | apply (glue_three "SELECT " uid)].
  - rewrite (fold_left_append aliased). rewrite !str_app_assoc.
    do 3 eexists. split; reflexivity.
  - rewrite (fold_left_same _
               (fun qry item => qry ++ dynamic_column (fst item) (snd item)))
      by (intros a [key f_type]; reflexivity).
    rewrite (fold_left_append
               (fun item => dynamic_column (fst item) (snd item))).
    rewrite (fold_left_append aliased).
    rewrite !str_app_assoc.
    do 3 eexists. split; [reflexivity | apply (glue_two "SELECT " uid)].
Qed.
End BuilderFrame.

Lemma reconciliation_touches_only_the_events_query_witness :
  let client :=
    scripted_client [mkRow "page" "STRING"] (Raise (ApiError 404)) [] (Ok tt) in
  fst (build_query ITEMS
         (snd (set_dynamic_flat_events_schema client fresh_world)))
  = fst (build_query ITEMS fresh_world)
  /\ fst (get_event_params_keys_and_types_query
            (snd (set_dynamic_flat_events_schema client fresh_world)))
     = fst (get_event_params_keys_and_types_query fresh_world).
Proof.
  apply (@reconciliation_touches_only_the_events_query symbolic_pandas).
  discriminate.
Defined.

Lemma flattening_queries_share_key_and_source_witness :
  exists uid columns tail,
    get_unique_event_id (unique_event_id_fields (self_ fresh_world)) = Ok uid
    /\ fst (build_query USER_PROPERTIES fresh_world)
       = Ok ("SELECT " ++ uid ++ columns ++ from_shard (self_ fresh_world)
               ++ tail).
Proof.
  destruct (@flattening_queries_share_key_and_source symbolic_pandas
              USER_PROPERTIES fresh_world
              (match fst (build_query USER_PROPERTIES fresh_world) with
               | Ok q => q
               | Raise _ => ""
               end) eq_refl) as (uid & columns & tail & Huid & Hq).
  exists uid, columns, tail. split; [exact Huid|].
  rewrite <- Hq. reflexivity.
Defined.
(** ** Entities that are not listed *)

Section UnlistedEntities.
Context `{Pandas}.

(** What follows a value that is read sees that value only. *)
Lemma emits_only_bind_lift (P : Event -> Prop) {A B} (r : result A)
    (k : A -> M B) :
  (forall a, r = Ok a -> emits_only P (k a)) ->
  emits_only P (bind (lift r) k).
Proof.
  intros Hk w. unfold bind, lift. destruct r as [a|e].
  - apply (Hk a eq_refl).
  - exists []. simpl. rewrite app_nil_r. auto.
Qed.

(** A block whose entity is not listed adds one record and nothing else. *)
Lemma emits_only_unlisted_entity (P : Event -> Prop) (client : Client)
    (environ : dict string) (input_event : InputValidator.t)
    (variable table_type : string) (builder : M string)
    (sharded partitioned : bool) :
  (forall nested_table,
      dict_get environ variable = Some nested_table ->
      flatten_nested_table input_event nested_table <> Ok true) ->
  (forall msg, P (Log INFO msg None)) ->
  emits_only P
    (flatten_entity client environ input_event variable builder table_type
       sharded partitioned).
Proof.
  intros Hunlisted Hlog. unfold flatten_entity.
  apply emits_only_bind_lift. intros nested_table Hvar.
  apply emits_only_bind_lift. intros [|] Hlisted.
  - exfalso. apply (Hunlisted nested_table); [|exact Hlisted].
    unfold dict_item in Hvar.
    destruct (dict_get environ variable); [now injection Hvar as ->|].
    discriminate.
  - apply emits_only_bind; [apply emits_only_lift|]. intros nested'.
    apply emits_only_bind; [apply emits_only_lift|]. intros ds.
    apply emits_only_emit, Hlog.
Qed.

(** X24: when none of the four entities named by the environment is
    listed in the dataset's [tables_to_flatten], an invocation submits
    the distinct-keys job of the reconciliation and no other job: no
    flattening query, no partition delete, no load. *)
Theorem unlisted_entities_are_not_queried (client : Client)
    (environ : dict string) (bq : DestinationTable) (config : Config)
    (dataset_config : DatasetConfig) (tables : list string) :
  dict_get config (datasetId bq) = Some dataset_config ->
  tables_to_flatten dataset_config = Some tables ->
  (forall variable nested_table,
      In variable entity_variables ->
      dict_get environ variable = Some nested_table ->
      ~ In nested_table tables) ->
  Forall only_reconciles
    (snd (flatten_ga_data client environ (Ok bq) (Ok config))).
Proof.
  intros Hds Htables Hunlisted. unfold flatten_ga_data.
  pose proof (validator_logs only_reconciles (Ok bq) (Ok config)
                (fun _ _ => I)) as Hlogs.
  assert (Hcfg : forall input_event logged,
             InputValidator_init (Ok bq) (Ok config) = (Ok input_event, logged) ->
             InputValidator.dataset input_event = Some (datasetId bq)
             /\ InputValidator.config input_event = Some config).
  { unfold InputValidator_init. intros input_event logged.
    destruct (search_date_shard (tableId bq));
      [destruct (search_table_name (tableId bq))|];
      intros E; inversion E; auto. }
  destruct (InputValidator_init (Ok bq) (Ok config))
    as [[input_event|e] logged]; simpl in Hlogs; [|exact Hlogs].
  destruct (Hcfg input_event logged eq_refl) as [Hd Hc].
  assert (Hnot : forall variable nested_table,
             In variable entity_variables ->
             dict_get environ variable = Some nested_table ->
             flatten_nested_table input_event nested_table <> Ok true).
  { intros variable nested_table Hin Hvar.
    unfold flatten_nested_table, dict_item. rewrite Hd, Hc. simpl.
    rewrite Hds. simpl. rewrite Htables.
    intros E. injection E as E. apply existsb_exists in E.
    destruct E as (x & Hx & Heq). apply String.eqb_eq in Heq. subst x.
    exact (Hunlisted variable nested_table Hin Hvar Hx). }
  match goal with
  | |- context [match ?b with Ok _ => _ | Raise _ => _ end] =>
      destruct b as [[[sharded partitioned] [|]]|e]; [| |exact Hlogs]
  end.
  - match goal with
    | |- context [match ?s with Ok _ => _ | Raise _ => _ end] =>
        destruct s as [ga_source|e]; [|exact Hlogs]
    end.
    pose proof (flatten_entities_trace only_reconciles client environ
                  input_event sharded partitioned ga_source logged Hlogs)
      as Htrace.
    destruct (flatten_entities _ _ _ _ _ _) as [r w]. simpl in *.
    apply Htrace. unfold flatten_entities.
    apply emits_only_bind;
      [apply emits_only_reconciliation; [reflexivity | exact I]|].
    intros _.
    repeat (apply emits_only_bind; [|intros _]);
      apply emits_only_unlisted_entity;
      try (intros msg; exact I);
      intros nested_table; apply Hnot; unfold entity_variables; simpl; auto.
  - rewrite Hd. simpl. apply Forall_app. split; [exact Hlogs|].
    repeat constructor.
Qed.

End UnlistedEntities.

Lemma unlisted_entities_are_not_queried_witness :
  let client := scripted_client [] (Raise (ApiError 404)) [] (Ok tt) in
  let environ :=
    [("EVENT_PARAMS", "event_params"); ("USER_PROPERTIES", "user_properties");
     ("ITEMS", "items"); ("EVENTS", "events")] in
  let bq := mkDestinationTable "proj" "analytics_1" "events_20240229" in
  let config :=
    [("analytics_1",
      {| tables_to_flatten := Some ["pseudonymous_users"]; output := None |})] in
  Forall only_reconciles
    (snd (flatten_ga_data client environ (Ok bq) (Ok config))).
Proof.
  apply (@unlisted_entities_are_not_queried symbolic_pandas
           (scripted_client [] (Raise (ApiError 404)) [] (Ok tt)) _
           (mkDestinationTable "proj" "analytics_1" "events_20240229") _
           {| tables_to_flatten := Some ["pseudonymous_users"];
              output := None |}
           ["pseudonymous_users"]);
    [reflexivity | reflexivity |].
  intros variable nested_table [<-|[<-|[<-|[<-|[]]]]] E;
    vm_compute in E; injection E as <-; intros [D|[]]; discriminate D.
Defined.
